(** * eCFR analysis backend: a shallow embedding of [backend/analyzer.py]

    The development follows the layout of the Python module:
    text helpers of [str], the SHA-256 digest of [hashlib], the element
    trees of [xml.etree.ElementTree], insertion-ordered dictionaries, the
    document parser [parse_title_xml], the metrics, the index
    [build_agency_title_map], the analyzer [analyze_agencies], the
    sections extractor [extract_relevant_text_for_agency] with its route
    [get_agency_sections], and the differ [analyze_agencies_over_time];
    with them the fetchers of [backend/fetcher.py], the other routes of
    [backend/main.py] and the download loop of [frontend/app.py].

    Modelling conventions.
    - Python [str] values are modelled as [string] holding ASCII text; on
      such text [str.upper], [str.strip], [str.split] and
      [str.encode('utf-8')] are the functions below.
    - Exceptions are values of [exn]; a computation that may raise has
      type [res A].
    - The data folder is a finite map from (title, date) to the file
      stored under [title_<title>_<date>.xml], with agencies.json beside
      it; the eCFR server gives, for each request, a response with its
      status code and body, or no response when the transport fails and
      [requests.get] raises.
    - A JSON text that decodes has the shape of the feed of ecfr.gov;
      failures of the disk are not modelled. *)

From Stdlib Require Import ZArith List String Ascii Lia Bool.
From stdpp Require Import base option list gmap strings.
From stdpp Require Import sorting.

Local Open Scope string_scope.
Local Open Scope list_scope.
Local Open Scope Z_scope.

(* ===================================================================== *)
(** ** Text helpers: [str.strip], [str.split], [str.upper], [str.join] *)
(* ===================================================================== *)

Module Str.

(** [c.isspace()] on ASCII: TAB, LF, VT, FF, CR, FS, GS, RS, US, space. *)
Definition is_space (c : ascii) : bool :=
  let n := Z.of_N (N_of_ascii c) in
  ((9 <=? n) && (n <=? 13)) || ((28 <=? n) && (n <=? 32)).

Fixpoint lstrip (s : string) : string :=
  match s with
  | EmptyString => EmptyString
  | String c s' => if is_space c then lstrip s' else s
  end.

Fixpoint rstrip (s : string) : string :=
  match s with
  | EmptyString => EmptyString
  | String c s' =>
      match rstrip s' with
      | EmptyString => if is_space c then EmptyString else String c EmptyString
      | r => String c r
      end
  end.

(** [s.strip()] *)
Definition strip (s : string) : string := rstrip (lstrip s).

(** Truth value of a string: non-empty. *)
Definition truthy (s : string) : bool :=
  match s with EmptyString => false | String _ _ => true end.

(** [s.strip()] used as a condition. *)
Definition nonblank (s : string) : bool := truthy (strip s).

(** [s.split()]: maximal runs of non-whitespace characters.  [cur] is
    the token being read, if any. *)
Fixpoint split_from (cur : option string) (s : string) : list string :=
  match s with
  | EmptyString => match cur with Some t => [t] | None => [] end
  | String c s' =>
      if is_space c then
        match cur with
        | Some t => t :: split_from None s'
        | None => split_from None s'
        end
      else
        split_from (Some (match cur with
                          | Some t => String.append t (String c EmptyString)
                          | None => String c EmptyString
                          end)) s'
  end.

Definition split (s : string) : list string := split_from None s.

Definition upper_char (c : ascii) : ascii :=
  let n := N_of_ascii c in
  if ((97 <=? n) && (n <=? 122))%N then ascii_of_N (n - 32) else c.

(** [s.upper()] *)
Fixpoint upper (s : string) : string :=
  match s with
  | EmptyString => EmptyString
  | String c s' => String (upper_char c) (upper s')
  end.

(** [sep.join(l)] *)
Fixpoint join (sep : string) (l : list string) : string :=
  match l with
  | [] => EmptyString
  | [x] => x
  | x :: rest => String.append x (String.append sep (join sep rest))
  end.

End Str.

(* ===================================================================== *)
(** ** [hashlib.sha256(...).hexdigest()] (FIPS 180-4) on 32-bit words *)
(* ===================================================================== *)

Module SHA256.

Definition w32 (x : Z) : Z := x mod 2 ^ 32.
Definition add32 (x y : Z) : Z := w32 (x + y).
Definition rotr (n x : Z) : Z :=
  Z.lor (Z.shiftr x n) (w32 (Z.shiftl x (32 - n))).
Definition not32 (x : Z) : Z := Z.lxor x 0xffffffff.

Definition Ch (x y z : Z) : Z := Z.lxor (Z.land x y) (Z.land (not32 x) z).
Definition Maj (x y z : Z) : Z :=
  Z.lxor (Z.lxor (Z.land x y) (Z.land x z)) (Z.land y z).
Definition Sigma0 (x : Z) : Z :=
  Z.lxor (Z.lxor (rotr 2 x) (rotr 13 x)) (rotr 22 x).
Definition Sigma1 (x : Z) : Z :=
  Z.lxor (Z.lxor (rotr 6 x) (rotr 11 x)) (rotr 25 x).
Definition sigma0 (x : Z) : Z :=
  Z.lxor (Z.lxor (rotr 7 x) (rotr 18 x)) (Z.shiftr x 3).
Definition sigma1 (x : Z) : Z :=
  Z.lxor (Z.lxor (rotr 17 x) (rotr 19 x)) (Z.shiftr x 10).

(** The first 64 primes. *)
Definition is_prime (n : nat) : bool :=
  List.forallb (fun d => negb (Nat.eqb (n mod d) 0)) (seq 2 (n - 2)).

Definition primes : list Z :=
  List.map Z.of_nat (List.filter is_prime (seq 2 310)).

(** The largest [r] below [2 ^ bits] with [r ^ 3 <= n], bit by bit. *)
Fixpoint cube_root (bits : nat) (n r : Z) : Z :=
  match bits with
  | O => r
  | S b =>
      let c := r + 2 ^ Z.of_nat b in
      cube_root b n (if c * c * c <=? n then c else r)
  end.

(** Round constants: the first 32 bits of the fractional parts of the
    cube roots of the first 64 primes. *)
Definition K : list Z :=
  List.map (fun p => w32 (cube_root 40 (p * 2 ^ 96) 0)) primes.

(** Initial hash value: the same for the square roots of the first 8. *)
Definition H0 : list Z :=
  List.map (fun p => w32 (Z.sqrt (p * 2 ^ 64))) (List.firstn 8 primes).

(** Padding: 0x80, zeros up to 56 mod 64, then the bit length on 8 bytes. *)
Definition be_bytes (n : nat) (x : Z) : list Z :=
  List.map (fun i => Z.shiftr x (8 * Z.of_nat (n - 1 - i)) mod 256) (seq 0 n).

Definition pad (msg : list Z) : list Z :=
  let len := Z.of_nat (List.length msg) in
  let zeros := Z.to_nat ((55 - len) mod 64) in
  msg ++ [0x80] ++ List.repeat 0 zeros ++ be_bytes 8 (8 * len).

Fixpoint be_words (fuel : nat) (bs : list Z) : list Z :=
  match fuel, bs with
  | S fuel', a :: b :: c :: d :: rest =>
      (((a * 256 + b) * 256 + c) * 256 + d) :: be_words fuel' rest
  | _, _ => []
  end.

Definition word_at (ws : list Z) (i : nat) : Z := List.nth i ws 0.

(** Message schedule: [n] further words appended to the [ws] so far. *)
Fixpoint schedule (n : nat) (ws : list Z) : list Z :=
  match n with
  | O => ws
  | S n' =>
      let t := List.length ws in
      let w := add32 (add32 (sigma1 (word_at ws (t - 2))) (word_at ws (t - 7)))
                     (add32 (sigma0 (word_at ws (t - 15))) (word_at ws (t - 16))) in
      schedule n' (ws ++ [w])
  end.

Definition round (st : list Z) (kw : Z * Z) : list Z :=
  match st with
  | [a; b; c; d; e; f; g; h] =>
      let t1 := add32 (add32 (add32 h (Sigma1 e)) (add32 (Ch e f g) (fst kw))) (snd kw) in
      let t2 := add32 (Sigma0 a) (Maj a b c) in
      [add32 t1 t2; a; b; c; add32 d t1; e; f; g]
  | _ => st
  end.

Definition zip_with {A B C} (f : A -> B -> C) :=
  fix go (l : list A) (k : list B) : list C :=
    match l, k with
    | x :: l', y :: k' => f x y :: go l' k'
    | _, _ => []
    end.

Definition compress (h : list Z) (block : list Z) : list Z :=
  let ws := schedule 48 block in
  zip_with add32 h (List.fold_left round (zip_with pair K ws) h).

Fixpoint blocks (fuel : nat) (ws : list Z) (h : list Z) : list Z :=
  match fuel, ws with
  | S fuel', _ :: _ => blocks fuel' (List.skipn 16 ws) (compress h (List.firstn 16 ws))
  | _, _ => h
  end.

Definition digest (msg : list Z) : list Z :=
  let bs := pad msg in
  let ws := be_words (List.length bs) bs in
  blocks (List.length ws) ws H0.

Definition hex_digit (d : Z) : ascii :=
  ascii_of_N (Z.to_N (if d <? 10 then 48 + d else 87 + d)).

Fixpoint hex_of (n : nat) (x : Z) : string :=
  match n with
  | O => EmptyString
  | S n' => String (hex_digit (Z.shiftr x (4 * Z.of_nat n') mod 16)) (hex_of n' x)
  end.

Definition hex_words (ws : list Z) : string :=
  List.fold_right (fun w acc => String.append (hex_of 8 w) acc) EmptyString ws.

(** [text.encode('utf-8')] on ASCII text: one byte per character. *)
Fixpoint encode (s : string) : list Z :=
  match s with
  | EmptyString => []
  | String c s' => Z.of_N (N_of_ascii c) :: encode s'
  end.

Definition hexdigest (s : string) : string := hex_words (digest (encode s)).

End SHA256.

(* ===================================================================== *)
(** ** Exceptions *)
(* ===================================================================== *)

Inductive exn : Type :=
  | ParseError                                  (* ET.parse on malformed XML *)
  | AttributeError                              (* None.strip() *)
  | KeyError (key : string)                     (* d[key] on a missing key *)
  | FileNotFoundError                           (* opening a missing file *)
  | HTTPError                                   (* resp.raise_for_status() *)
  | ConnectionError                             (* requests.get: no response *)
  | JSONDecodeError                             (* json.load, resp.json() *)
  | HTTPException (status_code : Z) (detail : string).

Inductive res (A : Type) : Type :=
  | Ok (a : A)
  | Raise (e : exn).
Arguments Ok {A} a.
Arguments Raise {A} e.

Definition bind {A B} (m : res A) (k : A -> res B) : res B :=
  match m with
  | Ok a => k a
  | Raise e => Raise e
  end.

Notation "'let*' x ':=' m 'in' k" := (bind m (fun x => k))
  (at level 10, x pattern, m at level 100, k at level 200).

(* ===================================================================== *)
(** ** Insertion-ordered dictionaries (Python [dict]) *)
(* ===================================================================== *)

Section Dict.
Context {K V : Type} `{EqDecision K}.

(** [d.get(k)] *)
Fixpoint dict_get (k : K) (d : list (K * V)) : option V :=
  match d with
  | [] => None
  | (k', v) :: d' => if decide (k = k') then Some v else dict_get k d'
  end.

(** [d[k] = v]: replaces the value in place, or appends a new key. *)
Fixpoint dict_set (k : K) (v : V) (d : list (K * V)) : list (K * V) :=
  match d with
  | [] => [(k, v)]
  | (k', v') :: d' =>
      if decide (k = k') then (k', v) :: d' else (k', v') :: dict_set k v d'
  end.

(** [k in d] *)
Definition dict_mem (k : K) (d : list (K * V)) : bool :=
  match dict_get k d with Some _ => true | None => false end.

Definition dict_keys (d : list (K * V)) : list K := List.map fst d.

(** [d[k]] *)
Definition dict_item (show : K -> string) (k : K) (d : list (K * V)) : res V :=
  match dict_get k d with
  | Some v => Ok v
  | None => Raise (KeyError (show k))
  end.

End Dict.

Abbreviation dict K V := (list (K * V)).

(* ===================================================================== *)
(** ** Element trees ([xml.etree.ElementTree]) *)
(* ===================================================================== *)

(** An element: tag, attributes, the text before its first child, and its
    children in document order.  The analyzer never reads [tail]. *)
#[warnings="-register-all"] Inductive element : Type :=
  Element (tag : string) (attrib : list (string * string))
          (text : option string) (children : list element).

Definition tag (e : element) : string :=
  match e with Element t _ _ _ => t end.
Definition attrib (e : element) : list (string * string) :=
  match e with Element _ a _ _ => a end.
Definition text (e : element) : option string :=
  match e with Element _ _ x _ => x end.
Definition children (e : element) : list element :=
  match e with Element _ _ _ cs => cs end.

(** [elem.iter()]: the element, then its descendants, in document order. *)
Fixpoint iter (e : element) : list element :=
  match e with
  | Element _ _ _ cs => e :: List.flat_map iter cs
  end.

(** [elem.attrib.get(k, default)] *)
Definition attrib_get (k default : string) (e : element) : string :=
  match dict_get k (attrib e) with Some v => v | None => default end.

(** The predicate of [DIV3[@TYPE='CHAPTER']]. *)
Definition is_chapter (e : element) : bool :=
  String.eqb (tag e) "DIV3" &&
  match dict_get "TYPE" (attrib e) with
  | Some v => String.eqb v "CHAPTER"
  | None => false
  end.

(** [root.findall(".//DIV3[@TYPE='CHAPTER']")]: the matching proper
    descendants of [root], in document order. *)
Definition findall_chapters (root : element) : list element :=
  List.filter is_chapter (List.flat_map iter (children root)).

(** [elem.find("HEAD")]: the first child with that tag. *)
Definition find (t : string) (e : element) : option element :=
  List.find (fun c => String.eqb (tag c) t) (children e).

(** A file as [ET.parse] sees it. *)
Inductive xml_file : Type :=
  | WellFormed (root : element)
  | Malformed.

Definition ET_parse (f : xml_file) : res element :=
  match f with
  | WellFormed root => Ok root
  | Malformed => Raise ParseError
  end.

(* ===================================================================== *)
(** ** The data folder *)
(* ===================================================================== *)

(** The feed of ecfr.gov gives every agency a ["name"] and a
    ["cfr_references"] array; ["display_name"] may be missing, null or
    empty, and a reference may lack its ["title"] or its ["chapter"]. *)
Record cfr_reference : Type := {
  ref_title : option Z;          (* "title", when the key is there *)
  ref_chapter : option string    (* "chapter", when there and not null *)
}.

Record agency : Type := {
  name : string;
  display_name : option string;
  cfr_references : list cfr_reference
}.

#[global] Instance cfr_reference_eq_dec : EqDecision cfr_reference.
Proof. solve_decision. Defined.

#[global] Instance agency_eq_dec : EqDecision agency.
Proof. solve_decision. Defined.

(** The ["agencies"] array of agencies.json. *)
Definition agencies_data : Type := list agency.

(** A text as [json.load] and [resp.json()] see it. *)
Inductive json_text : Type :=
  | Json (data : agencies_data)
  | NotJson.

Definition json_load (f : json_text) : res agencies_data :=
  match f with
  | Json data => Ok data
  | NotJson => Raise JSONDecodeError
  end.

(** [backend/data]: agencies.json when it is there, and the files
    title_<title>_<date>.xml. *)
Record data_folder : Type := {
  agencies_json : option json_text;
  title_xml : gmap (Z * string) xml_file
}.

(** What [requests.get] comes back with: a response, of which the code
    reads the status code and the body, or nothing, when the transport
    fails (no connection, time-out) and the call raises. *)
Inductive response (A : Type) : Type :=
  | Response (status_code : Z) (content : A)
  | NoResponse.
Arguments Response {A} status_code content.
Arguments NoResponse {A}.

Definition requests_get {A} (r : response A) : res (Z * A) :=
  match r with
  | Response status_code content => Ok (status_code, content)
  | NoResponse => Raise ConnectionError
  end.

(** [resp.raise_for_status()]: raises on a client or server error. *)
Definition raise_for_status (status_code : Z) : res unit :=
  if (400 <=? status_code) && (status_code <? 600) then Raise HTTPError else Ok tt.

Definition xml_path (title_num : Z) (date : string) : Z * string :=
  (title_num, date).

(** [os.path.exists(xml_file)] *)
Definition exists_xml (w : data_folder) (p : Z * string) : bool :=
  match title_xml w !! p with Some _ => true | None => false end.

(* ===================================================================== *)
(** ** [parse_title_xml] *)
(* ===================================================================== *)

(** The stripped texts gathered by
    [if elem.text and elem.text.strip(): text_blocks.append(elem.text.strip())]
    over a sequence of elements. *)
Definition text_block (e : element) : list string :=
  match text e with
  | Some s => if Str.truthy s && Str.truthy (Str.strip s) then [Str.strip s] else []
  | None => []
  end.

Definition text_blocks (es : list element) : list string :=
  List.flat_map text_block es.

(** [chapter_elem.attrib.get("N", "").upper()] *)
Definition chapter_number (chapter_elem : element) : string :=
  Str.upper (attrib_get "N" "" chapter_elem).

(** [any(chap and chap.upper() == chapter_number for chap in target_chapters)] *)
Definition any_chapter (target_chapters : list (option string)) (number : string) : bool :=
  List.existsb (fun chap =>
                  match chap with
                  | Some c => Str.truthy c && String.eqb (Str.upper c) number
                  | None => false
                  end) target_chapters.

(** [not target_chapters]: [None] or an empty list. *)
Definition not_target (target_chapters : option (list (option string))) : bool :=
  match target_chapters with
  | None => true
  | Some [] => true
  | Some (_ :: _) => false
  end.

Definition targets (target_chapters : option (list (option string))) : list (option string) :=
  match target_chapters with Some l => l | None => [] end.

(** The text of one chapter (or of the whole document, from its root). *)
Definition flat_text (e : element) : string :=
  Str.join " " (text_blocks (iter e)).

(** Flat mode with a filter: the loop over the chapters found. *)
Fixpoint flat_chapters (chapters : list element) (target : list (option string))
    (text_blocks_acc : list string) : list string :=
  match chapters with
  | [] => text_blocks_acc
  | chapter_elem :: rest =>
      if any_chapter target (chapter_number chapter_elem)
      then flat_chapters rest target (text_blocks_acc ++ text_blocks (iter chapter_elem))
      else flat_chapters rest target text_blocks_acc
  end.

(** [heading_elem.text.strip() if heading_elem is not None
     else f"Chapter {chapter_number}"] *)
Definition heading_of (chapter_elem : element) : res string :=
  match find "HEAD" chapter_elem with
  | Some heading_elem =>
      match text heading_elem with
      | Some s => Ok (Str.strip s)
      | None => Raise AttributeError
      end
  | None => Ok (String.append "Chapter " (chapter_number chapter_elem))
  end.

(** Whether the sectioned loop takes a chapter. *)
Definition selected (target_chapters : option (list (option string)))
    (chapter_elem : element) : bool :=
  not_target target_chapters
  || any_chapter (targets target_chapters) (chapter_number chapter_elem).

(** Sectioned mode: the loop over the chapters found. *)
Fixpoint section_chapters (chapters : list element)
    (target_chapters : option (list (option string)))
    (chapter_texts : dict string string) : res (dict string string) :=
  match chapters with
  | [] => Ok chapter_texts
  | chapter_elem :: rest =>
      if selected target_chapters chapter_elem then
        let* heading := heading_of chapter_elem in
        section_chapters rest target_chapters
          (dict_set heading (flat_text chapter_elem) chapter_texts)
      else section_chapters rest target_chapters chapter_texts
  end.

Definition parsed (return_sections : bool) : Type :=
  if return_sections then dict string string else string.

(** [open(file_path)] inside [ET.parse]. *)
Definition read_xml (w : data_folder) (file_path : Z * string) : res xml_file :=
  match title_xml w !! file_path with
  | Some f => Ok f
  | None => Raise FileNotFoundError
  end.

Definition parse_root (root : element) (target_chapters : option (list (option string)))
    (return_sections : bool) : res (parsed return_sections) :=
  match return_sections return res (parsed return_sections) with
  | false =>
      if not_target target_chapters
      then Ok (Str.join " " (text_blocks (iter root)))
      else Ok (Str.join " "
                 (flat_chapters (findall_chapters root) (targets target_chapters) []))
  | true => section_chapters (findall_chapters root) target_chapters []
  end.

Definition parse_title_xml (w : data_folder) (file_path : Z * string)
    (target_chapters : option (list (option string)))
    (return_sections : bool) : res (parsed return_sections) :=
  let* f := read_xml w file_path in
  let* root := ET_parse f in
  parse_root root target_chapters return_sections.

(* ===================================================================== *)
(** ** Sample feeds, documents and folders used in the worked examples *)
(* ===================================================================== *)

Module Samples.

Definition whole (title_num : Z) : cfr_reference :=
  {| ref_title := Some title_num; ref_chapter := None |}.
Definition scoped (title_num : Z) (chapter : string) : cfr_reference :=
  {| ref_title := Some title_num; ref_chapter := Some chapter |}.

(** One agency referring to titles 3 and 5. *)
Definition agency_3_5 : agency :=
  {| name := "A"; display_name := None; cfr_references := [whole 3; whole 5] |}.
Definition feed_3_5 : agencies_data := [agency_3_5].

(** Title 5 reads "a b c". *)
Definition doc_abc : element :=
  Element "ECFR" [] None [Element "P" [] (Some "a b c") []].

(** Only title 5 is in the folder. *)
Definition folder_3_5 : data_folder :=
  {| agencies_json := Some (Json feed_3_5);
     title_xml := {[ xml_path 5 "2024-07-01" := WellFormed doc_abc ]} |}.

(** Two feed entries under one name. *)
Definition feed_same_name : agencies_data :=
  [ {| name := "A"; display_name := None; cfr_references := [whole 1] |};
    {| name := "A"; display_name := None; cfr_references := [whole 2] |} ].

(** An agency scoped to chapter I of title 7 by one reference, with a
    second reference to title 7 that carries no chapter. *)
Definition agency_mixed : agency :=
  {| name := "A"; display_name := None; cfr_references := [scoped 7 "I"; whole 7] |}.
Definition feed_mixed : agencies_data := [agency_mixed].

(** An agency whose display name is another agency's name. *)
Definition agency_x : agency :=
  {| name := "X"; display_name := Some "Y"; cfr_references := [scoped 1 "I"] |}.
Definition agency_z : agency :=
  {| name := "Z"; display_name := Some "X"; cfr_references := [scoped 1 "II"] |}.
Definition feed_crossed : agencies_data := [agency_x; agency_z].

(** An agency with a display name of its own and no namesake. *)
Definition feed_renamed : agencies_data := [agency_x].

(** Two chapters under the same heading. *)
Definition chapter (n : string) (head : option string) (body : string) : element :=
  Element "DIV3" [("N", n); ("TYPE", "CHAPTER")] None
    (match head with
     | Some h => [Element "HEAD" [] (Some h) []]
     | None => []
     end ++ [Element "P" [] (Some body) []]).

Definition doc_same_heading : element :=
  Element "ECFR" [] None
    [ chapter "I" (Some "[Reserved]") "one";
      chapter "II" (Some "[Reserved]") "two" ].

Definition doc_two_chapters : element :=
  Element "ECFR" [] None
    [ chapter "I" (Some " Chapter I-First ") "one";
      chapter "ii" None "two" ].

(** The agency of [feed_3_5] with nothing in the folder. *)
Definition folder_bare : data_folder :=
  {| agencies_json := Some (Json feed_3_5); title_xml := ∅ |}.

(** Title 5 at two dates: "a b c", then "a b c d e". *)
Definition doc_abcde : element :=
  Element "ECFR" [] None
    [Element "P" [] (Some "a b c") []; Element "P" [] (Some " d e") []].

Definition folder_two_dates : data_folder :=
  {| agencies_json := Some (Json feed_3_5);
     title_xml := {[ xml_path 5 "2024-07-01" := WellFormed doc_abc;
                     xml_path 5 "2025-01-01" := WellFormed doc_abcde ]} |}.

(** A server that answers every request with status 404. *)
Definition not_found : string -> Z -> response xml_file :=
  fun _ _ => Response 404 Malformed.
Definition no_feed : response json_text := Response 404 NotJson.

(** A server that cannot be reached. *)
Definition unreachable : string -> Z -> response xml_file := fun _ _ => NoResponse.

(** A stand-in for the readability formula: grades are integers. *)
Definition grade_of (text : string) : res Z := Ok (Z.of_nat (String.length text)).

(** A folder holding the two documents above as titles 1 and 2. *)
Definition folder_chapters : data_folder :=
  {| agencies_json := None;
     title_xml := {[ xml_path 1 "2024-07-01" := WellFormed doc_same_heading;
                     xml_path 2 "2024-07-01" := WellFormed doc_two_chapters ]} |}.

(** A chapter whose HEAD element is empty. *)
Definition doc_empty_head : element :=
  Element "ECFR" [] None
    [ Element "DIV3" [("N", "I"); ("TYPE", "CHAPTER")] None
        [Element "HEAD" [] None []; Element "P" [] (Some "one") []] ].

Definition folder_empty_head : data_folder :=
  {| agencies_json := None;
     title_xml := {[ xml_path 4 "2024-07-01" := WellFormed doc_empty_head ]} |}.

(** An agency scoped to a chapter that title 2 does not have. *)
Definition feed_absent_chapter : agencies_data :=
  [ {| name := "N"; display_name := None; cfr_references := [scoped 2 "IX"] |} ].

(** An agency scoped to chapter I of title 2, with the title at hand. *)
Definition feed_sections : agencies_data :=
  [ {| name := "S"; display_name := None; cfr_references := [scoped 2 "i"] |} ].

Definition folder_sections : data_folder :=
  {| agencies_json := Some (Json feed_sections);
     title_xml := {[ xml_path 2 "2024-07-01" := WellFormed doc_two_chapters ]} |}.

(** An agency that refers to title 5 twice. *)
Definition feed_twice : agencies_data :=
  [ {| name := "A"; display_name := None; cfr_references := [whole 5; whole 5] |} ].

(** One agency referring to titles 3, 5 and 6; titles 5 and 6 are in
    the folder. *)
Definition agency_3_5_6 : agency :=
  {| name := "B"; display_name := None; cfr_references := [whole 3; whole 5; whole 6] |}.
Definition feed_3_5_6 : agencies_data := [agency_3_5_6].

Definition folder_3_5_6 : data_folder :=
  {| agencies_json := Some (Json feed_3_5_6);
     title_xml := {[ xml_path 5 "2024-07-01" := WellFormed doc_abc;
                     xml_path 6 "2024-07-01" := WellFormed doc_abcde ]} |}.

(** A server that serves title 5 of 2024-07-01 and nothing else. *)
Definition serves_5 : string -> Z -> response xml_file :=
  fun date t =>
    if String.eqb date "2024-07-01" && Z.eqb t 5
    then Response 200 (WellFormed doc_abc) else Response 404 Malformed.

End Samples.

(* ===================================================================== *)
(** ** Metrics *)
(* ===================================================================== *)

(** [len(text.split())] *)
Definition compute_word_count (text : string) : Z :=
  Z.of_nat (List.length (Str.split text)).

(** [hashlib.sha256(text.encode('utf-8')).hexdigest()] *)
Definition compute_checksum (text : string) : string :=
  SHA256.hexdigest text.

Section Analyzer.

(** Readability grades are floating-point numbers; the analyzer only
    stores and subtracts them. *)
Variable grade : Type.
Variable grade_sub : grade -> grade -> grade.
(** [textstat.flesch_kincaid_grade], which may raise. *)
Variable flesch_kincaid_grade : string -> res grade.

(** The eCFR server.  [ecfr_agencies] is what comes back from
    /api/admin/v1/agencies.json and [ecfr_title date title] what comes
    back from /api/versioner/v1/full/<date>/title-<title>.xml.  Its
    answers do not change during a run. *)
Variable ecfr_agencies : response json_text.
Variable ecfr_title : string -> Z -> response xml_file.

(** [try: return textstat.flesch_kincaid_grade(text) except: return None] *)
Definition compute_complexity (text : string) : option grade :=
  match flesch_kincaid_grade text with
  | Ok g => Some g
  | Raise _ => None
  end.

(* =================================================================== *)
(** ** [backend/fetcher.py] *)
(* =================================================================== *)

(** [fetch_agencies]: the request, [raise_for_status], [resp.json()],
    then [json.dump] into agencies.json. *)
Definition fetch_agencies (w : data_folder) : res data_folder :=
  let* (status_code, body) := requests_get ecfr_agencies in
  let* _ := raise_for_status status_code in
  let* data := json_load body in
  Ok {| agencies_json := Some (Json data); title_xml := title_xml w |}.

(** [fetch_full_title_xml]: the request; on status 200 writes the file
    and returns [True], on any other status returns [False]. *)
Definition fetch_full_title_xml (w : data_folder) (date : string) (title_number : Z)
    : res (data_folder * bool) :=
  let* (status_code, content) := requests_get (ecfr_title date title_number) in
  if status_code =? 200 then
    Ok ({| agencies_json := agencies_json w;
           title_xml := <[xml_path title_number date := content]> (title_xml w) |},
        true)
  else Ok (w, false).

(* =================================================================== *)
(** ** [load_json], as the analyzer calls it: on agencies.json *)
(* =================================================================== *)

Definition load_json (w : data_folder) : res (data_folder * agencies_data) :=
  match agencies_json w with
  | Some f =>
      let* data := json_load f in
      Ok (w, data)
  | None =>
      let* w' := fetch_agencies w in
      match agencies_json w' with
      | Some f =>
          let* data := json_load f in
          Ok (w', data)
      | None => Raise FileNotFoundError
      end
  end.

(* =================================================================== *)
(** ** [build_agency_title_map] *)
(* =================================================================== *)

Record agency_info : Type := {
  titles : list Z;
  info_name : string
}.

(** [[ref["title"] for ref in agency.get("cfr_references") if "title" in ref]] *)
Definition titles_of (a : agency) : list Z :=
  List.flat_map (fun ref => match ref_title ref with Some t => [t] | None => [] end)
                (cfr_references a).

Definition build_agency_title_map (data : agencies_data) : dict string agency_info :=
  List.fold_left
    (fun agency_map a =>
       let titles := titles_of a in
       match titles with
       | _ :: _ => dict_set (name a) {| titles := titles; info_name := name a |} agency_map
       | [] => agency_map
       end)
    data [].

(* =================================================================== *)
(** ** The chapter filter of a (name, title) pair *)
(* =================================================================== *)

(** [agency.get("display_name") or agency.get("name")] *)
Definition display_or_name (a : agency) : string :=
  match display_name a with
  | Some d => if Str.truthy d then d else name a
  | None => name a
  end.

Definition title_is (cref : cfr_reference) (title_num : Z) : bool :=
  match ref_title cref with
  | Some t => Z.eqb t title_num
  | None => false
  end.

Definition is_not_None {A} (o : option A) : bool :=
  match o with Some _ => true | None => false end.

(** The comprehension building [relevant_chapters]. *)
Definition relevant_chapters (data : agencies_data) (agency_id : string) (title_num : Z)
    : list (option string) :=
  List.flat_map
    (fun a =>
       if String.eqb (display_or_name a) agency_id then
         List.flat_map
           (fun cref =>
              if title_is cref title_num && is_not_None (ref_chapter cref)
              then [ref_chapter cref] else [])
           (cfr_references a)
       else [])
    data.

(** [if not relevant_chapters or any(chap is None for chap in relevant_chapters):
       relevant_chapters = None] *)
Definition chapter_filter (relevant : list (option string)) : option (list (option string)) :=
  match relevant with
  | [] => None
  | _ :: _ =>
      if List.existsb (fun chap => negb (is_not_None chap)) relevant
      then None else Some relevant
  end.

(* =================================================================== *)
(** ** [analyze_agencies] *)
(* =================================================================== *)

Record metrics_record : Type := {
  agency_name : string;
  word_count : Z;
  checksum : string;
  complexity : option grade;
  titles_count : Z;
  titles_analyzed : list Z
}.

(** The three accumulators of the loop over an agency's titles. *)
Record accum : Type := {
  combined_text : string;
  total_word_count : Z;
  analyzed_titles : list Z
}.

Definition accum_init : accum :=
  {| combined_text := ""; total_word_count := 0; analyzed_titles := [] |}.

(** One pass of [for title_num in info["titles"]]. *)
Definition analyze_title (data : agencies_data) (date agency_id : string)
    (w : data_folder) (acc : accum) (title_num : Z) : res (data_folder * accum) :=
  let xml_file := xml_path title_num date in
  let* (w1, success) :=
    if exists_xml w xml_file then Ok (w, true)
    else fetch_full_title_xml w date title_num in
  if negb success then Ok (w1, acc)
  else
    let target := chapter_filter (relevant_chapters data agency_id title_num) in
    let* text := parse_title_xml w1 xml_file target false in
    if Str.nonblank text then
      Ok (w1, {| combined_text := String.append (combined_text acc) (String.append " " text);
                 total_word_count := total_word_count acc + compute_word_count text;
                 analyzed_titles := analyzed_titles acc ++ [title_num] |})
    else Ok (w1, acc).

Fixpoint analyze_titles (data : agencies_data) (date agency_id : string)
    (title_nums : list Z) (w : data_folder) (acc : accum) : res (data_folder * accum) :=
  match title_nums with
  | [] => Ok (w, acc)
  | title_num :: rest =>
      let* (w1, acc1) := analyze_title data date agency_id w acc title_num in
      analyze_titles data date agency_id rest w1 acc1
  end.

(** [if agency_filter and agency_id != agency_filter: continue] *)
Definition filtered_out (agency_filter : option string) (agency_id : string) : bool :=
  match agency_filter with
  | Some f => Str.truthy f && negb (String.eqb agency_id f)
  | None => false
  end.

(** The record built after the loop over the titles, if any. *)
Definition build_record (info : agency_info) (acc : accum) : option metrics_record :=
  if Str.nonblank (combined_text acc) then
    Some {| agency_name := info_name info;
            word_count := total_word_count acc;
            checksum := compute_checksum (combined_text acc);
            complexity := compute_complexity (combined_text acc);
            titles_count := Z.of_nat (List.length (analyzed_titles acc));
            titles_analyzed := analyzed_titles acc |}
  else None.

(** One pass of [for agency_id, info in agency_map.items()]. *)
Definition analyze_agency (data : agencies_data) (date : string)
    (agency_filter : option string) (w : data_folder)
    (results : dict string metrics_record) (item : string * agency_info)
    : res (data_folder * dict string metrics_record) :=
  let '(agency_id, info) := item in
  if filtered_out agency_filter agency_id then Ok (w, results)
  else
    let* (w1, acc) := analyze_titles data date agency_id (titles info) w accum_init in
    match build_record info acc with
    | Some r => Ok (w1, dict_set agency_id r results)
    | None => Ok (w1, results)
    end.

Fixpoint analyze_items (data : agencies_data) (date : string)
    (agency_filter : option string) (items : list (string * agency_info))
    (w : data_folder) (results : dict string metrics_record)
    : res (data_folder * dict string metrics_record) :=
  match items with
  | [] => Ok (w, results)
  | item :: rest =>
      let* (w1, results1) := analyze_agency data date agency_filter w results item in
      analyze_items data date agency_filter rest w1 results1
  end.

Definition analyze_agencies (w : data_folder) (date : string)
    (agency_filter : option string)
    : res (data_folder * dict string metrics_record) :=
  let* (w0, data) := load_json w in
  let agency_map := build_agency_title_map data in
  analyze_items data date agency_filter agency_map w0 [].

(* =================================================================== *)
(** ** [extract_relevant_text_for_agency] and its route *)
(* =================================================================== *)

(** [for heading, text in chapter_text.items():
       if text.strip(): sections[heading] = text] *)
Definition merge_sections (chapter_text sections : dict string string)
    : dict string string :=
  List.fold_left
    (fun sections ht =>
       if Str.nonblank (snd ht) then dict_set (fst ht) (snd ht) sections else sections)
    chapter_text sections.

(** One pass of [for title_num in info["titles"]]. *)
Definition extract_title (data : agencies_data) (agency_name date : string)
    (w : data_folder) (sections : dict string string) (title_num : Z)
    : res (data_folder * dict string string) :=
  let xml_file := xml_path title_num date in
  let* w1 :=
    if exists_xml w xml_file then Ok w
    else let* (w', _) := fetch_full_title_xml w date title_num in Ok w' in
  if exists_xml w1 xml_file then
    let target := chapter_filter (relevant_chapters data agency_name title_num) in
    let* chapter_text := parse_title_xml w1 xml_file target true in
    Ok (w1, merge_sections chapter_text sections)
  else Ok (w1, sections).

Fixpoint extract_titles (data : agencies_data) (agency_name date : string)
    (title_nums : list Z) (w : data_folder) (sections : dict string string)
    : res (data_folder * dict string string) :=
  match title_nums with
  | [] => Ok (w, sections)
  | title_num :: rest =>
      let* (w1, sections1) := extract_title data agency_name date w sections title_num in
      extract_titles data agency_name date rest w1 sections1
  end.

Definition extract_relevant_text_for_agency (w : data_folder)
    (agency_name date : string) : res (data_folder * dict string string) :=
  let* (w0, data) := load_json w in
  let agency_map := build_agency_title_map data in
  let* info := dict_item id agency_name agency_map in
  let sections : dict string string := [] in
  if negb (dict_mem agency_name agency_map) then Ok (w0, sections)
  else extract_titles data agency_name date (titles info) w0 sections.

(** [main.get_agency_sections]: 404 when no section comes back. *)
Definition get_agency_sections (w : data_folder) (agency_arg date : string)
    : res (data_folder * (string * dict string string)) :=
  let* (w1, sections) := extract_relevant_text_for_agency w agency_arg date in
  match sections with
  | [] => Raise (HTTPException 404 "No sections found for this agency.")
  | _ :: _ => Ok (w1, (agency_arg, sections))
  end.

(* =================================================================== *)
(** ** [analyze_agencies_over_time] *)
(* =================================================================== *)

(** The values stored in an agency's records: the metrics of a date, or
    the delta stored under the key "delta". *)
Inductive history_value : Type :=
  | Metrics (word_count : Z) (checksum : string) (complexity : option grade)
  | Delta (word_count : Z) (complexity_change : option grade).

(** [v["word_count"]] *)
Definition hv_word_count (v : history_value) : Z :=
  match v with
  | Metrics wc _ _ => wc
  | Delta wc _ => wc
  end.

(** [v["complexity"]] *)
Definition hv_complexity (v : history_value) : res (option grade) :=
  match v with
  | Metrics _ _ c => Ok c
  | Delta _ _ => Raise (KeyError "complexity")
  end.

Definition metrics_subset (m : metrics_record) : history_value :=
  Metrics (word_count m) (checksum m) (complexity m).

(** One pass of [for agency, metrics in agency_metrics.items()]:
    [if agency not in history: history[agency] = {}], then
    [history[agency][date] = {...}]. *)
Definition record_metrics (date : string)
    (history : dict string (dict string history_value))
    (am : string * metrics_record) : dict string (dict string history_value) :=
  let history1 :=
    if dict_mem (fst am) history then history else dict_set (fst am) [] history in
  let records := match dict_get (fst am) history1 with Some r => r | None => [] end in
  dict_set (fst am) (dict_set date (metrics_subset (snd am)) records) history1.

Definition record_date (date : string) (agency_metrics : dict string metrics_record)
    (history : dict string (dict string history_value))
    : dict string (dict string history_value) :=
  List.fold_left (record_metrics date) agency_metrics history.

(** The loop [for date in dates]. *)
Fixpoint collect_history (dates : list string) (agency_filter : option string)
    (w : data_folder) (history : dict string (dict string history_value))
    : res (data_folder * dict string (dict string history_value)) :=
  match dates with
  | [] => Ok (w, history)
  | date :: rest =>
      let* (w1, agency_metrics) := analyze_agencies w date agency_filter in
      collect_history rest agency_filter w1 (record_date date agency_metrics history)
  end.

(** The dictionary bound to [delta]. *)
Definition delta_of (r_start r_end : history_value) : res history_value :=
  let wc := hv_word_count r_end - hv_word_count r_start in
  let* c_end := hv_complexity r_end in
  match c_end with
  | None => Ok (Delta wc None)
  | Some g_end =>
      let* c_start := hv_complexity r_start in
      match c_start with
      | None => Ok (Delta wc None)
      | Some g_start => Ok (Delta wc (Some (grade_sub g_end g_start)))
      end
  end.

(** One pass of [for agency, records in history.items()]:
    [if start in records and end in records: ... records["delta"] = delta]. *)
Definition attach_delta (start end_ : string) (records : dict string history_value)
    : res (dict string history_value) :=
  match dict_get start records, dict_get end_ records with
  | Some r_start, Some r_end =>
      let* delta := delta_of r_start r_end in
      Ok (dict_set "delta" delta records)
  | _, _ => Ok records
  end.

Fixpoint add_deltas (start end_ : string)
    (history : dict string (dict string history_value))
    : res (dict string (dict string history_value)) :=
  match history with
  | [] => Ok []
  | (agency_key, records) :: rest =>
      let* records1 := attach_delta start end_ records in
      let* rest1 := add_deltas start end_ rest in
      Ok ((agency_key, records1) :: rest1)
  end.

Definition analyze_agencies_over_time (w : data_folder) (dates : list string)
    (agency_filter : option string)
    : res (data_folder * dict string (dict string history_value)) :=
  let* (w1, history) := collect_history dates agency_filter w [] in
  match dates with
  | [start; end_] =>
      let* history1 := add_deltas start end_ history in
      Ok (w1, history1)
  | _ => Ok (w1, history)
  end.

(* =================================================================== *)
(** ** The other routes of [backend/main.py] *)
(* =================================================================== *)

Definition DEFAULT_DATE : string := "2024-07-01".

(** A query parameter with a default: the value sent, else the default. *)
Definition query_default (default : string) (sent : option string) : string :=
  match sent with Some v => v | None => default end.

(** [{name: f(info) for name, info in results.items()}] *)
Definition dict_comprehension {A B} (f : A -> B) (d : dict string A) : dict string B :=
  List.fold_left (fun acc kv => dict_set (fst kv) (f (snd kv)) acc) d [].

(** [sorted(names)]: ascending, strings compared character by character. *)
Definition sorted (names : list string) : list string :=
  merge_sort String.le names.

(** [GET /api/agencies] *)
Definition get_agencies (w : data_folder) : res (data_folder * list string) :=
  let* (w0, data) := load_json w in
  Ok (w0, sorted (display_or_name <$> data)).

(** [GET /api/historical]: 400 without an agency. *)
Definition historical (w : data_folder) (dates : list string) (agency_arg : string)
    : res (data_folder * dict string (dict string history_value)) :=
  if negb (Str.truthy agency_arg)
  then Raise (HTTPException 400 "Agency must be specified.")
  else analyze_agencies_over_time w dates (Some agency_arg).

(** [GET /api/wordcount] *)
Definition wordcount (w : data_folder) (date agency_arg : option string)
    : res (data_folder * dict string Z) :=
  let* (w1, results) := analyze_agencies w (query_default DEFAULT_DATE date) agency_arg in
  Ok (w1, dict_comprehension word_count results).

(** [GET /api/checksums] *)
Definition checksums (w : data_folder) (date agency_arg : option string)
    : res (data_folder * dict string string) :=
  let* (w1, results) := analyze_agencies w (query_default DEFAULT_DATE date) agency_arg in
  Ok (w1, dict_comprehension checksum results).

(** [GET /api/complexity] (the route; [complexity] is the field) *)
Definition complexity_route (w : data_folder) (date agency_arg : option string)
    : res (data_folder * dict string (option grade)) :=
  let* (w1, results) := analyze_agencies w (query_default DEFAULT_DATE date) agency_arg in
  Ok (w1, dict_comprehension complexity results).

(* =================================================================== *)
(** ** The download loop of [frontend/app.py] *)
(* =================================================================== *)

(** [for title in selected_titles: success = fetch_full_title_xml(date, title) ...] *)
Fixpoint download_loop (date : string) (selected_titles : list Z) (w : data_folder)
    (successes failures : list Z) : res (data_folder * list Z * list Z) :=
  match selected_titles with
  | [] => Ok (w, successes, failures)
  | title :: rest =>
      let* (w1, success) := fetch_full_title_xml w date title in
      if success then download_loop date rest w1 (successes ++ [title]) failures
      else download_loop date rest w1 successes (failures ++ [title])
  end.

(** What the "Download Selected Titles" button does: nothing but a
    warning without a selection, else the loop. *)
Definition download_selected (date : string) (selected_titles : list Z) (w : data_folder)
    : res (option (data_folder * list Z * list Z)) :=
  match selected_titles with
  | [] => Ok None
  | _ :: _ =>
      let* done := download_loop date selected_titles w [] [] in
      Ok (Some done)
  end.

(* =================================================================== *)
(** ** Notions used to state the properties *)
(* =================================================================== *)

(** A feed entry that [build_agency_title_map] stores under [n]. *)
Definition indexed_as (n : string) (a : agency) : bool :=
  String.eqb (name a) n
  && match titles_of a with [] => false | _ :: _ => true end.

Definition info_of (a : agency) : agency_info :=
  {| titles := titles_of a; info_name := name a |}.

(** The Chapter Nodes of a document that a filter selects, in document
    order. *)
Definition matching_chapters (root : element)
    (target_chapters : option (list (option string))) : list element :=
  List.filter (selected target_chapters) (findall_chapters root).

(** The entries stored for a list of chapters under the given keys. *)
Definition section_entries (keys : list string) (chapters : list element)
    : list (string * string) :=
  zip keys (flat_text <$> chapters).

(** The filter the analyzer hands to the parser for a (name, title) pair. *)
Definition filter_of (data : agencies_data) (agency_id : string) (title_num : Z)
    : option (list (option string)) :=
  chapter_filter (relevant_chapters data agency_id title_num).

(** The texts [t1; ...; tn] laid out as [combined_text += " " + text]
    does: " t1 ... tn". *)
Definition prefixed (texts : list string) : string :=
  List.fold_right (fun s rest => String.append " " (String.append s rest)) "" texts.

Definition sum_Z (l : list Z) : Z := List.fold_right Z.add 0 l.

(** The accumulators after the (title, text) pairs [cs] have been added. *)
Definition add_all (acc : accum) (cs : list (Z * string)) : accum :=
  {| combined_text := String.append (combined_text acc) (prefixed (snd <$> cs));
     total_word_count :=
       total_word_count acc + sum_Z (compute_word_count <$> (snd <$> cs));
     analyzed_titles := analyzed_titles acc ++ (fst <$> cs) |}.

(** What a request for a title ends in: the file sent with status 200,
    nothing on another status, an exception without a response. *)
Definition served_title (date : string) (t : Z) : res (option xml_file) :=
  let* (status_code, content) := requests_get (ecfr_title date t) in
  Ok (if status_code =? 200 then Some content else None).

(** What the request for the feed ends in. *)
Definition served_agencies : res agencies_data :=
  let* (status_code, body) := requests_get ecfr_agencies in
  let* _ := raise_for_status status_code in
  json_load body.

(** How the folder evolves during a run: each title file is as it was,
    or was missing and now holds what the server sent for it. *)
Definition grows (w w' : data_folder) : Prop :=
  ∀ p, title_xml w' !! p = title_xml w !! p
       ∨ (title_xml w !! p = None
          ∧ served_title (snd p) (fst p) = Ok (title_xml w' !! p)).

(** The text a title yields for an agency, read from the folder [w]. *)
Definition yields (w : data_folder) (data : agencies_data) (date agency_id : string)
    (c : Z * string) : Prop :=
  parse_title_xml w (xml_path (fst c) date) (filter_of data agency_id (fst c)) false
  = Ok (snd c)
  ∧ Str.nonblank (snd c) = true.

(** A record made of the texts that a sub-list of the agency's titles
    yield in the folder [w]. *)
Definition made_of (w : data_folder) (data : agencies_data) (date agency_id : string)
    (info : agency_info) (r : metrics_record) : Prop :=
  ∃ cs : list (Z * string),
    build_record info (add_all accum_init cs) = Some r
    ∧ (fst <$> cs) `sublist_of` titles info
    ∧ Forall (yields w data date agency_id) cs.

(** What a run can see of a title and of the feed: the file in the
    folder, else what the server would send. *)
Definition view_xml (w : data_folder) (date : string) (t : Z) : res (option xml_file) :=
  match title_xml w !! xml_path t date with
  | Some f => Ok (Some f)
  | None => served_title date t
  end.

Definition view_agencies (w : data_folder) : res agencies_data :=
  match agencies_json w with
  | Some f => json_load f
  | None => served_agencies
  end.

Definition same_view (w w' : data_folder) : Prop :=
  view_agencies w = view_agencies w'
  ∧ ∀ date t, view_xml w date t = view_xml w' date t.

(** The run as a function of what the folder shows, leaving the folder
    out: title, titles, agency, items, run. *)
Definition push (acc : accum) (title_num : Z) (text : string) : accum :=
  if Str.nonblank text then
    {| combined_text := String.append (combined_text acc) (String.append " " text);
       total_word_count := total_word_count acc + compute_word_count text;
       analyzed_titles := analyzed_titles acc ++ [title_num] |}
  else acc.

Definition expected_title (w : data_folder) (data : agencies_data)
    (date agency_id : string) (acc : accum) (title_num : Z) : res accum :=
  let* seen := view_xml w date title_num in
  match seen with
  | None => Ok acc
  | Some f =>
      let* root := ET_parse f in
      let* text := parse_root root (filter_of data agency_id title_num) false in
      Ok (push acc title_num text)
  end.

Fixpoint expected_titles (w : data_folder) (data : agencies_data)
    (date agency_id : string) (title_nums : list Z) (acc : accum) : res accum :=
  match title_nums with
  | [] => Ok acc
  | title_num :: rest =>
      let* acc1 := expected_title w data date agency_id acc title_num in
      expected_titles w data date agency_id rest acc1
  end.

Definition expected_agency (w : data_folder) (data : agencies_data) (date : string)
    (agency_filter : option string) (results : dict string metrics_record)
    (item : string * agency_info) : res (dict string metrics_record) :=
  if filtered_out agency_filter (fst item) then Ok results
  else
    let* acc := expected_titles w data date (fst item) (titles (snd item)) accum_init in
    match build_record (snd item) acc with
    | Some r => Ok (dict_set (fst item) r results)
    | None => Ok results
    end.

Fixpoint expected_items (w : data_folder) (data : agencies_data) (date : string)
    (agency_filter : option string) (items : list (string * agency_info))
    (results : dict string metrics_record) : res (dict string metrics_record) :=
  match items with
  | [] => Ok results
  | item :: rest =>
      let* results1 := expected_agency w data date agency_filter results item in
      expected_items w data date agency_filter rest results1
  end.

Definition analysis (w : data_folder) (date : string) (agency_filter : option string)
    : res (dict string metrics_record) :=
  let* data := view_agencies w in
  expected_items w data date agency_filter (build_agency_title_map data) [].

(** The word-count delta attached to an agency, if a delta is attached. *)
Definition word_count_delta (history : dict string (dict string history_value))
    (agency_key : string) : option Z :=
  match dict_get agency_key history with
  | Some records =>
      match dict_get "delta" records with
      | Some (Delta wc _) => Some wc
      | _ => None
      end
  | None => None
  end.

(** The loop over the dates as a function of what the folder shows. *)
Fixpoint expected_history (w : data_folder) (agency_filter : option string)
    (dates : list string) (history : dict string (dict string history_value))
    : res (dict string (dict string history_value)) :=
  match dates with
  | [] => Ok history
  | date :: rest =>
      let* agency_metrics := analysis w date agency_filter in
      expected_history w agency_filter rest (record_date date agency_metrics history)
  end.

Definition is_metrics (v : history_value) : bool :=
  match v with Metrics _ _ _ => true | Delta _ _ => false end.

(** A history in which no delta has been stored yet. *)
Definition only_metrics (history : dict string (dict string history_value)) : Prop :=
  Forall (fun entry => Forall (fun kv => is_metrics (snd kv) = true) (snd entry)) history.

(** The records of an agency after the two dates have been recorded. *)
Definition two_records (d1 d2 : string) (o1 o2 : option metrics_record)
    : option (dict string history_value) :=
  match o1, o2 with
  | Some m1, Some m2 => Some (dict_set d2 (metrics_subset m2) [(d1, metrics_subset m1)])
  | Some m1, None => Some [(d1, metrics_subset m1)]
  | None, Some m2 => Some [(d2, metrics_subset m2)]
  | None, None => None
  end.

(** A text without white space at either end, and not empty. *)
Definition stripped (b : string) : Prop := Str.strip b = b ∧ b ≠ "".

(** Two filters that agree up to the case of their codes. *)
Definition same_codes (t1 t2 : list (option string)) : Prop :=
  Forall2 (fun a b => Str.upper <$> a = Str.upper <$> b) t1 t2.

(** The run as a function of the folder alone: what it computes when
    nothing is fetched. *)
Definition local_title (w : data_folder) (data : agencies_data)
    (date agency_id : string) (acc : accum) (title_num : Z) : res accum :=
  match title_xml w !! xml_path title_num date with
  | None => Ok acc
  | Some f =>
      let* root := ET_parse f in
      let* text := parse_root root (filter_of data agency_id title_num) false in
      Ok (push acc title_num text)
  end.

Fixpoint local_titles (w : data_folder) (data : agencies_data)
    (date agency_id : string) (title_nums : list Z) (acc : accum) : res accum :=
  match title_nums with
  | [] => Ok acc
  | title_num :: rest =>
      let* acc1 := local_title w data date agency_id acc title_num in
      local_titles w data date agency_id rest acc1
  end.

Definition local_agency (w : data_folder) (data : agencies_data) (date : string)
    (agency_filter : option string) (results : dict string metrics_record)
    (item : string * agency_info) : res (dict string metrics_record) :=
  if filtered_out agency_filter (fst item) then Ok results
  else
    let* acc := local_titles w data date (fst item) (titles (snd item)) accum_init in
    match build_record (snd item) acc with
    | Some r => Ok (dict_set (fst item) r results)
    | None => Ok results
    end.

Fixpoint local_items (w : data_folder) (data : agencies_data) (date : string)
    (agency_filter : option string) (items : list (string * agency_info))
    (results : dict string metrics_record) : res (dict string metrics_record) :=
  match items with
  | [] => Ok results
  | item :: rest =>
      let* results1 := local_agency w data date agency_filter results item in
      local_items w data date agency_filter rest results1
  end.

(** A title about which the server has nothing to add: its file is in
    the folder, or the server answers the request with a status other
    than 200. *)
Definition settled (w : data_folder) (date : string) (t : Z) : Prop :=
  title_xml w !! xml_path t date ≠ None ∨ served_title date t = Ok None.

(** The titles a run reaches: those of the items the filter lets through. *)
Definition relevant_titles (agency_filter : option string)
    (items : list (string * agency_info)) : list Z :=
  List.flat_map
    (fun item => if filtered_out agency_filter (fst item) then [] else titles (snd item))
    items.

(** [history[agency][key]], when both keys are there. *)
Definition history_at (history : dict string (dict string history_value))
    (agency_key key : string) : option history_value :=
  match dict_get agency_key history with
  | Some records => dict_get key records
  | None => None
  end.

(** Whether the server answers the request for a title with status 200. *)
Definition served (date : string) (t : Z) : bool :=
  match served_title date t with
  | Ok (Some _) => true
  | _ => false
  end.

(** Whether the server answers the request for a title at all. *)
Definition answered (date : string) (t : Z) : bool :=
  match ecfr_title date t with
  | Response _ _ => true
  | NoResponse => false
  end.

(** Every character of a string passes a test. *)
Fixpoint all_chars (test : ascii -> bool) (s : string) : bool :=
  match s with
  | EmptyString => true
  | String c s' => test c && all_chars test s'
  end.

(** One of 0-9, a-f. *)
Definition is_hex_digit (c : ascii) : bool :=
  let n := N_of_ascii c in
  (((48 <=? n) && (n <=? 57)) || ((97 <=? n) && (n <=? 102)))%N.

(** The text a title contributes for an agency, read from the folder
    [w]: what flat mode extracts from its file with the agency's filter,
    when the file is there and the text is not blank. *)
Definition extracted (w : data_folder) (data : agencies_data) (date agency_id : string)
    (title_num : Z) : option string :=
  match parse_title_xml w (xml_path title_num date)
          (filter_of data agency_id title_num) false with
  | Ok text => if Str.nonblank text then Some text else None
  | Raise _ => None
  end.

(** The contributing documents among a list of titles, with their texts:
    the titles that yield text, in the order of the list and as often
    as the list has them. *)
Definition contributing (w : data_folder) (data : agencies_data) (date agency_id : string)
    (title_nums : list Z) : list (Z * string) :=
  List.flat_map
    (fun title_num =>
       match extracted w data date agency_id title_num with
       | Some text => [(title_num, text)]
       | None => []
       end)
    title_nums.

(** What stops a run at a title: the exception of the request, when the
    file is missing and no response comes; [ParseError], when the file,
    in the folder or else as served, is not well-formed XML. *)
Definition title_fault (w : data_folder) (date : string) (t : Z) : option exn :=
  match view_xml w date t with
  | Raise e => Some e
  | Ok (Some Malformed) => Some ParseError
  | Ok (Some (WellFormed _)) => None
  | Ok None => None
  end.

(** The first fault among titles taken in order. *)
Definition first_fault (w : data_folder) (date : string) (title_nums : list Z)
    : option exn :=
  List.head (omap (title_fault w date) title_nums).

(* =================================================================== *)
(** ** Facts about dictionaries *)
(* =================================================================== *)

Section DictFacts.
Context {K V : Type} `{EqDecision K}.
Implicit Types (k : K) (v : V) (d : list (K * V)).

Lemma dict_get_set_eq k v d : dict_get k (dict_set k v d) = Some v.
Proof.
  induction d as [|[k' v'] d IH]; simpl.
  - by rewrite decide_True.
  - destruct (decide (k = k')) as [->|Hne]; simpl.
    + by rewrite decide_True.
    + by rewrite decide_False.
Qed.

Lemma dict_get_set_ne k k' v d :
  k ≠ k' → dict_get k' (dict_set k v d) = dict_get k' d.
Proof.
  intros Hne. induction d as [|[k0 v0] d IH]; simpl.
  - rewrite decide_False; [done | congruence].
  - destruct (decide (k = k0)) as [->|Hk]; simpl.
    + rewrite !decide_False; [done | congruence | congruence].
    + destruct (decide (k' = k0)); [done | apply IH].
Qed.

Lemma dict_get_None k d : dict_get k d = None ↔ k ∉ dict_keys d.
Proof.
  induction d as [|[k' v'] d IH]; simpl.
  - split; [intros _; apply not_elem_of_nil | done].
  - rewrite not_elem_of_cons. destruct (decide (k = k')) as [->|Hne].
    + split; [done | intros [? _]; done].
    + rewrite IH. tauto.
Qed.

Lemma dict_get_Some_elem k v d : dict_get k d = Some v → (k, v) ∈ d.
Proof.
  induction d as [|[k' v'] d IH]; simpl; [done|].
  destruct (decide (k = k')) as [->|Hne].
  - intros [= ->]. apply list_elem_of_here.
  - intros Hg. apply list_elem_of_further, IH, Hg.
Qed.

Lemma dict_set_fresh k v d : dict_get k d = None → dict_set k v d = d ++ [(k, v)].
Proof.
  induction d as [|[k' v'] d IH]; simpl; [done|].
  destruct (decide (k = k')); [done|]. intros Hg. by rewrite IH.
Qed.

Lemma dict_keys_set k v d :
  dict_keys (dict_set k v d)
  = if dict_mem k d then dict_keys d else dict_keys d ++ [k].
Proof.
  unfold dict_mem. induction d as [|[k' v'] d IH]; simpl; [done|].
  destruct (decide (k = k')) as [->|Hne]; simpl; [done|].
  rewrite IH. by destruct (dict_get k d).
Qed.

Lemma dict_set_NoDup k v d :
  NoDup (dict_keys d) → NoDup (dict_keys (dict_set k v d)).
Proof.
  intros Hnd. rewrite dict_keys_set. unfold dict_mem.
  destruct (dict_get k d) eqn:Hg; [done|].
  apply NoDup_app. split; [done|]. split.
  - intros x Hx Hk. apply list_elem_of_singleton in Hk as ->.
    by apply dict_get_None in Hg.
  - apply NoDup_singleton.
Qed.

(** Storing pairs with distinct fresh keys, in order, appends them. *)
Lemma fold_dict_set_NoDup (l d : list (K * V)) :
  NoDup (dict_keys (d ++ l)) →
  List.fold_left (fun acc kv => dict_set (fst kv) (snd kv) acc) l d = d ++ l.
Proof.
  revert d. induction l as [|[k v] l IH]; intros d Hnd; simpl.
  - by rewrite app_nil_r.
  - rewrite dict_set_fresh.
    + rewrite IH; rewrite <- app_assoc; done.
    + apply dict_get_None. unfold dict_keys in *.
      rewrite fmap_app in Hnd. apply NoDup_app in Hnd as (_ & Hd & _).
      intros Hk. apply (Hd k Hk). simpl. apply list_elem_of_here.
Qed.

(** The keys after storing a sequence of pairs are the old keys and
    the keys stored. *)
Lemma fold_dict_set_keys (l d : list (K * V)) k :
  k ∈ dict_keys (List.fold_left (fun acc kv => dict_set (fst kv) (snd kv) acc) l d)
  ↔ k ∈ dict_keys d ∨ k ∈ dict_keys l.
Proof.
  revert d. induction l as [|[k' v'] l IH]; intros d; simpl.
  - split; [by left | intros [?|Hn]; [done | by apply elem_of_nil in Hn]].
  - rewrite IH, dict_keys_set, elem_of_cons. unfold dict_mem.
    destruct (dict_get k' d) eqn:Hg.
    + split; [tauto|]. intros [?|[->|?]]; [tauto | | tauto].
      left. destruct (decide (k' ∈ dict_keys d)) as [|Hn]; [done|].
      apply dict_get_None in Hn. congruence.
    + rewrite elem_of_app, list_elem_of_singleton. tauto.
Qed.

Lemma fold_dict_set_keys_NoDup (l d : list (K * V)) :
  NoDup (dict_keys d) →
  NoDup (dict_keys (List.fold_left (fun acc kv => dict_set (fst kv) (snd kv) acc) l d)).
Proof.
  revert d. induction l as [|[k v] l IH]; intros d Hnd; simpl; [done|].
  apply IH, dict_set_NoDup, Hnd.
Qed.

(** Reading a key after storing a sequence of pairs: the last pair
    stored under that key, else the old value. *)
Lemma fold_dict_set_get (l d : list (K * V)) k :
  dict_get k (List.fold_left (fun acc kv => dict_set (fst kv) (snd kv) acc) l d)
  = match dict_get k (rev l) with
    | Some v => Some v
    | None => dict_get k d
    end.
Proof.
  revert d. induction l as [|[k' v'] l IH] using rev_ind; intros d; [done|].
  rewrite fold_left_app, rev_unit. simpl.
  destruct (decide (k = k')) as [->|Hne].
  - apply dict_get_set_eq.
  - rewrite dict_get_set_ne by congruence. apply IH.
Qed.

End DictFacts.

(* =================================================================== *)
(** ** The index and the chapter filter *)
(* =================================================================== *)

Lemma build_agency_title_map_snoc (data : agencies_data) (a : agency) :
  build_agency_title_map (data ++ [a])
  = match titles_of a with
    | _ :: _ => dict_set (name a) (info_of a) (build_agency_title_map data)
    | [] => build_agency_title_map data
    end.
Proof.
  unfold build_agency_title_map. rewrite fold_left_app. simpl.
  unfold info_of. by destruct (titles_of a).
Qed.

Lemma build_agency_title_map_NoDup (data : agencies_data) :
  NoDup (dict_keys (build_agency_title_map data)).
Proof.
  induction data as [|a data IH] using rev_ind; [constructor|].
  rewrite build_agency_title_map_snoc.
  destruct (titles_of a); [done|]. by apply dict_set_NoDup.
Qed.

(** C3, as the code has it: the entry of a name is the one of the last
    feed entry under that name that has at least one title; it replaces
    what earlier entries under that name stored, nothing is merged. *)
Theorem C3_last_entry_replaces (data : agencies_data) (n : string) :
  dict_get n (build_agency_title_map data)
  = info_of <$> List.find (indexed_as n) (rev data).
Proof.
  induction data as [|a data IH] using rev_ind; [done|].
  rewrite build_agency_title_map_snoc, rev_unit. simpl.
  unfold indexed_as at 1.
  destruct (String.eqb_spec (name a) n) as [<-|Hne]; simpl.
  - destruct (titles_of a) eqn:Ht; [apply IH|].
    by rewrite dict_get_set_eq.
  - destruct (titles_of a) eqn:Ht; [apply IH|].
    rewrite dict_get_set_ne by done. apply IH.
Qed.

(** Every chapter gathered by the comprehension is a string: its
    [is not None] guard leaves nothing else. *)
Lemma relevant_chapters_not_None (data : agencies_data) (agency_id : string) (t : Z) :
  List.existsb (fun chap => negb (is_not_None chap))
               (relevant_chapters data agency_id t) = false.
Proof.
  unfold relevant_chapters.
  induction data as [|a data IH]; [done|]. simpl.
  rewrite existsb_app, IH, orb_false_r.
  destruct (String.eqb _ _); [|done].
  induction (cfr_references a) as [|cref refs IHr]; [done|]. simpl.
  rewrite existsb_app, IHr, orb_false_r.
  destruct (title_is cref t); [|done].
  by destruct (ref_chapter cref).
Qed.

(** So the filter is none exactly when no chapter was gathered. *)
Lemma chapter_filter_relevant (data : agencies_data) (agency_id : string) (t : Z) :
  chapter_filter (relevant_chapters data agency_id t)
  = match relevant_chapters data agency_id t with
    | [] => None
    | l => Some l
    end.
Proof.
  unfold chapter_filter. rewrite relevant_chapters_not_None.
  by destruct (relevant_chapters data agency_id t).
Qed.

Lemma relevant_chapters_no_match (data : agencies_data) (agency_id : string) (t : Z) :
  (∀ b, b ∈ data → display_or_name b ≠ agency_id) →
  relevant_chapters data agency_id t = [].
Proof.
  unfold relevant_chapters.
  induction data as [|a data IH]; intros Hno; [done|]. simpl.
  rewrite IH by (intros b Hb; apply Hno; by apply list_elem_of_further).
  destruct (String.eqb_spec (display_or_name a) agency_id) as [Heq|_]; [|done].
  exfalso. apply (Hno a); [apply list_elem_of_here | done].
Qed.

(** C10, as the code has it: an agency with a non-empty display name
    other than its name is not matched by the lookup under its name, and
    when no other feed entry goes by that name either, the filter of
    each of its titles is none and the title is parsed whole. *)
Theorem C10_display_name_loses_chapters
    (data : agencies_data) (a : agency) (d : string) (title_num : Z) (root : element) :
  a ∈ data →
  display_name a = Some d →
  Str.truthy d = true →
  d ≠ name a →
  (∀ b, b ∈ data → b ≠ a → display_or_name b ≠ name a) →
  relevant_chapters data (name a) title_num = []
  ∧ chapter_filter (relevant_chapters data (name a) title_num) = None
  ∧ parse_root root (chapter_filter (relevant_chapters data (name a) title_num)) false
    = Ok (flat_text root).
Proof.
  intros Ha Hd Ht Hne Hothers.
  assert (relevant_chapters data (name a) title_num = []) as Hrel.
  { apply relevant_chapters_no_match. intros b Hb Heq.
    destruct (decide (b = a)) as [->|Hba].
    - unfold display_or_name in Heq. rewrite Hd, Ht in Heq. done.
    - by apply (Hothers b). }
  rewrite Hrel. done.
Qed.

(** C9: an agency name that is not in the index makes
    [info = agency_map[agency_name]] raise before the guard that would
    return the empty dictionary is reached, and the route passes the
    exception on instead of answering 404. *)
Theorem C9_unknown_agency_raises
    (w w0 : data_folder) (data : agencies_data) (agency_arg date : string) :
  load_json w = Ok (w0, data) →
  dict_get agency_arg (build_agency_title_map data) = None →
  extract_relevant_text_for_agency w agency_arg date = Raise (KeyError agency_arg)
  ∧ get_agency_sections w agency_arg date = Raise (KeyError agency_arg).
Proof.
  intros Hload Hget.
  assert (extract_relevant_text_for_agency w agency_arg date
          = Raise (KeyError agency_arg)) as Hx.
  { unfold extract_relevant_text_for_agency. rewrite Hload. simpl.
    unfold dict_item. by rewrite Hget. }
  split; [done|]. unfold get_agency_sections. by rewrite Hx.
Qed.

(* =================================================================== *)
(** ** The document parser *)
(* =================================================================== *)

Lemma section_chapters_fold (chapters : list element)
    (target : option (list (option string))) (keys : list string)
    (acc : dict string string) :
  Forall2 (fun c k => heading_of c = Ok k)
          (List.filter (selected target) chapters) keys →
  section_chapters chapters target acc
  = Ok (List.fold_left (fun acc kv => dict_set (fst kv) (snd kv) acc)
          (section_entries keys (List.filter (selected target) chapters)) acc).
Proof.
  revert keys acc. induction chapters as [|c cs IH]; intros keys acc Hk; simpl in *.
  - by inversion Hk.
  - destruct (selected target c) eqn:Hsel.
    + inversion Hk as [|? k ? keys' Hc Hrest]; subst. rewrite Hc. simpl.
      by apply IH.
    + by apply IH.
Qed.

Lemma section_entries_keys (keys : list string) (chapters : list element) :
  length keys = length chapters →
  dict_keys (section_entries keys chapters) = keys.
Proof.
  intros Hlen. unfold dict_keys, section_entries.
  change (List.map fst ?l) with (fst <$> l).
  apply fst_zip. rewrite length_fmap. lia.
Qed.

(** C4, as the code has it.  When the keys of the selected Chapter Nodes
    are [keys] (the stripped text of the first HEAD child, or "Chapter "
    followed by the upper-cased code when there is none), sectioned mode
    returns a dictionary whose keys are exactly those keys, each once;
    a key shared by several selected nodes keeps the text of the last of
    them; and when the keys are pairwise distinct there is exactly one
    entry per selected node, in document order. *)
Theorem C4_sections_by_heading
    (w : data_folder) (file_path : Z * string) (root : element)
    (target : option (list (option string))) (keys : list string) :
  title_xml w !! file_path = Some (WellFormed root) →
  Forall2 (fun c k => heading_of c = Ok k) (matching_chapters root target) keys →
  ∃ d : dict string string,
    parse_title_xml w file_path target true = Ok d
    ∧ NoDup (dict_keys d)
    ∧ (∀ k, k ∈ dict_keys d ↔ k ∈ keys)
    ∧ (∀ k, dict_get k d
            = dict_get k (rev (section_entries keys (matching_chapters root target))))
    ∧ (NoDup keys → d = section_entries keys (matching_chapters root target)).
Proof.
  intros Hfile Hkeys.
  pose proof (Forall2_length _ _ _ Hkeys) as Hlen.
  eexists. split.
  { unfold parse_title_xml, read_xml. rewrite Hfile. simpl.
    apply section_chapters_fold, Hkeys. }
  fold (matching_chapters root target).
  split; [apply fold_dict_set_keys_NoDup; constructor|].
  split.
  { intros k. rewrite fold_dict_set_keys, section_entries_keys by done.
    split; [intros [Hn|?]; [by apply elem_of_nil in Hn | done] | by right]. }
  split.
  { intros k. rewrite fold_dict_set_get. by destruct (dict_get k (rev _)). }
  intros Hnd. rewrite fold_dict_set_NoDup; [done|].
  simpl. by rewrite section_entries_keys.
Qed.

(* =================================================================== *)
(** ** The analyzer: what a record is made of *)
(* =================================================================== *)

Lemma append_assoc (a b c : string) :
  String.append (String.append a b) c = String.append a (String.append b c).
Proof.
  induction a as [|x a IH]; [done|].
  change (String x (String.append (String.append a b) c)
          = String x (String.append a (String.append b c))).
  by f_equal.
Qed.

Lemma append_empty_r (a : string) : String.append a "" = a.
Proof.
  induction a as [|x a IH]; [done|].
  change (String x (String.append a "") = String x a). by f_equal.
Qed.

Lemma add_all_nil (acc : accum) : add_all acc [] = acc.
Proof.
  destruct acc as [c n l]. unfold add_all. simpl.
  by rewrite append_empty_r, Z.add_0_r, app_nil_r.
Qed.

Lemma add_all_cons (acc : accum) (t : Z) (s : string) (cs : list (Z * string)) :
  add_all {| combined_text := String.append (combined_text acc) (String.append " " s);
             total_word_count := total_word_count acc + compute_word_count s;
             analyzed_titles := analyzed_titles acc ++ [t] |} cs
  = add_all acc ((t, s) :: cs).
Proof.
  unfold add_all. simpl. f_equal.
  - by rewrite !append_assoc.
  - symmetry. apply Z.add_assoc.
  - by rewrite <- app_assoc.
Qed.

Lemma grows_refl (w : data_folder) : grows w w.
Proof. intros p. by left. Qed.

Lemma grows_trans (w1 w2 w3 : data_folder) :
  grows w1 w2 → grows w2 w3 → grows w1 w3.
Proof.
  intros H12 H23 p.
  destruct (H12 p) as [E12|[N1 E12]], (H23 p) as [E23|[N2 E23]].
  - left. congruence.
  - right. split; congruence.
  - right. split; congruence.
  - right. split; congruence.
Qed.

Lemma grows_keeps (w w' : data_folder) p f :
  grows w w' → title_xml w !! p = Some f → title_xml w' !! p = Some f.
Proof. intros Hg Hp. destruct (Hg p) as [E|[N _]]; congruence. Qed.

(** The fetch, from what the request ends in. *)
Lemma fetch_full_title_xml_served (w : data_folder) (date : string) (t : Z) :
  fetch_full_title_xml w date t
  = let* seen := served_title date t in
    match seen with
    | Some content =>
        Ok ({| agencies_json := agencies_json w;
               title_xml := <[xml_path t date := content]> (title_xml w) |}, true)
    | None => Ok (w, false)
    end.
Proof.
  unfold fetch_full_title_xml, served_title.
  destruct (ecfr_title date t) as [status_code content|]; cbn [requests_get bind]; [|done].
  by destruct (status_code =? 200).
Qed.

Lemma fetch_grows (w : data_folder) (date : string) (t : Z) w1 success :
  exists_xml w (xml_path t date) = false →
  fetch_full_title_xml w date t = Ok (w1, success) →
  grows w w1.
Proof.
  unfold exists_xml. rewrite fetch_full_title_xml_served. intros Hex Hf p.
  destruct (served_title date t) as [[content|]|e] eqn:Hsrv; cbn [bind] in Hf; [| |done].
  - injection Hf as <- <-. destruct (decide (xml_path t date = p)) as [<-|Hne].
    + right. cbn [title_xml]. rewrite lookup_insert_eq. unfold xml_path in *.
      cbn [fst snd]. split; [by destruct (title_xml w !! (t, date)) | done].
    + left. cbn [title_xml]. by rewrite lookup_insert_ne.
  - injection Hf as <- <-. by left.
Qed.

Lemma parse_grows (w w' : data_folder) (p : Z * string)
    (target : option (list (option string))) (text : string) :
  grows w w' →
  parse_title_xml w p target false = Ok text →
  parse_title_xml w' p target false = Ok text.
Proof.
  intros Hk. unfold parse_title_xml, read_xml.
  destruct (title_xml w !! p) as [f|] eqn:Hp; [|done].
  by rewrite (grows_keeps _ _ _ _ Hk Hp).
Qed.

Lemma yields_grows (w w' : data_folder) data date agency_id c :
  grows w w' → yields w data date agency_id c → yields w' data date agency_id c.
Proof. intros Hk [Hp Hn]. split; [by eapply parse_grows | done]. Qed.

(** One title: the folder only grows, and the accumulators either stay
    or take the text the title yields. *)
Lemma analyze_title_contribution data date agency_id w acc t w' acc' :
  analyze_title data date agency_id w acc t = Ok (w', acc') →
  grows w w'
  ∧ (acc' = acc
     ∨ ∃ s, yields w' data date agency_id (t, s) ∧ acc' = add_all acc [(t, s)]).
Proof.
  unfold analyze_title.
  destruct (exists_xml w (xml_path t date)) eqn:Hex.
  - simpl.
    destruct (parse_title_xml w _ _ false) as [text|e] eqn:Hp; simpl; [|done].
    destruct (Str.nonblank text) eqn:Hn; intros [= <- <-].
    + split; [apply grows_refl|]. right. exists text.
      split; [by split|]. by rewrite <- add_all_cons, add_all_nil.
    + split; [apply grows_refl | by left].
  - destruct (fetch_full_title_xml w date t) as [[w1 success]|e] eqn:Hfetch;
      cbn [bind]; [|done].
    pose proof (fetch_grows w date t w1 success Hex Hfetch) as Hk.
    destruct success; simpl.
    + destruct (parse_title_xml w1 _ _ false) as [text|e] eqn:Hp; simpl; [|done].
      destruct (Str.nonblank text) eqn:Hn; intros [= <- <-].
      * split; [done|]. right. exists text.
        split; [by split|]. by rewrite <- add_all_cons, add_all_nil.
      * split; [done | by left].
    + intros [= <- <-]. split; [done | by left].
Qed.

Lemma add_all_app (acc : accum) (cs1 cs2 : list (Z * string)) :
  add_all (add_all acc cs1) cs2 = add_all acc (cs1 ++ cs2).
Proof.
  revert acc. induction cs1 as [|[t s] cs1 IH]; intros acc; simpl.
  - by rewrite add_all_nil.
  - rewrite <- !add_all_cons. apply IH.
Qed.

(** The loop over the titles: the accumulators take, in order, the
    texts of a sub-list of the titles, each the non-blank text the
    parser yields for that title in the folder the loop leaves. *)
Lemma analyze_titles_contributions data date agency_id ts w acc w' acc' :
  analyze_titles data date agency_id ts w acc = Ok (w', acc') →
  grows w w'
  ∧ ∃ cs, acc' = add_all acc cs
          ∧ (fst <$> cs) `sublist_of` ts
          ∧ Forall (yields w' data date agency_id) cs.
Proof.
  revert w acc. induction ts as [|t ts IH]; intros w acc; simpl.
  - intros [= <- <-]. split; [apply grows_refl|].
    exists []. rewrite add_all_nil. repeat split; [constructor | constructor].
  - destruct (analyze_title data date agency_id w acc t) as [[w1 acc1]|e] eqn:Ht;
      simpl; [|done].
    intros Hrest. apply analyze_title_contribution in Ht as [Hk1 Hacc1].
    apply IH in Hrest as (Hk2 & cs & -> & Hsub & Hall).
    split; [by eapply grows_trans|].
    destruct Hacc1 as [->|(s & Hy & ->)].
    + exists cs. repeat split; [by apply sublist_cons | done].
    + exists ((t, s) :: cs). rewrite add_all_app. simpl.
      repeat split; [by apply sublist_skip|].
      constructor; [|done]. by eapply yields_grows.
Qed.

Lemma made_of_grows w w' data date agency_id info r :
  grows w w' → made_of w data date agency_id info r → made_of w' data date agency_id info r.
Proof.
  intros Hg (cs & Hr & Hsub & Hall). exists cs. repeat split; [done..|].
  eapply Forall_impl; [exact Hall|]. intros c. by apply yields_grows.
Qed.

(** One agency: a record stored under its name is made of its titles'
    texts; the other entries of the results are as before. *)
Lemma analyze_agency_emitted data date agency_filter w results agency_id info w' results' :
  analyze_agency data date agency_filter w results (agency_id, info) = Ok (w', results') →
  grows w w'
  ∧ ∀ k r, dict_get k results' = Some r →
      dict_get k results = Some r
      ∨ (k = agency_id ∧ filtered_out agency_filter agency_id = false
         ∧ made_of w' data date agency_id info r).
Proof.
  unfold analyze_agency.
  destruct (filtered_out agency_filter agency_id) eqn:Hf.
  { intros [= <- <-]. split; [apply grows_refl | by left]. }
  destruct (analyze_titles _ _ _ _ _ _) as [[w1 acc]|e] eqn:Hts; simpl; [|done].
  apply analyze_titles_contributions in Hts as (Hg & cs & -> & Hsub & Hall).
  destruct (build_record info _) as [r0|] eqn:Hrec; intros [= <- <-].
  - split; [done|]. intros k r.
    destruct (decide (agency_id = k)) as [<-|Hne].
    + rewrite dict_get_set_eq. intros [= <-]. right.
      repeat split. by exists cs.
    + rewrite dict_get_set_ne by done. by left.
  - split; [done | by left].
Qed.

Lemma analyze_items_emitted data date agency_filter items w results w' results' :
  analyze_items data date agency_filter items w results = Ok (w', results') →
  grows w w'
  ∧ ∀ k r, dict_get k results' = Some r →
      dict_get k results = Some r
      ∨ ∃ info, (k, info) ∈ items ∧ filtered_out agency_filter k = false
                ∧ made_of w' data date k info r.
Proof.
  revert w results.
  induction items as [|[k0 info0] items IH]; intros w results; cbn [analyze_items].
  - intros [= <- <-]. split; [apply grows_refl | by left].
  - destruct (analyze_agency data date agency_filter w results (k0, info0))
      as [[w1 results1]|e] eqn:Ha; cbn [bind]; [|done].
    intros Hrest. apply analyze_agency_emitted in Ha as [Hg1 Hone].
    apply IH in Hrest as [Hg2 Hmany]. split; [by eapply grows_trans|].
    intros k r Hk. destruct (Hmany k r Hk) as [Hold|(info & Hin & Hf & Hm)].
    + destruct (Hone k r Hold) as [?|(-> & Hf & Hm)]; [by left|].
      right. exists info0. split; [apply list_elem_of_here|].
      split; [done|]. by eapply made_of_grows.
    + right. exists info. split; [by apply list_elem_of_further | done].
Qed.

Lemma dict_get_elem_NoDup {V} (d : dict string V) (k : string) (v : V) :
  NoDup (dict_keys d) → (k, v) ∈ d → dict_get k d = Some v.
Proof.
  induction d as [|[k' v'] d IH]; simpl; intros Hnd Hin.
  - by apply elem_of_nil in Hin.
  - apply NoDup_cons in Hnd as [Hk' Hnd].
    apply elem_of_cons in Hin as [[= <- <-]|Hin].
    + by rewrite decide_True.
    + destruct (decide (k = k')) as [->|Hne]; [|by apply IH].
      exfalso. apply Hk'. change (k' ∈ fst <$> d).
      apply list_elem_of_fmap. by exists (k', v).
  Qed.

(** Loading the feed, from what the folder shows of it: the folder
    left has agencies.json, and the title files are untouched. *)
Lemma load_json_view w :
  load_json w
  = let* data := view_agencies w in
    Ok (match agencies_json w with
        | Some _ => w
        | None => {| agencies_json := Some (Json data); title_xml := title_xml w |}
        end, data).
Proof.
  unfold load_json, view_agencies, fetch_agencies, served_agencies.
  destruct (agencies_json w) as [f|]; [done|].
  destruct (requests_get ecfr_agencies) as [[status_code body]|e]; cbn [bind]; [|done].
  destruct (raise_for_status status_code); cbn [bind]; [|done].
  destruct (json_load body); cbn [bind agencies_json json_load]; done.
Qed.

Lemma load_json_grows w w0 data :
  load_json w = Ok (w0, data) → title_xml w0 = title_xml w.
Proof.
  rewrite load_json_view.
  destruct (view_agencies w); cbn [bind]; [|done].
  intros [= <- <-]. by destruct (agencies_json w).
Qed.

(** The whole run: each record of the results belongs to an agency of
    the index that the filter lets through, and is made of the texts
    its titles yield in the folder the run leaves. *)
Lemma analyze_agencies_emitted w date agency_filter w' results k r :
  analyze_agencies w date agency_filter = Ok (w', results) →
  dict_get k results = Some r →
  ∃ w0 data info,
    load_json w = Ok (w0, data)
    ∧ grows w w'
    ∧ dict_get k (build_agency_title_map data) = Some info
    ∧ filtered_out agency_filter k = false
    ∧ made_of w' data date k info r.
Proof.
  unfold analyze_agencies. intros Hrun Hk.
  destruct (load_json w) as [[w0 data]|e] eqn:Hload; simpl in Hrun; [|done].
  apply analyze_items_emitted in Hrun as [Hg Hmany].
  destruct (Hmany k r Hk) as [Hold|(info & Hin & Hf & Hm)]; [done|].
  exists w0, data, info. repeat split; [|by apply dict_get_elem_NoDup;
    [apply build_agency_title_map_NoDup|] | done | done].
  intros p. rewrite <- (load_json_grows _ _ _ Hload). apply Hg.
Qed.

(** The fields of a record, from the texts it is made of. *)
Lemma build_record_fields info (cs : list (Z * string)) r :
  build_record info (add_all accum_init cs) = Some r →
  agency_name r = info_name info
  ∧ word_count r = sum_Z (compute_word_count <$> (snd <$> cs))
  ∧ checksum r = compute_checksum (prefixed (snd <$> cs))
  ∧ complexity r = compute_complexity (prefixed (snd <$> cs))
  ∧ titles_count r = Z.of_nat (length (titles_analyzed r))
  ∧ titles_analyzed r = fst <$> cs.
Proof.
  unfold build_record. destruct (Str.nonblank _); [|done].
  intros [= <-]. simpl. done.
Qed.

Lemma Forall2_fst_snd {A B} (P : A → B → Prop) (cs : list (A * B)) :
  Forall (fun c => P (fst c) (snd c)) cs → Forall2 P (fst <$> cs) (snd <$> cs).
Proof. induction 1; constructor; done. Qed.

(** The texts behind a record, title by title. *)
Lemma made_of_texts w data date k info r :
  made_of w data date k info r →
  ∃ texts : list string,
    Forall2 (fun (t : Z) (s : string) => yields w data date k (t, s)) (titles_analyzed r) texts
    ∧ word_count r = sum_Z (compute_word_count <$> texts)
    ∧ checksum r = compute_checksum (prefixed texts)
    ∧ titles_count r = Z.of_nat (length (titles_analyzed r))
    ∧ titles_analyzed r `sublist_of` titles info.
Proof.
  intros (cs & Hr & Hsub & Hall).
  apply build_record_fields in Hr as (_ & Hwc & Hsum & _ & Hcount & Htitles).
  exists (snd <$> cs). rewrite Htitles.
  repeat split; [|done|done|by rewrite <- Htitles|done].
  apply Forall2_fst_snd. eapply Forall_impl; [exact Hall|]. by intros [t s].
Qed.

(** The checksum of a record is the digest of " t1 ... tn", with a
    space before every text, the first included. *)
Lemma analyze_agencies_checksum w date agency_filter w' results k r :
  analyze_agencies w date agency_filter = Ok (w', results) →
  dict_get k results = Some r →
  ∃ w0 data (texts : list string),
    load_json w = Ok (w0, data)
    ∧ Forall2 (fun (t : Z) (s : string) =>
                 parse_title_xml w' (xml_path t date)
                   (chapter_filter (relevant_chapters data k t)) false = Ok s)
              (titles_analyzed r) texts
    ∧ checksum r = compute_checksum (prefixed texts).
Proof.
  intros Hrun Hk.
  destruct (analyze_agencies_emitted _ _ _ _ _ _ _ Hrun Hk)
    as (w0 & data & info & Hload & _ & _ & _ & Hm).
  apply made_of_texts in Hm as (texts & Hall & _ & Hsum & _).
  exists w0, data, texts. repeat split; [done | | done].
  eapply Forall2_impl; [exact Hall|]. by intros t s [Hp _].
Qed.

(* =================================================================== *)
(** ** Fetch failures *)
(* =================================================================== *)

Lemma grows_missing w w' (t : Z) (date : string) :
  grows w w' →
  title_xml w !! xml_path t date = None → served_title date t = Ok None →
  title_xml w' !! xml_path t date = None.
Proof.
  intros Hg Hw Hsrv. destruct (Hg (xml_path t date)) as [E|[_ E]]; simpl in *; congruence.
Qed.

Lemma analyze_title_missing data date agency_id w acc t :
  title_xml w !! xml_path t date = None → served_title date t = Ok None →
  analyze_title data date agency_id w acc t = Ok (w, acc).
Proof.
  intros Hw Hsrv. unfold analyze_title, exists_xml.
  by rewrite Hw, fetch_full_title_xml_served, Hsrv.
Qed.

Lemma analyze_title_grows data date agency_id w acc t w' acc' :
  analyze_title data date agency_id w acc t = Ok (w', acc') → grows w w'.
Proof. intros Ht. by apply analyze_title_contribution in Ht as [? _]. Qed.

(** A title that is not in the folder and whose request is answered
    with a status other than 200 can be struck from
    the list: the loop ends the same way without it. *)
Lemma analyze_titles_skip data date agency_id pre t post w acc :
  title_xml w !! xml_path t date = None → served_title date t = Ok None →
  analyze_titles data date agency_id (pre ++ t :: post) w acc
  = analyze_titles data date agency_id (pre ++ post) w acc.
Proof.
  intros Hw Hsrv. revert w acc Hw.
  induction pre as [|x pre IH]; intros w acc Hw; cbn [app analyze_titles].
  - by rewrite analyze_title_missing.
  - destruct (analyze_title data date agency_id w acc x) as [[w1 acc1]|e] eqn:Hx;
      cbn [bind]; [|done].
    apply IH. eapply grows_missing; [|done|done]. by eapply analyze_title_grows.
Qed.

Lemma yields_file w data date k t s :
  yields w data date k (t, s) → title_xml w !! xml_path t date ≠ None.
Proof.
  intros [Hp _] Hnone. unfold parse_title_xml, read_xml in Hp. simpl in Hp.
  by rewrite Hnone in Hp.
Qed.


(* =================================================================== *)
(** ** Agencies without text *)
(* =================================================================== *)

Lemma analyze_items_app data date agency_filter pre post w results :
  analyze_items data date agency_filter (pre ++ post) w results
  = let* (w1, results1) := analyze_items data date agency_filter pre w results in
    analyze_items data date agency_filter post w1 results1.
Proof.
  revert w results. induction pre as [|x pre IH]; intros w results;
    cbn [app analyze_items]; [done|].
  destruct (analyze_agency data date agency_filter w results x) as [[w1 r1]|e];
    cbn [bind]; [apply IH | done].
Qed.

(** A name that is not among the items processed gets no record. *)
Lemma analyze_items_other data date agency_filter items w results w' results' k :
  analyze_items data date agency_filter items w results = Ok (w', results') →
  k ∉ dict_keys items →
  dict_get k results = None →
  dict_get k results' = None.
Proof.
  intros Hrun Hk Hnone. apply analyze_items_emitted in Hrun as [_ Hmany].
  destruct (dict_get k results') as [r|] eqn:Hr; [|done].
  destruct (Hmany k r Hr) as [Hold|(info & Hin & _)]; [congruence|].
  exfalso. apply Hk. change (k ∈ fst <$> items).
  apply list_elem_of_fmap. by exists (k, info).
Qed.

(** C7: an agency whose accumulated text is empty or blank gets no
    record.  The agency is the item [(k, info)] of the index; the run
    reaches it in the folder [wk] with the results [results_k]; its
    loop over the titles ends with a blank [combined_text]. Then its
    pass returns normally and leaves the results as they were, and the
    results of the whole run have no entry under [k]. *)
Theorem C7_blank_text_no_record
    (w w0 wk wk' : data_folder) (date : string) (agency_filter : option string)
    (data : agencies_data) (pre post : list (string * agency_info))
    (k : string) (info : agency_info)
    (results_k : dict string metrics_record) (acc : accum) :
  load_json w = Ok (w0, data) →
  build_agency_title_map data = pre ++ (k, info) :: post →
  analyze_items data date agency_filter pre w0 [] = Ok (wk, results_k) →
  analyze_titles data date k (titles info) wk accum_init = Ok (wk', acc) →
  Str.nonblank (combined_text acc) = false →
  analyze_agency data date agency_filter wk results_k (k, info)
  = Ok (if filtered_out agency_filter k then wk else wk', results_k)
  ∧ ∀ w' results,
      analyze_agencies w date agency_filter = Ok (w', results) →
      dict_get k results = None.
Proof.
  intros Hload Hmap Hpre Hloop Hblank.
  assert (analyze_agency data date agency_filter wk results_k (k, info)
          = Ok (if filtered_out agency_filter k then wk else wk', results_k)) as Hpass.
  { unfold analyze_agency. destruct (filtered_out agency_filter k); [done|].
    rewrite Hloop. cbn [bind]. unfold build_record. by rewrite Hblank. }
  split; [done|]. intros w' results Hrun.
  pose proof (build_agency_title_map_NoDup data) as Hnd.
  rewrite Hmap in Hnd. unfold dict_keys in Hnd.
  change (NoDup (fst <$> (pre ++ (k, info) :: post))) in Hnd.
  rewrite fmap_app, fmap_cons in Hnd.
  apply NoDup_app in Hnd as (_ & Hdisj & Hnd).
  apply NoDup_cons in Hnd as [Hpost _]. simpl in Hdisj, Hpost.
  unfold analyze_agencies in Hrun. rewrite Hload in Hrun. cbn [bind] in Hrun.
  rewrite Hmap, analyze_items_app, Hpre in Hrun. cbn [bind analyze_items] in Hrun.
  rewrite Hpass in Hrun. cbn [bind] in Hrun.
  eapply analyze_items_other; [exact Hrun | exact Hpost |].
  eapply analyze_items_other; [exact Hpre | | done].
  intros Hin. by apply (Hdisj k Hin), list_elem_of_here.
Qed.

(* =================================================================== *)
(** ** The results depend only on what the folder shows *)
(* =================================================================== *)

Lemma same_view_refl w : same_view w w.
Proof. by split. Qed.

Lemma same_view_sym w w' : same_view w w' → same_view w' w.
Proof. intros [Ha Hx]. split; [done|]. intros date t. by rewrite Hx. Qed.

Lemma same_view_trans w1 w2 w3 : same_view w1 w2 → same_view w2 w3 → same_view w1 w3.
Proof.
  intros [Ha Hx] [Ha' Hx']. split; [congruence|].
  intros date t. by rewrite Hx, Hx'.
Qed.

Lemma grows_same_view w w' :
  grows w w' → agencies_json w' = agencies_json w → same_view w w'.
Proof.
  intros Hg Ha. split; [unfold view_agencies; by rewrite Ha|].
  intros date t. unfold view_xml.
  destruct (Hg (xml_path t date)) as [E|[N E]]; simpl in *.
  - by rewrite E.
  - rewrite N, E. by destruct (title_xml w' !! xml_path t date).
Qed.

Lemma analyze_title_expected data date agency_id w acc t :
  ∃ w', grows w w' ∧ agencies_json w' = agencies_json w
        ∧ analyze_title data date agency_id w acc t
          = let* acc' := expected_title w data date agency_id acc t in Ok (w', acc').
Proof.
  unfold analyze_title, expected_title, view_xml, exists_xml.
  destruct (title_xml w !! xml_path t date) as [f|] eqn:Hw.
  - exists w. split; [apply grows_refl|]. split; [done|]. cbn [negb bind].
    unfold parse_title_xml, read_xml. rewrite Hw. cbn [bind].
    destruct (ET_parse f) as [root|e]; cbn [bind]; [|done].
    fold (filter_of data agency_id t).
    destruct (parse_root root _ false) as [text|e]; cbn [bind]; [|done].
    unfold push. by destruct (Str.nonblank text).
  - pose proof (fetch_grows w date t) as Hg. unfold exists_xml in Hg.
    rewrite Hw in Hg. rewrite fetch_full_title_xml_served in *.
    destruct (served_title date t) as [[content|]|e] eqn:Hsrv; cbn [negb bind] in *.
    + eexists. split; [by eapply Hg|]. split; [done|].
      unfold parse_title_xml, read_xml. cbn [title_xml].
      rewrite lookup_insert_eq. cbn [bind].
      destruct (ET_parse content) as [root|e]; cbn [bind]; [|done].
      fold (filter_of data agency_id t).
      destruct (parse_root root _ false) as [text|e]; cbn [bind]; [|done].
      unfold push. by destruct (Str.nonblank text).
    + exists w. by split; [apply grows_refl|].
    + exists w. by split; [apply grows_refl|].
Qed.

Lemma expected_title_ext w w1 data date agency_id acc t :
  same_view w w1 →
  expected_title w data date agency_id acc t
  = expected_title w1 data date agency_id acc t.
Proof. intros [_ Hx]. unfold expected_title. by rewrite Hx. Qed.

Lemma expected_titles_ext w w1 data date agency_id ts acc :
  same_view w w1 →
  expected_titles w data date agency_id ts acc
  = expected_titles w1 data date agency_id ts acc.
Proof.
  intros Hv. revert acc. induction ts as [|t ts IH]; intros acc; simpl; [done|].
  rewrite (expected_title_ext w w1) by done.
  destruct (expected_title w1 _ _ _ _ _); simpl; [apply IH | done].
Qed.

Lemma expected_items_ext w w1 data date agency_filter items results :
  same_view w w1 →
  expected_items w data date agency_filter items results
  = expected_items w1 data date agency_filter items results.
Proof.
  intros Hv. revert results.
  induction items as [|item items IH]; intros results; simpl; [done|].
  unfold expected_agency. rewrite (expected_titles_ext w w1) by done.
  destruct (filtered_out _ _); simpl; [apply IH|].
  destruct (expected_titles w1 _ _ _ _ _) as [acc|e]; simpl; [|done].
  destruct (build_record _ _); simpl; apply IH.
Qed.

Lemma analysis_ext w w1 date agency_filter :
  same_view w w1 → analysis w date agency_filter = analysis w1 date agency_filter.
Proof.
  intros Hv. unfold analysis. pose proof Hv as [Ha _]. rewrite <- Ha.
  destruct (view_agencies w); cbn [bind]; [|done]. by apply expected_items_ext.
Qed.

Lemma analyze_titles_expected data date agency_id ts w acc :
  ∃ w', grows w w' ∧ agencies_json w' = agencies_json w
        ∧ analyze_titles data date agency_id ts w acc
          = let* acc' := expected_titles w data date agency_id ts acc in Ok (w', acc').
Proof.
  revert w acc. induction ts as [|t ts IH]; intros w acc; cbn [analyze_titles expected_titles].
  - exists w. by split; [apply grows_refl|].
  - destruct (analyze_title_expected data date agency_id w acc t)
      as (w1 & Hg1 & Ha1 & ->).
    destruct (expected_title w data date agency_id acc t) as [acc1|e]; cbn [bind].
    + destruct (IH w1 acc1) as (w' & Hg & Ha & ->).
      exists w'. split; [by eapply grows_trans|]. split; [congruence|].
      by rewrite (expected_titles_ext w w1) by (by apply grows_same_view).
    + exists w. by split; [apply grows_refl|].
Qed.

Lemma analyze_agency_expected data date agency_filter w results item :
  ∃ w', grows w w' ∧ agencies_json w' = agencies_json w
        ∧ analyze_agency data date agency_filter w results item
          = let* results' := expected_agency w data date agency_filter results item in
            Ok (w', results').
Proof.
  destruct item as [agency_id info]. unfold analyze_agency, expected_agency. cbn [fst snd].
  destruct (filtered_out agency_filter agency_id).
  { exists w. by split; [apply grows_refl|]. }
  destruct (analyze_titles_expected data date agency_id (titles info) w accum_init)
    as (w' & Hg & Ha & ->).
  exists w'. split; [done|]. split; [done|].
  destruct (expected_titles _ _ _ _ _ _) as [acc|e]; cbn [bind]; [|done].
  by destruct (build_record info acc).
Qed.

Lemma analyze_items_expected data date agency_filter items w results :
  ∃ w', grows w w' ∧ agencies_json w' = agencies_json w
        ∧ analyze_items data date agency_filter items w results
          = let* results' := expected_items w data date agency_filter items results in
            Ok (w', results').
Proof.
  revert w results.
  induction items as [|item items IH]; intros w results;
    cbn [analyze_items expected_items].
  - exists w. by split; [apply grows_refl|].
  - destruct (analyze_agency_expected data date agency_filter w results item)
      as (w1 & Hg1 & Ha1 & ->).
    destruct (expected_agency w data date agency_filter results item) as [results1|e];
      cbn [bind].
    + destruct (IH w1 results1) as (w' & Hg & Ha & ->).
      exists w'. split; [by eapply grows_trans|]. split; [congruence|].
      by rewrite (expected_items_ext w w1) by (by apply grows_same_view).
    + exists w. by split; [apply grows_refl|].
Qed.

(** A run ends as [analysis] says, in a folder that shows the same. *)
Lemma analyze_agencies_analysis w date agency_filter :
  ∃ w', same_view w w'
        ∧ analyze_agencies w date agency_filter
          = let* results := analysis w date agency_filter in Ok (w', results).
Proof.
  unfold analyze_agencies, analysis. rewrite load_json_view.
  destruct (view_agencies w) as [data|e] eqn:Hview; cbn [bind];
    [|exists w; split; [apply same_view_refl | done]].
  set (w0 := match agencies_json w with
             | Some _ => w
             | None => {| agencies_json := Some (Json data); title_xml := title_xml w |}
             end).
  assert (same_view w w0) as Hv0.
  { unfold w0. destruct (agencies_json w) eqn:Hjson; [apply same_view_refl|].
    split; [by rewrite Hview | done]. }
  destruct (analyze_items_expected data date agency_filter
              (build_agency_title_map data) w0 []) as (w' & Hg & Ha & ->).
  exists w'. split.
  - eapply same_view_trans; [exact Hv0 | by apply grows_same_view].
  - by rewrite (expected_items_ext w w0).
Qed.

Lemma analyze_agencies_Ok w date agency_filter w' results :
  analyze_agencies w date agency_filter = Ok (w', results) →
  same_view w w' ∧ analysis w date agency_filter = Ok results.
Proof.
  destruct (analyze_agencies_analysis w date agency_filter) as (w1 & Hv & ->).
  destruct (analysis w date agency_filter); cbn [bind]; [|done].
  by intros [= <- <-].
Qed.

Lemma analysis_Ok w date agency_filter results :
  analysis w date agency_filter = Ok results →
  ∃ w', same_view w w' ∧ analyze_agencies w date agency_filter = Ok (w', results).
Proof.
  intros Hres.
  destruct (analyze_agencies_analysis w date agency_filter) as (w1 & Hv & Heq).
  rewrite Hres in Heq. by exists w1.
Qed.

Lemma analysis_NoDup w date agency_filter results :
  analysis w date agency_filter = Ok results → NoDup (dict_keys results).
Proof.
  unfold analysis. destruct (view_agencies w) as [data|]; cbn [bind]; [|done].
  assert (NoDup (dict_keys ([] : dict string metrics_record))) as Hnil by constructor.
  revert Hnil. generalize ([] : dict string metrics_record).
  induction (build_agency_title_map data) as [|item items IH]; intros r0 Hnd; simpl.
  - by intros [= <-].
  - unfold expected_agency. destruct (filtered_out _ _); simpl; [by apply IH|].
    destruct (expected_titles _ _ _ _ _ _) as [acc|e]; simpl; [|done].
    destruct (build_record _ _); simpl; apply IH; [by apply dict_set_NoDup | done].
Qed.

(* =================================================================== *)
(** ** The differ *)
(* =================================================================== *)

Lemma collect_history_expected w agency_filter dates w1 history :
  same_view w w1 →
  ∃ w', same_view w w'
        ∧ collect_history dates agency_filter w1 history
          = let* history' := expected_history w agency_filter dates history in
            Ok (w', history').
Proof.
  revert w1 history. induction dates as [|date dates IH]; intros w1 history Hv;
    cbn [collect_history expected_history].
  - by exists w1.
  - destruct (analyze_agencies_analysis w1 date agency_filter) as (w2 & Hv2 & ->).
    rewrite <- (analysis_ext w w1) by done.
    destruct (analysis w date agency_filter) as [r|e]; cbn [bind].
    + apply IH. by eapply same_view_trans.
    + by exists w1.
Qed.

Lemma record_metrics_get date history am a :
  dict_get a (record_metrics date history am)
  = if decide (a = fst am)
    then Some (dict_set date (metrics_subset (snd am))
                 (match dict_get (fst am) history with Some r => r | None => [] end))
    else dict_get a history.
Proof.
  unfold record_metrics, dict_mem. destruct am as [k m]. cbn [fst snd].
  destruct (decide (a = k)) as [->|Hne].
  - rewrite dict_get_set_eq.
    destruct (dict_get k history) eqn:Hk; [by rewrite Hk|].
    by rewrite dict_get_set_eq.
  - rewrite dict_get_set_ne by done.
    destruct (dict_get k history); [done|]. by rewrite dict_get_set_ne.
Qed.

Lemma record_date_get date (rs : dict string metrics_record) history a :
  NoDup (dict_keys rs) →
  dict_get a (record_date date rs history)
  = match dict_get a rs with
    | Some m => Some (dict_set date (metrics_subset m)
                        (match dict_get a history with Some r => r | None => [] end))
    | None => dict_get a history
    end.
Proof.
  unfold record_date. revert history.
  induction rs as [|[k m] rs IH]; intros history Hnd; [done|].
  cbn [fold_left dict_get]. apply NoDup_cons in Hnd as [Hk Hnd]. simpl in Hk.
  rewrite IH by done. rewrite record_metrics_get. cbn [fst snd].
  destruct (decide (a = k)) as [->|Hne]; [|done].
  apply dict_get_None in Hk. by rewrite Hk.
Qed.

Lemma dict_set_values {V} (P : V → Prop) (k : string) (v : V) (d : dict string V) :
  P v → Forall (fun kv => P (snd kv)) d → Forall (fun kv => P (snd kv)) (dict_set k v d).
Proof.
  intros Hv. induction 1 as [|[k' v'] d Hx Hd IH]; simpl.
  - by repeat constructor.
  - destruct (decide (k = k')); constructor; done.
Qed.

Lemma dict_get_values {V} (P : V → Prop) (k : string) (v : V) (d : dict string V) :
  Forall (fun kv => P (snd kv)) d → dict_get k d = Some v → P v.
Proof.
  intros Hall Hget. apply dict_get_Some_elem in Hget.
  by apply (proj1 (Forall_forall _ _) Hall (k, v)).
Qed.

Lemma record_metrics_only_metrics date history am :
  only_metrics history → only_metrics (record_metrics date history am).
Proof.
  intros Hh. unfold record_metrics, only_metrics in *.
  apply (dict_set_values (fun recs => Forall (fun kv => is_metrics (snd kv) = true) recs)).
  - apply (dict_set_values (fun v => is_metrics v = true)); [done|].
    destruct (dict_mem (fst am) history).
    + destruct (dict_get (fst am) history) as [r|] eqn:Hr; [|constructor].
      by apply (dict_get_values _ _ _ _ Hh Hr).
    + rewrite dict_get_set_eq. constructor.
  - destruct (dict_mem (fst am) history); [done|].
    apply (dict_set_values (fun recs => Forall (fun kv => is_metrics (snd kv) = true) recs));
      [constructor | done].
Qed.

Lemma record_date_only_metrics date rs history :
  only_metrics history → only_metrics (record_date date rs history).
Proof.
  unfold record_date. revert history.
  induction rs as [|am rs IH]; intros history Hh; [done|].
  apply IH, record_metrics_only_metrics, Hh.
Qed.

Lemma expected_history_only_metrics w agency_filter dates history history' :
  only_metrics history →
  expected_history w agency_filter dates history = Ok history' →
  only_metrics history'.
Proof.
  revert history. induction dates as [|date dates IH]; intros history Hh; simpl.
  - by intros [= <-].
  - destruct (analysis w date agency_filter) as [r|e]; simpl; [|done].
    apply IH. by apply record_date_only_metrics.
Qed.

Lemma delta_of_metrics wc1 cs1 c1 wc2 cs2 c2 :
  delta_of (Metrics wc1 cs1 c1) (Metrics wc2 cs2 c2)
  = Ok (Delta (wc2 - wc1)
          match c2, c1 with
          | Some g2, Some g1 => Some (grade_sub g2 g1)
          | _, _ => None
          end).
Proof. unfold delta_of. simpl. by destruct c2, c1. Qed.

(** With no delta stored yet, attaching one does not raise. *)
Lemma attach_delta_total start end_ records :
  Forall (fun kv => is_metrics (snd kv) = true) records →
  ∃ records', attach_delta start end_ records = Ok records'.
Proof.
  intros Hall. unfold attach_delta.
  destruct (dict_get start records) as [rs|] eqn:Hs; [|by eexists].
  destruct (dict_get end_ records) as [re|] eqn:He; [|by eexists].
  pose proof (dict_get_values (fun v => is_metrics v = true) _ _ _ Hall Hs) as Hms.
  pose proof (dict_get_values (fun v => is_metrics v = true) _ _ _ Hall He) as Hme.
  destruct rs, re; try done. rewrite delta_of_metrics. by eexists.
Qed.

Lemma add_deltas_total start end_ history :
  only_metrics history → ∃ history', add_deltas start end_ history = Ok history'.
Proof.
  induction 1 as [|[a records] history Hrec Hh IH]; simpl; [by eexists|].
  destruct (attach_delta_total start end_ records Hrec) as [records' ->].
  destruct IH as [history' ->]. by eexists.
Qed.

Lemma add_deltas_get start end_ history history' a :
  add_deltas start end_ history = Ok history' →
  match dict_get a history with
  | Some records =>
      ∃ records', attach_delta start end_ records = Ok records'
                  ∧ dict_get a history' = Some records'
  | None => dict_get a history' = None
  end.
Proof.
  revert history'. induction history as [|[k records] history IH]; intros history'; simpl.
  - by intros [= <-].
  - destruct (attach_delta start end_ records) as [records1|e] eqn:Hatt; simpl; [|done].
    destruct (add_deltas start end_ history) as [rest1|e]; simpl; [|done].
    intros [= <-]. simpl. destruct (decide (a = k)) as [->|Hne].
    + by exists records1.
    + by apply IH.
Qed.

Lemma two_dates_records d1 d2 (r1 r2 : dict string metrics_record) a :
  NoDup (dict_keys r1) → NoDup (dict_keys r2) →
  dict_get a (record_date d2 r2 (record_date d1 r1 []))
  = two_records d1 d2 (dict_get a r1) (dict_get a r2).
Proof.
  intros Hnd1 Hnd2. rewrite !record_date_get by done. cbn [dict_get].
  by destruct (dict_get a r1), (dict_get a r2).
Qed.

(** The delta attached to the records of one agency after two dates. *)
Lemma attach_delta_two d1 d2 (o1 o2 : option metrics_record) records0 records wc cc :
  two_records d1 d2 o1 o2 = Some records0 →
  (d1 = d2 → o1 = o2) →
  attach_delta d1 d2 records0 = Ok records →
  dict_get "delta" records = Some (Delta wc cc)
  ↔ ∃ m1 m2, o1 = Some m1 ∧ o2 = Some m2
             ∧ delta_of (metrics_subset m1) (metrics_subset m2) = Ok (Delta wc cc).
Proof.
  intros Htwo Hsame. unfold attach_delta.
  destruct o1 as [m1|], o2 as [m2|]; cbn [two_records] in Htwo; try done;
    apply (inj Some) in Htwo as <-.
  - assert (∃ ms, (ms = m1 ∨ (d1 = d2 ∧ m1 = m2 ∧ ms = m2))
                  ∧ dict_get d1 (dict_set d2 (metrics_subset m2) [(d1, metrics_subset m1)])
                    = Some (metrics_subset ms)
                  ∧ dict_get d2 (dict_set d2 (metrics_subset m2) [(d1, metrics_subset m1)])
                    = Some (metrics_subset m2)) as (ms & Hms & -> & ->).
    { rewrite dict_get_set_eq. destruct (decide (d2 = d1)) as [->|Hne].
      - exists m2. rewrite dict_get_set_eq. split; [|done].
        right. split; [done|]. split; [|done]. by injection (Hsame eq_refl).
      - exists m1. rewrite dict_get_set_ne by done. simpl.
        rewrite decide_True by done. by split; [left|]. }
    assert (ms = m1) as -> by (destruct Hms as [?|(_ & ? & ?)]; congruence).
    unfold metrics_subset at 1 2. rewrite delta_of_metrics. cbn [bind].
    intros [= <-]. rewrite dict_get_set_eq. split.
    + intros [= <- <-]. exists m1, m2. repeat split.
      unfold metrics_subset. by rewrite delta_of_metrics.
    + intros (m1' & m2' & [= <-] & [= <-] & Hd).
      unfold metrics_subset in Hd. rewrite delta_of_metrics in Hd. congruence.
  - assert (d1 ≠ d2) as Hne by (intros Heq; by specialize (Hsame Heq)).
    simpl. rewrite decide_True by done. rewrite decide_False by done.
    intros [= <-]. split.
    + simpl. destruct (decide ("delta" = d1)); by intros [=].
    + by intros (? & ? & _ & [=] & _).
  - assert (d1 ≠ d2) as Hne by (intros Heq; by specialize (Hsame Heq)).
    simpl. rewrite decide_False by done.
    intros [= <-]. split.
    + simpl. destruct (decide ("delta" = d2)); by intros [=].
    + by intros (? & ? & [=] & _).
Qed.

(** The word-count delta of an agency after two dates. *)
Lemma word_count_delta_two d1 d2 (r1 r2 : dict string metrics_record) history a :
  NoDup (dict_keys r1) → NoDup (dict_keys r2) →
  (d1 = d2 → r1 = r2) →
  add_deltas d1 d2 (record_date d2 r2 (record_date d1 r1 [])) = Ok history →
  word_count_delta history a
  = match dict_get a r1, dict_get a r2 with
    | Some m1, Some m2 => Some (word_count m2 - word_count m1)
    | _, _ => None
    end.
Proof.
  intros Hnd1 Hnd2 Hsame Hadd.
  pose proof (add_deltas_get _ _ _ _ a Hadd) as Hget.
  rewrite two_dates_records in Hget by done.
  unfold word_count_delta.
  destruct (two_records d1 d2 (dict_get a r1) (dict_get a r2)) as [records0|] eqn:Htwo.
  - destruct Hget as (records & Hatt & ->).
    assert (d1 = d2 → dict_get a r1 = dict_get a r2) as Hsame'
        by (intros Heq; by rewrite (Hsame Heq)).
    destruct (dict_get "delta" records) as [[wc cs c|wc cc]|] eqn:Hd.
    + destruct (dict_get a r1) as [m1|] eqn:H1, (dict_get a r2) as [m2|] eqn:H2; try done.
      assert (∃ cc, dict_get "delta" records
                    = Some (Delta (word_count m2 - word_count m1) cc)) as [cc0 Hcc].
      { eexists. apply (attach_delta_two d1 d2 _ _ _ _ _ _ Htwo Hsame' Hatt).
        exists m1, m2. repeat split. unfold metrics_subset. by rewrite delta_of_metrics. }
      congruence.
    + apply (attach_delta_two d1 d2 _ _ _ _ _ _ Htwo Hsame' Hatt) in Hd
        as (m1 & m2 & -> & -> & Hdelta).
      unfold metrics_subset in Hdelta. rewrite delta_of_metrics in Hdelta. congruence.
    + destruct (dict_get a r1) as [m1|] eqn:H1, (dict_get a r2) as [m2|] eqn:H2; try done.
      assert (∃ cc, dict_get "delta" records
                    = Some (Delta (word_count m2 - word_count m1) cc)) as [cc0 Hcc].
      { eexists. apply (attach_delta_two d1 d2 _ _ _ _ _ _ Htwo Hsame' Hatt).
        exists m1, m2. repeat split. unfold metrics_subset. by rewrite delta_of_metrics. }
      congruence.
  - rewrite Hget. by destruct (dict_get a r1), (dict_get a r2).
Qed.

(** With no delta stored, no record holds one. *)
Lemma only_metrics_no_delta history a records key wc cc :
  only_metrics history →
  dict_get a history = Some records →
  dict_get key records ≠ Some (Delta wc cc).
Proof.
  intros Hh Ha Hk.
  pose proof (dict_get_values
    (fun recs => Forall (fun kv => is_metrics (snd kv) = true) recs) _ _ _ Hh Ha) as Hrec.
  by pose proof (dict_get_values (fun v => is_metrics v = true) _ _ _ Hrec Hk).
Qed.

(** What a call with two dates comes to. *)
Lemma over_time_two w d1 d2 agency_filter w' history :
  analyze_agencies_over_time w [d1; d2] agency_filter = Ok (w', history) →
  ∃ r1 r2,
    analysis w d1 agency_filter = Ok r1
    ∧ analysis w d2 agency_filter = Ok r2
    ∧ add_deltas d1 d2 (record_date d2 r2 (record_date d1 r1 [])) = Ok history.
Proof.
  unfold analyze_agencies_over_time.
  destruct (collect_history_expected w agency_filter [d1; d2] w [] (same_view_refl w))
    as (w1 & _ & ->).
  cbn [expected_history].
  destruct (analysis w d1 agency_filter) as [r1|e]; cbn [bind]; [|done].
  destruct (analysis w d2 agency_filter) as [r2|e]; cbn [bind]; [|done].
  destruct (add_deltas _ _ _) as [h|e] eqn:Hadd; cbn [bind]; [|done].
  intros [= <- <-]. by exists r1, r2.
Qed.

Lemma over_time_two_total w d1 d2 agency_filter r1 r2 :
  analysis w d1 agency_filter = Ok r1 →
  analysis w d2 agency_filter = Ok r2 →
  ∃ w' history,
    analyze_agencies_over_time w [d1; d2] agency_filter = Ok (w', history)
    ∧ add_deltas d1 d2 (record_date d2 r2 (record_date d1 r1 [])) = Ok history.
Proof.
  intros H1 H2. unfold analyze_agencies_over_time.
  destruct (collect_history_expected w agency_filter [d1; d2] w [] (same_view_refl w))
    as (w1 & _ & ->).
  cbn [expected_history]. rewrite H1. cbn [bind]. rewrite H2. cbn [bind].
  destruct (add_deltas_total d1 d2 (record_date d2 r2 (record_date d1 r1 [])))
    as [history Hadd].
  { do 2 apply record_date_only_metrics. constructor. }
  rewrite Hadd. cbn [bind]. by exists w1, history.
Qed.


(* =================================================================== *)
(** ** Facts about the text helpers *)
(* =================================================================== *)

Lemma append_cons (c : ascii) (a b : string) :
  String.append (String c a) b = String c (String.append a b).
Proof. reflexivity. Qed.

Lemma append_nil_l (b : string) : String.append "" b = b.
Proof. reflexivity. Qed.

Lemma lstrip_head (s : string) :
  Str.lstrip s = "" ∨ ∃ c r, Str.lstrip s = String c r ∧ Str.is_space c = false.
Proof.
  induction s as [|c s IH]; [by left|]. simpl.
  destruct (Str.is_space c) eqn:Hc; [exact IH|]. right. by exists c, s.
Qed.

Lemma rstrip_cons (c : ascii) (s : string) :
  Str.is_space c = false → Str.rstrip (String c s) = String c (Str.rstrip s).
Proof. intros Hc. simpl. rewrite Hc. by destruct (Str.rstrip s). Qed.

Lemma lstrip_fixed (c : ascii) (s : string) :
  Str.is_space c = false → Str.lstrip (String c s) = String c s.
Proof. intros Hc. simpl. by rewrite Hc. Qed.

(** A stripped string is empty or starts with a character that is not
    white space. *)
Lemma strip_head (s : string) :
  Str.strip s = "" ∨ ∃ c r, Str.strip s = String c r ∧ Str.is_space c = false.
Proof.
  unfold Str.strip. destruct (lstrip_head s) as [->|(c & r & -> & Hc)]; [by left|].
  right. exists c, (Str.rstrip r). by rewrite rstrip_cons.
Qed.

Lemma rstrip_idem (s : string) : Str.rstrip (Str.rstrip s) = Str.rstrip s.
Proof.
  induction s as [|c s IH]; [done|]. simpl.
  destruct (Str.rstrip s) as [|c' r] eqn:Hr.
  - destruct (Str.is_space c) eqn:Hc; [done|]. simpl. by rewrite Hc.
  - simpl. simpl in IH. rewrite IH. done.
Qed.

(** Stripping twice is stripping once. *)
Lemma strip_idem (s : string) : Str.strip (Str.strip s) = Str.strip s.
Proof.
  destruct (strip_head s) as [->|(c & r & Hs & Hc)]; [done|].
  unfold Str.strip at 1. rewrite Hs, lstrip_fixed by done.
  rewrite <- Hs. unfold Str.strip. apply rstrip_idem.
Qed.

Lemma nonblank_cons (c : ascii) (s : string) :
  Str.is_space c = false → Str.nonblank (String c s) = true.
Proof.
  intros Hc. unfold Str.nonblank, Str.strip.
  by rewrite lstrip_fixed, rstrip_cons.
Qed.

Lemma nonblank_lstrip (s : string) :
  Str.nonblank s = true ↔ Str.lstrip s ≠ "".
Proof.
  unfold Str.nonblank, Str.strip.
  destruct (lstrip_head s) as [->|(c & r & -> & Hc)]; [done|].
  rewrite rstrip_cons by done. done.
Qed.

Lemma rstrip_app (a b : string) :
  Str.rstrip b ≠ "" →
  Str.rstrip (String.append a b) = String.append a (Str.rstrip b).
Proof.
  intros Hb. induction a as [|c a IH]; [done|].
  rewrite !append_cons. cbn [Str.rstrip]. rewrite IH.
  destruct (String.append a (Str.rstrip b)) eqn:Happ; [|done].
  destruct a; [|done]. by rewrite append_nil_l in Happ.
Qed.

(** [split] over a text, a white-space character and another text. *)
Lemma split_from_space (cur : option string) (a b : string) (sp : ascii) :
  Str.is_space sp = true →
  Str.split_from cur (String.append a (String sp b))
  = Str.split_from cur a ++ Str.split_from None b.
Proof.
  intros Hsp. revert cur. induction a as [|c a IH]; intros cur.
  - rewrite append_nil_l. cbn [Str.split_from]. rewrite Hsp. by destruct cur.
  - rewrite append_cons. cbn [Str.split_from].
    destruct (Str.is_space c); [|apply IH].
    destruct cur; [|apply IH]. by rewrite IH.
Qed.

Lemma split_from_nil (cur : option string) (s : string) :
  Str.split_from cur s = [] ↔ cur = None ∧ Str.lstrip s = "".
Proof.
  revert cur. induction s as [|c s IH]; intros cur.
  - simpl. destruct cur; split; try done. by intros [? _].
  - cbn [Str.split_from Str.lstrip]. destruct (Str.is_space c).
    + destruct cur; [split; [done | by intros [? _]]|]. apply IH.
    + rewrite IH. split; [by intros [? _] | by intros [_ ?]].
Qed.

(** A text that is not blank has at least one word. *)
Lemma compute_word_count_nonblank (s : string) :
  Str.nonblank s = true → 1 <= compute_word_count s.
Proof.
  intros Hn. apply nonblank_lstrip in Hn. unfold compute_word_count, Str.split.
  destruct (Str.split_from None s) eqn:Hs; [|simpl; lia].
  apply split_from_nil in Hs as [_ Hs]. done.
Qed.

Lemma prefixed_cons (s : string) (l : list string) :
  prefixed (s :: l) = String " " (String.append s (prefixed l)).
Proof. reflexivity. Qed.

Lemma split_prefixed (texts : list string) :
  Str.split (prefixed texts) = concat (Str.split <$> texts).
Proof.
  induction texts as [|s l IH]; [done|].
  rewrite prefixed_cons, fmap_cons. cbn [concat]. rewrite <- IH.
  unfold Str.split. cbn [Str.split_from]. change (Str.is_space " ") with true.
  cbn iota. destruct l as [|s2 l].
  - cbn [prefixed fold_right]. by rewrite append_empty_r, app_nil_r.
  - rewrite (prefixed_cons s2 l), split_from_space by done.
    f_equal.
Qed.

(** Counting the words of " t1 ... tn" in one pass gives the sum of the
    counts of the texts. *)
Lemma compute_word_count_prefixed (texts : list string) :
  compute_word_count (prefixed texts) = sum_Z (compute_word_count <$> texts).
Proof.
  unfold compute_word_count. rewrite split_prefixed.
  induction texts as [|s l IH]; [done|].
  rewrite fmap_cons. cbn [concat]. rewrite length_app, Nat2Z.inj_add, IH. done.
Qed.

(* =================================================================== *)
(** ** More on the document parser *)
(* =================================================================== *)

Lemma stripped_head (b : string) :
  stripped b → ∃ c r, b = String c r ∧ Str.is_space c = false.
Proof.
  intros [Hs Hne]. destruct (strip_head b) as [He|(c & r & Hb & Hc)].
  - congruence.
  - exists c, r. split; [congruence | done].
Qed.

Lemma stripped_rstrip (b : string) : stripped b → Str.rstrip b = b.
Proof.
  intros Hb. destruct (stripped_head b Hb) as (c & r & -> & Hc).
  destruct Hb as [Hs _]. unfold Str.strip in Hs. by rewrite lstrip_fixed in Hs.
Qed.

Lemma text_block_stripped (e : element) : Forall stripped (text_block e).
Proof.
  unfold text_block. destruct (text e) as [s|]; [|constructor].
  destruct (Str.truthy s); [|constructor]. simpl.
  destruct (Str.truthy (Str.strip s)) eqn:Ht; [|constructor].
  repeat constructor; [apply strip_idem|]. intros He. by rewrite He in Ht.
Qed.

Lemma text_blocks_stripped (es : list element) : Forall stripped (text_blocks es).
Proof.
  unfold text_blocks. induction es as [|e es IH]; simpl; [constructor|].
  apply Forall_app. split; [apply text_block_stripped | done].
Qed.

Lemma join_stripped (l : list string) :
  Forall stripped l → l ≠ [] → stripped (Str.join " " l).
Proof.
  induction 1 as [|x l Hx Hl IH]; [done|]. intros _.
  destruct l as [|y l]; [done|].
  change (Str.join " " (x :: y :: l))
    with (String.append x (String.append " " (Str.join " " (y :: l)))).
  specialize (IH ltac:(done)). set (J := Str.join " " (y :: l)) in *.
  destruct (stripped_head x Hx) as (c & r & -> & Hc).
  split; [|done]. unfold Str.strip.
  rewrite append_cons, lstrip_fixed by done. rewrite <- append_cons.
  assert (Str.rstrip (String.append " " J) = String.append " " J) as HJ.
  { change (String.append " " J) with (String " " J). cbn [Str.rstrip].
    rewrite (stripped_rstrip J IH). destruct IH as [_ HJ]. by destruct J. }
  rewrite rstrip_app; rewrite HJ; done.
Qed.

Lemma join_blocks (l : list string) :
  Forall stripped l →
  Str.strip (Str.join " " l) = Str.join " " l
  ∧ (Str.join " " l = "" ↔ l = [])
  ∧ (Str.nonblank (Str.join " " l) = true ↔ l ≠ []).
Proof.
  intros Hl. destruct l as [|x l]; [done|].
  destruct (join_stripped (x :: l) Hl ltac:(done)) as [Hs Hne].
  split; [done|]. split; [done|]. split; [done|]. intros _.
  unfold Str.nonblank. rewrite Hs. by destruct (Str.join " " (x :: l)).
Qed.

(** The loop of flat mode with a filter adds the text blocks of the
    chapters the filter names, in document order. *)
Lemma flat_chapters_filter (chapters : list element) (target : list (option string))
    (acc : list string) :
  flat_chapters chapters target acc
  = acc ++ List.flat_map (fun c => text_blocks (iter c))
             (List.filter (fun c => any_chapter target (chapter_number c)) chapters).
Proof.
  revert acc. induction chapters as [|c cs IH]; intros acc; simpl.
  - by rewrite app_nil_r.
  - destruct (any_chapter target (chapter_number c)); simpl; [|apply IH].
    by rewrite IH, <- app_assoc.
Qed.

Lemma selected_any (x : option string) (target : list (option string)) (c : element) :
  selected (Some (x :: target)) c = any_chapter (x :: target) (chapter_number c).
Proof. reflexivity. Qed.

Lemma flat_mode_text_eq (w : data_folder) (p : Z * string) (root : element)
    (target : option (list (option string))) :
  title_xml w !! p = Some (WellFormed root) →
  parse_title_xml w p target false
  = Ok (Str.join " "
          (if not_target target then text_blocks (iter root)
           else List.flat_map (fun c => text_blocks (iter c))
                  (matching_chapters root target))).
Proof.
  intros Hp. unfold parse_title_xml, read_xml. rewrite Hp. cbn [bind ET_parse parse_root].
  destruct target as [[|x target]|]; try done. cbn [not_target targets].
  rewrite flat_chapters_filter. simpl app. unfold matching_chapters.
  do 3 f_equal.
Qed.

(** In flat mode, a filter that is not empty gathers the text blocks of
    exactly the Chapter Nodes that sectioned mode selects, in document
    order; no filter, or an empty one, gathers those of the whole
    document. *)
Theorem flat_mode_text (w : data_folder) (p : Z * string) (root : element)
    (target : option (list (option string))) :
  title_xml w !! p = Some (WellFormed root) →
  parse_title_xml w p target false
  = Ok (Str.join " "
          (if not_target target then text_blocks (iter root)
           else List.flat_map (fun c => text_blocks (iter c))
                  (matching_chapters root target))).
Proof. apply flat_mode_text_eq. Qed.

(** The text of flat mode has no white space at either end, so it is
    blank only when it is empty, which is when no element in scope has
    text other than white space. *)
Theorem flat_mode_stripped (w : data_folder) (p : Z * string)
    (target : option (list (option string))) (text_ : string) :
  parse_title_xml w p target false = Ok text_ →
  Str.strip text_ = text_
  ∧ (Str.nonblank text_ = true ↔ text_ ≠ "").
Proof.
  unfold parse_title_xml, read_xml.
  destruct (title_xml w !! p) as [[root|]|] eqn:Hp; cbn [bind ET_parse]; try done.
  intros Hparse.
  assert (∃ l, Forall stripped l ∧ text_ = Str.join " " l) as (l & Hl & ->).
  { cbn [parse_root] in Hparse. destruct (not_target target).
    - injection Hparse as <-. eexists. split; [apply text_blocks_stripped | done].
    - injection Hparse as <-. eexists. split; [|done].
      rewrite flat_chapters_filter. simpl app.
      induction (List.filter _ _) as [|c cs IH]; simpl; [constructor|].
      apply Forall_app. split; [apply text_blocks_stripped | done]. }
  destruct (join_blocks l Hl) as (Hs & He & Hn). split; [done|].
  rewrite Hn, He. done.
Qed.

(** A filter none of whose codes is the code of a Chapter Node of the
    title: the title yields no text, and the analyzer passes over it
    without recording it. *)
Theorem filter_without_match_is_skipped data date agency_id w acc t root x target :
  title_xml w !! xml_path t date = Some (WellFormed root) →
  chapter_filter (relevant_chapters data agency_id t) = Some (x :: target) →
  matching_chapters root (Some (x :: target)) = [] →
  parse_title_xml w (xml_path t date) (Some (x :: target)) false = Ok ""
  ∧ analyze_title data date agency_id w acc t = Ok (w, acc).
Proof.
  intros Hfile Hfilter Hnone.
  assert (parse_title_xml w (xml_path t date) (Some (x :: target)) false = Ok "") as Hp.
  { rewrite (flat_mode_text_eq _ _ root) by done. cbn [not_target]. by rewrite Hnone. }
  split; [done|]. unfold analyze_title, exists_xml. rewrite Hfile. cbn [negb bind].
  rewrite Hfilter, Hp. done.
Qed.

Lemma upper_truthy (s1 s2 : string) :
  Str.upper s1 = Str.upper s2 → Str.truthy s1 = Str.truthy s2.
Proof. by destruct s1, s2. Qed.

Lemma any_chapter_same_codes (t1 t2 : list (option string)) (number : string) :
  same_codes t1 t2 → any_chapter t1 number = any_chapter t2 number.
Proof.
  induction 1 as [|a b t1 t2 Hab _ IH]; [done|]. simpl. rewrite IH. f_equal.
  destruct a as [a|], b as [b|]; try done. injection Hab as Hab.
  by rewrite (upper_truthy a b), Hab.
Qed.

(** Filter codes are compared without regard to case: two filters that
    agree up to the case of their codes give the same result, in both
    modes. *)
Theorem filter_ignores_case (w : data_folder) (p : Z * string)
    (t1 t2 : list (option string)) (return_sections : bool) :
  same_codes t1 t2 →
  parse_title_xml w p (Some t1) return_sections
  = parse_title_xml w p (Some t2) return_sections.
Proof.
  intros Hsame. unfold parse_title_xml.
  destruct (read_xml w p) as [f|e]; cbn [bind]; [|done].
  destruct (ET_parse f) as [root|e]; cbn [bind]; [|done].
  assert (not_target (Some t1) = not_target (Some t2)) as Hnt.
  { by destruct Hsame. }
  destruct return_sections; cbn [parse_root].
  - generalize ([] : dict string string).
    induction (findall_chapters root) as [|c cs IH]; intros acc; [done|].
    cbn [section_chapters]. unfold selected. cbn [targets].
    rewrite Hnt, (any_chapter_same_codes t1 t2) by done.
    destruct (_ || _); [|apply IH].
    destruct (heading_of c); cbn [bind]; [apply IH | done].
  - rewrite Hnt. destruct (not_target (Some t2)); [done|]. cbn [targets].
    rewrite !flat_chapters_filter. do 4 f_equal.
    apply List.filter_ext. intros c. by apply any_chapter_same_codes.
Qed.

Lemma upper_char_idem (c : ascii) : Str.upper_char (Str.upper_char c) = Str.upper_char c.
Proof. by destruct c as [[] [] [] [] [] [] [] []]. Qed.

Lemma upper_idem (s : string) : Str.upper (Str.upper s) = Str.upper s.
Proof. induction s as [|c s IH]; simpl; [done|]. by rewrite upper_char_idem, IH. Qed.

Lemma same_codes_upper (target : list (option string)) :
  same_codes target (fmap (M:=option) Str.upper <$> target).
Proof.
  induction target as [|a target IH]; constructor; [|done].
  destruct a; simpl; [|done]. by rewrite upper_idem.
Qed.

Lemma heading_of_error (c : element) (e : exn) :
  heading_of c = Raise e →
  e = AttributeError ∧ ∃ h, find "HEAD" c = Some h ∧ text h = None.
Proof.
  unfold heading_of. destruct (find "HEAD" c) as [h|]; [|done].
  destruct (text h) eqn:Ht; [done|]. intros [= <-]. split; [done|]. by exists h.
Qed.

Lemma section_chapters_raise chapters target acc :
  (∃ e, section_chapters chapters target acc = Raise e)
  ↔ ∃ c h, c ∈ List.filter (selected target) chapters
           ∧ find "HEAD" c = Some h ∧ text h = None.
Proof.
  revert acc. induction chapters as [|c cs IH]; intros acc; cbn [section_chapters List.filter].
  - split; [by intros [? ?] | intros (? & ? & Hin & _); by apply elem_of_nil in Hin].
  - destruct (selected target c) eqn:Hsel.
    + destruct (heading_of c) as [k|e] eqn:Hh; cbn [bind].
      * rewrite IH. split.
        -- intros (c' & h & Hin & Hf). exists c', h. split; [by apply list_elem_of_further | done].
        -- intros (c' & h & Hin & Hf & Ht). apply elem_of_cons in Hin as [->|Hin].
           ++ unfold heading_of in Hh. by rewrite Hf, Ht in Hh.
           ++ by exists c', h.
      * split; [|by eexists]. intros _.
        apply heading_of_error in Hh as (_ & h & Hf & Ht).
        exists c, h. split; [apply list_elem_of_here | done].
    + apply IH.
Qed.

Lemma section_chapters_error chapters target acc e :
  section_chapters chapters target acc = Raise e → e = AttributeError.
Proof.
  revert acc. induction chapters as [|c cs IH]; intros acc; cbn [section_chapters]; [done|].
  destruct (selected target c); [|apply IH].
  destruct (heading_of c) as [k|e'] eqn:Hh; cbn [bind]; [apply IH|].
  intros [= <-]. by apply heading_of_error in Hh as [? _].
Qed.

(** Sectioned mode on a well-formed file raises exactly when a selected
    Chapter Node has a HEAD child without text, and what it raises then
    is the AttributeError of [heading_elem.text.strip()]. *)
Theorem sections_raise_on_empty_head (w : data_folder) (p : Z * string) (root : element)
    (target : option (list (option string))) :
  title_xml w !! p = Some (WellFormed root) →
  parse_title_xml w p target true = Raise AttributeError
  ↔ ∃ c h, c ∈ matching_chapters root target
           ∧ find "HEAD" c = Some h ∧ text h = None.
Proof.
  intros Hp. unfold parse_title_xml, read_xml. rewrite Hp.
  cbn [bind ET_parse parse_root]. unfold matching_chapters.
  rewrite <- (section_chapters_raise _ _ []). split; [by eexists|].
  intros [e He]. by rewrite He, (section_chapters_error _ _ _ _ He).
Qed.

(* =================================================================== *)
(** ** More on the index *)
(* =================================================================== *)

Lemma build_agency_title_map_get (data : agencies_data) (n : string) (info : agency_info) :
  dict_get n (build_agency_title_map data) = Some info →
  ∃ a, a ∈ data ∧ name a = n ∧ info = info_of a ∧ titles_of a ≠ [].
Proof.
  induction data as [|a data IH] using rev_ind; [done|].
  rewrite build_agency_title_map_snoc.
  destruct (titles_of a) eqn:Ht.
  - intros Hg. destruct (IH Hg) as (b & Hb & Hrest).
    exists b. split; [|done]. apply elem_of_app. by left.
  - destruct (decide (name a = n)) as [<-|Hne].
    + rewrite dict_get_set_eq. intros [= <-]. exists a.
      split; [apply elem_of_app; right; apply list_elem_of_here|].
      by rewrite Ht.
    + rewrite dict_get_set_ne by done. intros Hg.
      destruct (IH Hg) as (b & Hb & Hrest).
      exists b. split; [|done]. apply elem_of_app. by left.
Qed.

Lemma build_agency_title_map_mem (data : agencies_data) (a : agency) :
  a ∈ data → titles_of a ≠ [] →
  is_Some (dict_get (name a) (build_agency_title_map data)).
Proof.
  induction data as [|b data IH] using rev_ind; intros Hin Ht.
  - by apply elem_of_nil in Hin.
  - rewrite build_agency_title_map_snoc.
    apply elem_of_app in Hin as [Hin|Hin].
    + destruct (titles_of b); [by apply IH|].
      destruct (decide (name b = name a)) as [<-|Hne].
      * rewrite dict_get_set_eq. by eexists.
      * rewrite dict_get_set_ne by done. by apply IH.
    + apply list_elem_of_singleton in Hin as <-.
      destruct (titles_of a) eqn:Hta; [done|]. rewrite dict_get_set_eq. by eexists.
Qed.

(** The index has one entry per name, the names being exactly those of
    the feed agencies with at least one reference that has a title; the
    entry of a name carries that name and the titles, never none, of one
    feed agency of that name. *)
Theorem index_entries (data : agencies_data) :
  NoDup (dict_keys (build_agency_title_map data))
  ∧ (∀ n, is_Some (dict_get n (build_agency_title_map data))
          ↔ ∃ a, a ∈ data ∧ name a = n ∧ titles_of a ≠ [])
  ∧ (∀ n info, dict_get n (build_agency_title_map data) = Some info →
       info_name info = n ∧ titles info ≠ []
       ∧ ∃ a, a ∈ data ∧ name a = n ∧ titles info = titles_of a).
Proof.
  split; [apply build_agency_title_map_NoDup|]. split.
  - intros n. split.
    + intros [info Hg]. apply build_agency_title_map_get in Hg as (a & Ha & Hn & _ & Ht).
      by exists a.
    + intros (a & Ha & <- & Ht). by apply build_agency_title_map_mem.
  - intros n info Hg. apply build_agency_title_map_get in Hg as (a & Ha & Hn & -> & Ht).
    split; [done|]. split; [done|]. by exists a.
Qed.

(* =================================================================== *)
(** ** More on the analyzer *)
(* =================================================================== *)

Lemma filtered_out_other (f k : string) :
  Str.truthy f = true → k ≠ f → filtered_out (Some f) k = true.
Proof.
  intros Hf Hne. unfold filtered_out. rewrite Hf.
  by destruct (String.eqb_spec k f).
Qed.

Lemma filtered_out_false (f k : string) :
  Str.truthy f = true → filtered_out (Some f) k = false → k = f.
Proof.
  intros Hf. unfold filtered_out. rewrite Hf.
  by destruct (String.eqb_spec k f).
Qed.

Lemma analyze_items_all_filtered data date agency_filter items w results :
  (∀ item, item ∈ items → filtered_out agency_filter (fst item) = true) →
  analyze_items data date agency_filter items w results = Ok (w, results).
Proof.
  induction items as [|[k info] items IH]; intros Hall; cbn [analyze_items]; [done|].
  unfold analyze_agency.
  pose proof (Hall (k, info) (list_elem_of_here _ _)) as Hk. cbn [fst] in Hk.
  rewrite Hk. cbn [bind].
  apply IH. intros item Hin. apply Hall. by apply list_elem_of_further.
Qed.

(** A filter that is not a name of the index: the answer is the empty
    dictionary, nothing is fetched, nothing is raised. *)
Theorem unknown_filter_gives_nothing (w w0 : data_folder) (data : agencies_data)
    (date f : string) :
  load_json w = Ok (w0, data) →
  Str.truthy f = true →
  dict_get f (build_agency_title_map data) = None →
  analyze_agencies w date (Some f) = Ok (w0, []).
Proof.
  intros Hload Hf Hnone. unfold analyze_agencies. rewrite Hload. cbn [bind].
  apply analyze_items_all_filtered. intros [k info] Hin. cbn [fst].
  apply filtered_out_other; [done|]. intros ->.
  apply dict_get_None in Hnone. apply Hnone.
  change (f ∈ fst <$> build_agency_title_map data).
  apply list_elem_of_fmap. by exists (f, info).
Qed.

(** Where a record comes from: its key is a name of the index, passes
    the filter, is the record's own [agency_name], and the titles it
    lists are, in order, among the titles the index has for that name. *)
Theorem record_provenance w date agency_filter w' results k r :
  analyze_agencies w date agency_filter = Ok (w', results) →
  dict_get k results = Some r →
  ∃ w0 data info,
    load_json w = Ok (w0, data)
    ∧ dict_get k (build_agency_title_map data) = Some info
    ∧ agency_name r = k
    ∧ titles_analyzed r `sublist_of` titles info
    ∧ (∀ f, agency_filter = Some f → Str.truthy f = true → k = f).
Proof.
  intros Hrun Hk.
  destruct (analyze_agencies_emitted _ _ _ _ _ _ _ Hrun Hk)
    as (w0 & data & info & Hload & _ & Hinfo & Hf & Hm).
  exists w0, data, info. split; [done|]. split; [done|].
  pose proof Hm as (cs & Hrec & _).
  apply build_record_fields in Hrec as (Hname & _).
  apply made_of_texts in Hm as (texts & _ & _ & _ & _ & Hsub).
  apply build_agency_title_map_get in Hinfo as (a & _ & Hn & -> & _).
  split; [by rewrite Hname|]. split; [done|].
  intros f -> Htruthy. by apply filtered_out_false.
Qed.

(** The word count of a record is also the word count, in one pass, of
    the very text whose digest is its checksum and whose grade is its
    complexity. *)
Theorem word_count_of_the_checksummed_text w date agency_filter w' results k r :
  analyze_agencies w date agency_filter = Ok (w', results) →
  dict_get k results = Some r →
  ∃ w0 data (texts : list string),
    load_json w = Ok (w0, data)
    ∧ Forall2 (fun (t : Z) (s : string) =>
                 parse_title_xml w' (xml_path t date)
                   (chapter_filter (relevant_chapters data k t)) false = Ok s)
              (titles_analyzed r) texts
    ∧ word_count r = compute_word_count (prefixed texts)
    ∧ checksum r = compute_checksum (prefixed texts)
    ∧ complexity r = compute_complexity (prefixed texts).
Proof.
  intros Hrun Hk.
  destruct (analyze_agencies_emitted _ _ _ _ _ _ _ Hrun Hk)
    as (w0 & data & info & Hload & _ & _ & _ & Hm).
  destruct Hm as (cs & Hrec & _ & Hall).
  apply build_record_fields in Hrec as (_ & Hwc & Hsum & Hcx & _ & Htitles).
  exists w0, data, (snd <$> cs). rewrite Htitles, compute_word_count_prefixed.
  repeat split; try done.
  apply Forall2_fst_snd. eapply Forall_impl; [exact Hall|]. by intros [t s] [Hp _].
Qed.

Lemma sum_word_counts_ge (texts : list string) :
  Forall (fun s => Str.nonblank s = true) texts →
  Z.of_nat (length texts) <= sum_Z (compute_word_count <$> texts).
Proof.
  induction 1 as [|s l Hs Hl IH]; [done|].
  rewrite fmap_cons. cbn [sum_Z fold_right length]. fold (sum_Z (compute_word_count <$> l)).
  pose proof (compute_word_count_nonblank s Hs). lia.
Qed.

(** A record lists at least one title and counts at least one word per
    title listed. *)
Theorem record_is_not_empty w date agency_filter w' results k r :
  analyze_agencies w date agency_filter = Ok (w', results) →
  dict_get k results = Some r →
  1 <= titles_count r ∧ titles_count r <= word_count r.
Proof.
  intros Hrun Hk.
  destruct (analyze_agencies_emitted _ _ _ _ _ _ _ Hrun Hk)
    as (w0 & data & info & _ & _ & _ & _ & Hm).
  destruct Hm as (cs & Hrec & _ & Hall).
  pose proof Hrec as Hfields.
  apply build_record_fields in Hfields as (_ & Hwc & _ & _ & Hcount & Htitles).
  rewrite Hcount, Htitles, Hwc, !length_fmap. split.
  - destruct cs; [|simpl; lia]. by rewrite add_all_nil in Hrec.
  - rewrite <- (length_fmap snd cs). apply sum_word_counts_ge.
    apply Forall_fmap. eapply Forall_impl; [exact Hall|]. by intros [t s] [_ Hn].
Qed.

Lemma analyze_title_present data date agency_id w acc t s :
  parse_title_xml w (xml_path t date)
    (chapter_filter (relevant_chapters data agency_id t)) false = Ok s →
  analyze_title data date agency_id w acc t = Ok (w, push acc t s).
Proof.
  intros Hp. unfold analyze_title, exists_xml.
  destruct (title_xml w !! xml_path t date) eqn:Hfile.
  - cbn [negb bind]. rewrite Hp. cbn [bind]. unfold push. by destruct (Str.nonblank s).
  - unfold parse_title_xml, read_xml in Hp. by rewrite Hfile in Hp.
Qed.

Lemma analyze_titles_replicate data date agency_id w acc t s n :
  parse_title_xml w (xml_path t date)
    (chapter_filter (relevant_chapters data agency_id t)) false = Ok s →
  Str.nonblank s = true →
  analyze_titles data date agency_id (replicate n t) w acc
  = Ok (w, add_all acc (replicate n (t, s))).
Proof.
  intros Hp Hn. revert acc. induction n as [|n IH]; intros acc; cbn [replicate analyze_titles].
  - by rewrite add_all_nil.
  - rewrite (analyze_title_present _ _ _ _ _ _ s) by done. cbn [bind].
    rewrite IH. unfold push. rewrite Hn. by rewrite add_all_cons.
Qed.

Lemma lstrip_app (s r : string) :
  Str.lstrip s ≠ "" → Str.lstrip (String.append s r) ≠ "".
Proof.
  induction s as [|c s IH]; [done|]. rewrite append_cons. cbn [Str.lstrip].
  by destruct (Str.is_space c).
Qed.

Lemma prefixed_nonblank (s : string) (l : list string) :
  Str.nonblank s = true → Str.nonblank (prefixed (s :: l)) = true.
Proof.
  intros Hs. apply nonblank_lstrip. rewrite prefixed_cons. cbn [Str.lstrip].
  change (Str.is_space " ") with true. cbn iota.
  apply lstrip_app. by apply nonblank_lstrip.
Qed.

Lemma sum_Z_replicate (n : nat) (x : Z) : sum_Z (replicate n x) = Z.of_nat n * x.
Proof.
  induction n as [|n IH]; [done|]. cbn [replicate sum_Z fold_right].
  fold (sum_Z (replicate n x)). rewrite IH. lia.
Qed.

(** A title that the index lists [n] times for an agency is parsed [n]
    times and counted [n] times: the record lists it [n] times and its
    word count is [n] times that of the title's text. *)
Theorem repeated_title_counted_again
    data date agency_filter w results k nm t s (n : nat) :
  filtered_out agency_filter k = false →
  parse_title_xml w (xml_path t date)
    (chapter_filter (relevant_chapters data k t)) false = Ok s →
  Str.nonblank s = true →
  (0 < n)%nat →
  ∃ r, analyze_agency data date agency_filter w results
         (k, {| titles := replicate n t; info_name := nm |})
       = Ok (w, dict_set k r results)
       ∧ titles_analyzed r = replicate n t
       ∧ titles_count r = Z.of_nat n
       ∧ word_count r = Z.of_nat n * compute_word_count s.
Proof.
  intros Hf Hp Hs Hn. unfold analyze_agency. rewrite Hf. cbn [titles].
  rewrite (analyze_titles_replicate _ _ _ _ _ _ s) by done. cbn [bind].
  destruct (build_record _ (add_all accum_init (replicate n (t, s)))) as [r|] eqn:Hrec.
  - exists r. split; [done|].
    apply build_record_fields in Hrec as (_ & Hwc & _ & _ & Hcount & Htitles).
    rewrite !fmap_replicate in *. cbn [fst snd] in *.
    rewrite Hcount, Htitles, length_replicate, Hwc, sum_Z_replicate. done.
  - exfalso. unfold build_record in Hrec. destruct n as [|n]; [lia|].
    cbn [replicate add_all accum_init combined_text] in Hrec.
    rewrite append_nil_l, fmap_cons, prefixed_nonblank in Hrec; done.
Qed.

(** Two folders that show the same files, cached or yet to be fetched,
    give the same results, or raise the same exception. *)
Theorem cache_is_transparent w1 w2 date agency_filter :
  same_view w1 w2 →
  (∀ w1' results,
      analyze_agencies w1 date agency_filter = Ok (w1', results) →
      ∃ w2', analyze_agencies w2 date agency_filter = Ok (w2', results))
  ∧ (∀ e, analyze_agencies w1 date agency_filter = Raise e →
          analyze_agencies w2 date agency_filter = Raise e).
Proof.
  intros Hv.
  destruct (analyze_agencies_analysis w1 date agency_filter) as (w1x & _ & H1).
  destruct (analyze_agencies_analysis w2 date agency_filter) as (w2x & _ & H2).
  rewrite H1, H2, (analysis_ext w1 w2) by done.
  destruct (analysis w2 date agency_filter); cbn [bind]; split; try done.
  intros w1' results [= _ <-]. by exists w2x.
Qed.

(* =================================================================== *)
(** ** When a run raises *)
(* =================================================================== *)

Lemma first_fault_cons w date t ts :
  first_fault w date (t :: ts)
  = match title_fault w date t with
    | Some e => Some e
    | None => first_fault w date ts
    end.
Proof. unfold first_fault. cbn [omap list_omap]. by destruct (title_fault w date t). Qed.

Lemma first_fault_app w date ts1 ts2 :
  first_fault w date (ts1 ++ ts2)
  = match first_fault w date ts1 with
    | Some e => Some e
    | None => first_fault w date ts2
    end.
Proof.
  induction ts1 as [|t ts1 IH]; [done|]. cbn [app]. rewrite !first_fault_cons.
  by destruct (title_fault w date t).
Qed.

Lemma first_fault_Some w date ts e :
  first_fault w date ts = Some e → ∃ t, t ∈ ts ∧ title_fault w date t = Some e.
Proof.
  induction ts as [|t ts IH]; [done|]. rewrite first_fault_cons.
  destruct (title_fault w date t) as [e'|] eqn:Ht.
  - intros [= <-]. exists t. split; [apply list_elem_of_here | done].
  - intros Hrest. destruct (IH Hrest) as (t' & Hin & Hf).
    exists t'. split; [by apply list_elem_of_further | done].
Qed.

Lemma first_fault_None w date ts :
  first_fault w date ts = None ↔ Forall (fun t => title_fault w date t = None) ts.
Proof.
  induction ts as [|t ts IH]; [by split; [constructor|]|]. rewrite first_fault_cons.
  destruct (title_fault w date t) as [e'|] eqn:Ht.
  - split; [done|]. intros Hall. apply Forall_cons in Hall as [? _]. congruence.
  - rewrite IH. split; [by constructor|]. intros Hall. by apply Forall_cons in Hall as [_ ?].
Qed.

Lemma expected_title_raise w data date agency_id acc t e :
  expected_title w data date agency_id acc t = Raise e ↔ title_fault w date t = Some e.
Proof.
  unfold expected_title, title_fault.
  destruct (view_xml w date t) as [[[root|]|]|e']; cbn [ET_parse bind].
  - cbn [parse_root]. by destruct (not_target _); cbn [bind].
  - split; intros [= <-]; done.
  - done.
  - split; intros [= <-]; done.
Qed.

Lemma expected_titles_raise w data date agency_id ts acc e :
  expected_titles w data date agency_id ts acc = Raise e ↔ first_fault w date ts = Some e.
Proof.
  revert acc. induction ts as [|t ts IH]; intros acc; cbn [expected_titles]; [done|].
  rewrite first_fault_cons.
  destruct (expected_title w data date agency_id acc t) as [acc1|e1] eqn:Ht; cbn [bind].
  - destruct (title_fault w date t) as [e'|] eqn:Hf; [|apply IH].
    apply expected_title_raise with (data := data) (agency_id := agency_id) (acc := acc)
      in Hf. congruence.
  - apply expected_title_raise in Ht. rewrite Ht. split; intros [= <-]; done.
Qed.

Lemma expected_items_raise w data date agency_filter items results e :
  expected_items w data date agency_filter items results = Raise e
  ↔ first_fault w date (relevant_titles agency_filter items) = Some e.
Proof.
  revert results. induction items as [|[k0 info0] items IH]; intros results;
    cbn [expected_items]; [done|].
  cbn [relevant_titles List.flat_map fst snd]. rewrite first_fault_app.
  fold (relevant_titles agency_filter items).
  unfold expected_agency. cbn [fst snd].
  destruct (filtered_out agency_filter k0) eqn:Hf; cbn [bind]; [apply IH|].
  destruct (expected_titles w data date k0 (titles info0) accum_init) as [acc|e1] eqn:Hts;
    cbn [bind].
  - destruct (first_fault w date (titles info0)) as [e'|] eqn:Hff.
    + apply expected_titles_raise with (data := data) (agency_id := k0)
        (acc := accum_init) in Hff. congruence.
    + destruct (build_record info0 acc); apply IH.
  - apply expected_titles_raise in Hts. rewrite Hts. split; intros [= <-]; done.
Qed.

(** A run raises the first fault it meets: that of the feed, else that
    of the first faulty title in the order of the index. *)
Lemma analysis_raises w date agency_filter e :
  analysis w date agency_filter = Raise e
  ↔ view_agencies w = Raise e
    ∨ ∃ data, view_agencies w = Ok data
              ∧ first_fault w date
                  (relevant_titles agency_filter (build_agency_title_map data)) = Some e.
Proof.
  unfold analysis. destruct (view_agencies w) as [data|e0]; cbn [bind].
  - rewrite expected_items_raise. split.
    + intros Hff. right. by exists data.
    + by intros [?|(data' & [= <-] & Hff)].
  - split; [intros [= <-]; by left|]. by intros [[= <-]|(? & ? & _)].
Qed.

Lemma analyze_agencies_raises w date agency_filter e :
  analyze_agencies w date agency_filter = Raise e ↔ analysis w date agency_filter = Raise e.
Proof.
  destruct (analyze_agencies_analysis w date agency_filter) as (w' & _ & ->).
  destruct (analysis w date agency_filter); cbn [bind]; split; congruence.
Qed.

(** Why the feed cannot be loaded. *)
Lemma view_agencies_raises w e :
  view_agencies w = Raise e
  ↔ (e = JSONDecodeError ∧ agencies_json w = Some NotJson)
    ∨ (agencies_json w = None
       ∧ ((e = ConnectionError ∧ ecfr_agencies = NoResponse)
          ∨ ∃ status_code body,
              ecfr_agencies = Response status_code body
              ∧ ((e = HTTPError ∧ 400 <= status_code < 600)
                 ∨ (e = JSONDecodeError ∧ ¬ (400 <= status_code < 600)
                    ∧ body = NotJson)))).
Proof.
  unfold view_agencies, served_agencies, raise_for_status.
  destruct (agencies_json w) as [[data|]|]; cbn [json_load].
  - split; [done|]. by intros [[_ ?]|[? _]].
  - split; [intros [= <-]; by left|]. by intros [[-> _]|[? _]].
  - destruct ecfr_agencies as [status_code body|]; cbn [requests_get bind].
    + destruct ((400 <=? status_code) && (status_code <? 600)) eqn:Hs; cbn [bind].
      * assert (400 <= status_code < 600) as Hrange by lia. split.
        -- intros [= <-]. right. split; [done|]. right. exists status_code, body.
           split; [done|]. by left.
        -- intros [[_ ?]|[_ [[_ ?]|(s & b & [= <- <-] & [[-> _]|(_ & Hno & _)])]]];
             done.
      * assert (¬ (400 <= status_code < 600)) as Hrange by lia.
        destruct body as [data|]; cbn [json_load].
        -- split; [done|].
           intros [[_ ?]|[_ [[_ ?]|(s & b & [= <- <-] & [[_ ?]|(_ & _ & ?)])]]]; done.
        -- split.
           ++ intros [= <-]. right. split; [done|]. right. exists status_code, NotJson.
              split; [done|]. by right.
           ++ intros [[_ ?]|[_ [[_ ?]|(s & b & [= <- <-] & [[_ ?]|(-> & _ & _)])]]];
                done.
    + split.
      * intros [= <-]. right. split; [done|]. by left.
      * intros [[_ ?]|[_ [[-> _]|(s & b & ? & _)]]]; done.
Qed.

(** Why a title stops the run. *)
Lemma title_fault_Some w date t e :
  title_fault w date t = Some e
  ↔ (e = ParseError
     ∧ (title_xml w !! xml_path t date = Some Malformed
        ∨ (title_xml w !! xml_path t date = None
           ∧ ecfr_title date t = Response 200 Malformed)))
    ∨ (e = ConnectionError
       ∧ title_xml w !! xml_path t date = None ∧ ecfr_title date t = NoResponse).
Proof.
  unfold title_fault, view_xml, served_title.
  destruct (title_xml w !! xml_path t date) as [[root|]|].
  - split; [done|]. by intros [[_ [?|[? _]]]|(_ & ? & _)].
  - split; [intros [= <-]; left; split; [done | by left]|].
    by intros [[-> _]|(_ & ? & _)].
  - destruct (ecfr_title date t) as [status_code content|]; cbn [requests_get bind].
    + destruct (status_code =? 200) eqn:Hs.
      * apply Z.eqb_eq in Hs as ->. destruct content as [root|].
        -- split; [done|]. by intros [[_ [?|[_ ?]]]|(_ & _ & ?)].
        -- split; [intros [= <-]; left; split; [done | by right]|].
           by intros [[-> _]|(_ & _ & ?)].
      * apply Z.eqb_neq in Hs. split; [done|].
        intros [[_ [?|[_ [= ? ?]]]]|(_ & _ & ?)]; done.
    + split; [intros [= <-]; by right|].
      by intros [[_ [?|[_ ?]]]|(-> & _)].
Qed.

(** A run raises exactly when the feed cannot be loaded or some title it
    reaches cannot be read, and what it raises is the first such fault
    in the order of processing.  The feed cannot be loaded when
    agencies.json is in the folder and is not JSON, or is missing and
    its request gets no response, a 4xx or 5xx status, or a body that
    is not JSON.  A title cannot be read when its file, in the folder or
    else as served with status 200, is not well-formed XML, or when the
    file is missing and its request gets no response.  Nothing catches
    these exceptions, so one such fault aborts the whole run. *)
Theorem run_raises_iff (w : data_folder) (date : string) (agency_filter : option string) :
  (∀ e, analyze_agencies w date agency_filter = Raise e
        ↔ view_agencies w = Raise e
          ∨ ∃ data,
              view_agencies w = Ok data
              ∧ first_fault w date
                  (relevant_titles agency_filter (build_agency_title_map data))
                = Some e)
  ∧ (∀ e, view_agencies w = Raise e
          ↔ (e = JSONDecodeError ∧ agencies_json w = Some NotJson)
            ∨ (agencies_json w = None
               ∧ ((e = ConnectionError ∧ ecfr_agencies = NoResponse)
                  ∨ ∃ status_code body,
                      ecfr_agencies = Response status_code body
                      ∧ ((e = HTTPError ∧ 400 <= status_code < 600)
                         ∨ (e = JSONDecodeError ∧ ¬ (400 <= status_code < 600)
                            ∧ body = NotJson)))))
  ∧ (∀ ts e, first_fault w date ts = Some e
             ↔ ∃ pre t post,
                 ts = pre ++ t :: post
                 ∧ Forall (fun t' => title_fault w date t' = None) pre
                 ∧ title_fault w date t = Some e)
  ∧ (∀ t e, title_fault w date t = Some e
            ↔ (e = ParseError
               ∧ (title_xml w !! xml_path t date = Some Malformed
                  ∨ (title_xml w !! xml_path t date = None
                     ∧ ecfr_title date t = Response 200 Malformed)))
              ∨ (e = ConnectionError
                 ∧ title_xml w !! xml_path t date = None
                 ∧ ecfr_title date t = NoResponse)).
Proof.
  split; [|split; [|split]].
  - intros e. rewrite analyze_agencies_raises. apply analysis_raises.
  - apply view_agencies_raises.
  - intros ts e. split.
    + induction ts as [|t ts IH]; [done|]. rewrite first_fault_cons.
      destruct (title_fault w date t) as [e'|] eqn:Ht.
      * intros [= <-]. by exists [], t, ts.
      * intros Hrest. destruct (IH Hrest) as (pre & t' & post & -> & Hpre & Hf).
        exists (t :: pre), t', post. split; [done|]. split; [by constructor | done].
    + intros (pre & t & post & -> & Hpre & Hf). rewrite first_fault_app.
      apply first_fault_None in Hpre. by rewrite Hpre, first_fault_cons, Hf.
  - apply title_fault_Some.
Qed.

(* =================================================================== *)
(** ** Running again *)
(* =================================================================== *)

Lemma settled_grows w w' date t : grows w w' → settled w date t → settled w' date t.
Proof.
  intros Hg [Hfile|Hsrv]; [|by right]. left.
  destruct (title_xml w !! xml_path t date) as [f|] eqn:Hf; [|done].
  by rewrite (grows_keeps _ _ _ _ Hg Hf).
Qed.

Lemma analyze_title_local data date agency_id w acc t :
  settled w date t →
  analyze_title data date agency_id w acc t
  = let* acc' := local_title w data date agency_id acc t in Ok (w, acc').
Proof.
  intros Hs. unfold analyze_title, local_title, exists_xml.
  destruct (title_xml w !! xml_path t date) as [f|] eqn:Hw.
  - cbn [negb bind]. unfold parse_title_xml, read_xml. rewrite Hw. cbn [bind].
    destruct (ET_parse f) as [root|e]; cbn [bind]; [|done].
    fold (filter_of data agency_id t).
    destruct (parse_root root _ false) as [text|e]; cbn [bind]; [|done].
    unfold push. by destruct (Str.nonblank text).
  - destruct Hs as [Hs|Hs]; [done|]. by rewrite fetch_full_title_xml_served, Hs.
Qed.

Lemma analyze_titles_local data date agency_id ts w acc :
  Forall (settled w date) ts →
  analyze_titles data date agency_id ts w acc
  = let* acc' := local_titles w data date agency_id ts acc in Ok (w, acc').
Proof.
  intros Hall. revert acc.
  induction Hall as [|t ts Ht _ IH]; intros acc; cbn [analyze_titles local_titles]; [done|].
  rewrite analyze_title_local by done.
  destruct (local_title w data date agency_id acc t); cbn [bind]; [apply IH | done].
Qed.

Lemma analyze_items_local data date agency_filter items w results :
  Forall (settled w date) (relevant_titles agency_filter items) →
  analyze_items data date agency_filter items w results
  = let* results' := local_items w data date agency_filter items results in
    Ok (w, results').
Proof.
  revert results. induction items as [|[k info] items IH]; intros results Hall;
    cbn [analyze_items local_items]; [done|].
  cbn [relevant_titles List.flat_map fst snd] in Hall.
  apply Forall_app in Hall as [Hk Hrest].
  unfold analyze_agency, local_agency. cbn [fst snd].
  destruct (filtered_out agency_filter k); cbn [bind]; [by apply IH|].
  rewrite analyze_titles_local by done.
  destruct (local_titles w data date k (titles info) accum_init) as [acc|e]; cbn [bind];
    [|done].
  destruct (build_record info acc); cbn [bind]; by apply IH.
Qed.

Lemma analyze_title_settles data date agency_id w acc t w1 acc1 :
  analyze_title data date agency_id w acc t = Ok (w1, acc1) → settled w1 date t.
Proof.
  unfold analyze_title, exists_xml, settled.
  destruct (title_xml w !! xml_path t date) as [f|] eqn:Hw.
  - cbn [negb bind]. destruct (parse_title_xml w _ _ false); cbn [bind]; [|done].
    destruct (Str.nonblank _); intros [= <- <-]; left; by rewrite Hw.
  - rewrite fetch_full_title_xml_served.
    destruct (served_title date t) as [[content|]|e] eqn:Hsrv; cbn [negb bind]; [| |done].
    + destruct (parse_title_xml _ _ _ false); cbn [bind]; [|done].
      destruct (Str.nonblank _); intros [= <- <-]; left; cbn [title_xml];
        by rewrite lookup_insert_eq.
    + intros [= <- <-]. by right.
Qed.

Lemma analyze_titles_settles data date agency_id ts w acc w' acc' :
  analyze_titles data date agency_id ts w acc = Ok (w', acc') →
  grows w w' ∧ Forall (settled w' date) ts.
Proof.
  revert w acc. induction ts as [|t ts IH]; intros w acc; cbn [analyze_titles].
  - intros [= <- <-]. split; [apply grows_refl | constructor].
  - destruct (analyze_title data date agency_id w acc t) as [[w1 acc1]|e] eqn:Ht;
      cbn [bind]; [|done].
    intros Hrest. apply IH in Hrest as [Hg Hall].
    pose proof (analyze_title_grows _ _ _ _ _ _ _ _ Ht) as Hg1.
    split; [by eapply grows_trans|]. constructor; [|done].
    eapply settled_grows; [exact Hg|]. by eapply analyze_title_settles.
Qed.

Lemma analyze_items_settles data date agency_filter items w results w' results' :
  analyze_items data date agency_filter items w results = Ok (w', results') →
  grows w w' ∧ Forall (settled w' date) (relevant_titles agency_filter items).
Proof.
  revert w results. induction items as [|[k info] items IH]; intros w results;
    cbn [analyze_items].
  - intros [= <- <-]. split; [apply grows_refl | constructor].
  - destruct (analyze_agency data date agency_filter w results (k, info))
      as [[w1 results1]|e] eqn:Ha; cbn [bind]; [|done].
    intros Hrest. apply IH in Hrest as [Hg Hall].
    cbn [relevant_titles List.flat_map fst snd]. unfold analyze_agency in Ha.
    destruct (filtered_out agency_filter k).
    + injection Ha as <- <-. by split.
    + destruct (analyze_titles data date k (titles info) w accum_init)
        as [[w2 acc]|e] eqn:Hts; cbn [bind] in Ha; [|done].
      apply analyze_titles_settles in Hts as [Hg2 Hall2].
      assert (w1 = w2) as -> by (destruct (build_record info acc); congruence).
      split; [by eapply grows_trans|]. apply Forall_app. split; [|done].
      eapply Forall_impl; [exact Hall2|]. intros t. by apply settled_grows.
Qed.

Lemma expected_local_title w data date agency_id acc t :
  settled w date t →
  expected_title w data date agency_id acc t = local_title w data date agency_id acc t.
Proof.
  intros Hs. unfold expected_title, local_title, view_xml.
  destruct (title_xml w !! xml_path t date) eqn:Hw; [done|].
  destruct Hs as [Hs|Hs]; [done|]. by rewrite Hs.
Qed.

Lemma expected_local_items w data date agency_filter items results :
  Forall (settled w date) (relevant_titles agency_filter items) →
  expected_items w data date agency_filter items results
  = local_items w data date agency_filter items results.
Proof.
  revert results. induction items as [|[k info] items IH]; intros results Hall;
    cbn [expected_items local_items]; [done|].
  cbn [relevant_titles List.flat_map fst snd] in Hall.
  apply Forall_app in Hall as [Hk Hrest].
  unfold expected_agency, local_agency. cbn [fst snd].
  destruct (filtered_out agency_filter k); cbn [bind]; [by apply IH|].
  assert (∀ acc, expected_titles w data date k (titles info) acc
                 = local_titles w data date k (titles info) acc) as ->.
  { induction Hk as [|t ts Ht _ IHt]; intros acc; cbn [expected_titles local_titles];
      [done|].
    rewrite expected_local_title by done.
    destruct (local_title w data date k acc t); cbn [bind]; [apply IHt | done]. }
  destruct (local_titles w data date k (titles info) accum_init) as [acc|e]; cbn [bind];
    [|done].
  destruct (build_record info acc); cbn [bind]; by apply IH.
Qed.

(** What a run leaves behind: agencies.json is in the folder, every title
    the run reached is settled, and the results are those the folder
    alone gives. *)
Lemma analyze_agencies_leaves w date agency_filter w' results :
  analyze_agencies w date agency_filter = Ok (w', results) →
  ∃ data,
    agencies_json w' = Some (Json data)
    ∧ Forall (settled w' date)
        (relevant_titles agency_filter (build_agency_title_map data))
    ∧ local_items w' data date agency_filter (build_agency_title_map data) [] = Ok results.
Proof.
  unfold analyze_agencies. intros Hrun.
  destruct (load_json w) as [[w0 data]|e] eqn:Hload; cbn [bind] in Hrun; [|done].
  assert (agencies_json w0 = Some (Json data)) as Hjson.
  { rewrite load_json_view in Hload. unfold view_agencies in Hload.
    destruct (agencies_json w) as [[data0|]|] eqn:Hw; cbn [json_load bind] in Hload.
    - by injection Hload as <- <-.
    - done.
    - destruct served_agencies; cbn [bind] in Hload; [|done]. by injection Hload as <- <-. }
  pose proof (analyze_items_settles _ _ _ _ _ _ _ _ Hrun) as [Hg Hall].
  destruct (analyze_items_expected data date agency_filter
              (build_agency_title_map data) w0 []) as (wx & Hgx & Hax & Heq).
  rewrite Hrun in Heq.
  destruct (expected_items w0 data date agency_filter (build_agency_title_map data) [])
    as [r|e] eqn:Hexp; cbn [bind] in Heq; [|done].
  injection Heq as -> ->.
  exists data. split; [congruence|]. split; [done|].
  rewrite <- expected_local_items by done.
  rewrite <- (expected_items_ext w0 wx) by (by apply grows_same_view). done.
Qed.

(** A run in a folder that has agencies.json and in which every title
    within reach is settled leaves the folder as it is. *)
Lemma analyze_agencies_local w date agency_filter data :
  agencies_json w = Some (Json data) →
  Forall (settled w date) (relevant_titles agency_filter (build_agency_title_map data)) →
  analyze_agencies w date agency_filter
  = let* results := local_items w data date agency_filter (build_agency_title_map data) []
    in Ok (w, results).
Proof.
  intros Hjson Hall. unfold analyze_agencies, load_json. rewrite Hjson. cbn [bind].
  by apply analyze_items_local.
Qed.

(** A run that reaches a title whose file is missing and whose request
    gets no response does not return. *)
Lemma analyze_agencies_faulty w date agency_filter data t :
  agencies_json w = Some (Json data) →
  t ∈ relevant_titles agency_filter (build_agency_title_map data) →
  title_xml w !! xml_path t date = None →
  ecfr_title date t = NoResponse →
  ∃ e, analyze_agencies w date agency_filter = Raise e.
Proof.
  intros Hjson Hin Hw Hsrv.
  destruct (first_fault w date
              (relevant_titles agency_filter (build_agency_title_map data)))
    as [e|] eqn:Hff.
  - exists e. apply analyze_agencies_raises, analysis_raises. right. exists data.
    split; [|done]. unfold view_agencies. by rewrite Hjson.
  - exfalso. apply first_fault_None in Hff.
    eapply Forall_forall in Hff; [|exact Hin].
    assert (title_fault w date t = Some ConnectionError) as Hf
        by (apply title_fault_Some; by right).
    congruence.
Qed.

(* =================================================================== *)
(** ** Every contributing document is counted *)
(* =================================================================== *)

Lemma extracted_grows w w' data date k t :
  grows w w' → settled w date t →
  extracted w' data date k t = extracted w data date k t.
Proof.
  intros Hg Hs. unfold extracted, parse_title_xml, read_xml.
  destruct (title_xml w !! xml_path t date) as [f|] eqn:Hw.
  - by rewrite (grows_keeps _ _ _ _ Hg Hw).
  - destruct Hs as [Hs|Hs]; [done|]. by rewrite (grows_missing _ _ _ _ Hg Hw Hs).
Qed.

Lemma contributing_app w data date k ts1 ts2 :
  contributing w data date k (ts1 ++ ts2)
  = contributing w data date k ts1 ++ contributing w data date k ts2.
Proof. unfold contributing. apply List.flat_map_app. Qed.

Lemma contributing_grows w w' data date k ts :
  grows w w' → Forall (settled w date) ts →
  contributing w' data date k ts = contributing w data date k ts.
Proof.
  intros Hg. induction 1 as [|t ts Ht _ IH]; [done|].
  unfold contributing in *. cbn [List.flat_map].
  by rewrite IH, (extracted_grows w w') by done.
Qed.

(** Which pairs are contributing documents. *)
Lemma elem_of_contributing w data date k ts t s :
  (t, s) ∈ contributing w data date k ts
  ↔ t ∈ ts
    ∧ parse_title_xml w (xml_path t date)
        (chapter_filter (relevant_chapters data k t)) false = Ok s
    ∧ Str.nonblank s = true.
Proof.
  induction ts as [|t0 ts IH].
  - split; [intros Hin; by apply elem_of_nil in Hin|].
    intros [Hin _]. by apply elem_of_nil in Hin.
  - unfold contributing in *. cbn [List.flat_map]. rewrite elem_of_app, IH, elem_of_cons.
    unfold extracted, filter_of.
    destruct (parse_title_xml w (xml_path t0 date) _ false) as [text|e] eqn:Hp.
    + destruct (Str.nonblank text) eqn:Hn.
      * rewrite list_elem_of_singleton. split.
        -- intros [[= -> ->]|(Hin & Hrest)]; [by split; [left|] | by split; [right|]].
        -- intros [[->|Hin] [Hparse Hnb]]; [|by right].
           left. rewrite Hp in Hparse. by injection Hparse as <-.
      * split.
        -- intros [Hin|(Hin & Hrest)]; [by apply elem_of_nil in Hin | by split; [right|]].
        -- intros [[->|Hin] [Hparse Hnb]]; [|by right].
           rewrite Hp in Hparse. injection Hparse as <-. congruence.
    + split.
      * intros [Hin|(Hin & Hrest)]; [by apply elem_of_nil in Hin | by split; [right|]].
      * intros [[->|Hin] [Hparse Hnb]]; [|by right]. by rewrite Hp in Hparse.
Qed.

Lemma add_all_one acc t s :
  {| combined_text := String.append (combined_text acc) (String.append " " s);
     total_word_count := total_word_count acc + compute_word_count s;
     analyzed_titles := analyzed_titles acc ++ [t] |}
  = add_all acc [(t, s)].
Proof. by rewrite <- add_all_cons, add_all_nil. Qed.

(** One title: the accumulators take its text exactly when it is a
    contributing document in the folder the pass leaves. *)
Lemma analyze_title_contributing data date k w acc t w1 acc1 :
  analyze_title data date k w acc t = Ok (w1, acc1) →
  acc1 = add_all acc (contributing w1 data date k [t]).
Proof.
  unfold analyze_title, exists_xml, contributing, extracted, filter_of.
  cbn [List.flat_map]. rewrite app_nil_r.
  destruct (title_xml w !! xml_path t date) as [f|] eqn:Hw; cbn [negb bind].
  - destruct (parse_title_xml w _ _ false) as [text|e] eqn:Hp; cbn [bind]; [|done].
    destruct (Str.nonblank text) eqn:Hn; intros [= <- <-]; rewrite Hp, Hn;
      [apply add_all_one | by rewrite add_all_nil].
  - rewrite fetch_full_title_xml_served.
    destruct (served_title date t) as [[content|]|e] eqn:Hsrv; cbn [negb bind]; [| |done].
    + destruct (parse_title_xml _ _ _ false) as [text|e] eqn:Hp; cbn [bind]; [|done].
      destruct (Str.nonblank text) eqn:Hn; intros [= <- <-]; rewrite Hp, Hn;
        [apply add_all_one | by rewrite add_all_nil].
    + intros [= <- <-]. unfold parse_title_xml, read_xml. rewrite Hw. cbn [bind].
      by rewrite add_all_nil.
Qed.

(** The loop over the titles: the accumulators take, in order, the
    texts of all the contributing documents among the titles. *)
Lemma analyze_titles_contributing data date k ts w acc w1 acc1 :
  analyze_titles data date k ts w acc = Ok (w1, acc1) →
  acc1 = add_all acc (contributing w1 data date k ts).
Proof.
  revert w acc. induction ts as [|t ts IH]; intros w acc; cbn [analyze_titles].
  - intros [= <- <-]. by rewrite add_all_nil.
  - destruct (analyze_title data date k w acc t) as [[wa acca]|e] eqn:Ht; cbn [bind];
      [|done].
    intros Hrest.
    pose proof (analyze_title_contributing _ _ _ _ _ _ _ _ Ht) as ->.
    pose proof (analyze_title_settles _ _ _ _ _ _ _ _ Ht) as Hs.
    pose proof (analyze_titles_settles _ _ _ _ _ _ _ _ Hrest) as [Hg _].
    apply IH in Hrest as ->. rewrite add_all_app.
    change (t :: ts) with ([t] ++ ts). rewrite contributing_app.
    rewrite (contributing_grows wa w1 data date k [t]);
      [done | done | by apply Forall_singleton].
Qed.

Lemma analyze_items_untouched data date agency_filter items w results w' results' k :
  analyze_items data date agency_filter items w results = Ok (w', results') →
  k ∉ dict_keys items →
  dict_get k results' = dict_get k results.
Proof.
  revert w results. induction items as [|[k0 info0] items IH]; intros w results;
    cbn [analyze_items].
  - by intros [= <- <-].
  - destruct (analyze_agency data date agency_filter w results (k0, info0))
      as [[w1 results1]|e] eqn:Ha; cbn [bind]; [|done].
    intros Hrest Hk. cbn [dict_keys List.map fst] in Hk.
    apply not_elem_of_cons in Hk as [Hne Hk].
    rewrite (IH _ _ Hrest Hk). unfold analyze_agency in Ha.
    destruct (filtered_out agency_filter k0); [by injection Ha as <- <-|].
    destruct (analyze_titles _ _ _ _ _ _) as [[w2 acc]|e]; cbn [bind] in Ha; [|done].
    destruct (build_record info0 acc); injection Ha as <- <-; [|done].
    by rewrite dict_get_set_ne.
Qed.

(** The entry of an item that the filter lets through: the record built
    from all its contributing documents, or no entry when there is
    none. *)
Lemma analyze_items_records data date agency_filter items w results w' results' :
  analyze_items data date agency_filter items w results = Ok (w', results') →
  NoDup (dict_keys items) →
  ∀ k info, (k, info) ∈ items → filtered_out agency_filter k = false →
    dict_get k results = None →
    dict_get k results'
    = build_record info (add_all accum_init (contributing w' data date k (titles info))).
Proof.
  revert w results. induction items as [|[k0 info0] items IH]; intros w results;
    cbn [analyze_items].
  - intros _ _ k info Hin. by apply elem_of_nil in Hin.
  - destruct (analyze_agency data date agency_filter w results (k0, info0))
      as [[w1 results1]|e] eqn:Ha; cbn [bind]; [|done].
    intros Hrest Hnd k info Hin Hf Hnone. cbn [dict_keys List.map fst] in Hnd.
    apply NoDup_cons in Hnd as [Hk0 Hnd].
    apply elem_of_cons in Hin as [[= -> ->]|Hin].
    + rewrite (analyze_items_untouched _ _ _ _ _ _ _ _ _ Hrest Hk0).
      apply analyze_items_settles in Hrest as [Hg _].
      unfold analyze_agency in Ha. rewrite Hf in Ha.
      destruct (analyze_titles data date k0 (titles info0) w accum_init)
        as [[w2 acc]|e] eqn:Hts; cbn [bind] in Ha; [|done].
      pose proof (analyze_titles_settles _ _ _ _ _ _ _ _ Hts) as [_ Hs].
      apply analyze_titles_contributing in Hts as ->.
      assert (w1 = w2) as -> by (destruct (build_record info0 _); congruence).
      rewrite (contributing_grows w2 w') by done.
      destruct (build_record info0 _) as [r|]; injection Ha as <-;
        [by rewrite dict_get_set_eq | done].
    + apply (IH _ _ Hrest Hnd k info Hin Hf).
      assert (k ≠ k0) as Hne.
      { intros ->. apply Hk0. change (k0 ∈ fst <$> items).
        apply list_elem_of_fmap. by exists (k0, info). }
      unfold analyze_agency in Ha.
      destruct (filtered_out agency_filter k0); [by injection Ha as <- <-|].
      destruct (analyze_titles _ _ _ _ _ _) as [[w2 acc]|e]; cbn [bind] in Ha; [|done].
      destruct (build_record info0 acc); injection Ha as <- <-; [|done].
      by rewrite dict_get_set_ne.
Qed.

(** The results of a run, entry by entry. *)
Lemma analyze_agencies_records w date agency_filter w' results :
  analyze_agencies w date agency_filter = Ok (w', results) →
  ∃ w0 data,
    load_json w = Ok (w0, data)
    ∧ ∀ k,
        dict_get k results
        = match dict_get k (build_agency_title_map data) with
          | Some info =>
              if filtered_out agency_filter k then None
              else build_record info
                     (add_all accum_init (contributing w' data date k (titles info)))
          | None => None
          end.
Proof.
  intros Hrun. pose proof Hrun as Hrun'. unfold analyze_agencies in Hrun.
  destruct (load_json w) as [[w0 data]|e] eqn:Hload; cbn [bind] in Hrun; [|done].
  exists w0, data. split; [done|]. intros k.
  destruct (dict_get k (build_agency_title_map data)) as [info|] eqn:Hinfo.
  - destruct (filtered_out agency_filter k) eqn:Hf.
    + destruct (dict_get k results) as [r|] eqn:Hr; [|done].
      destruct (analyze_agencies_emitted _ _ _ _ _ _ _ Hrun' Hr)
        as (w0' & data' & info' & Hload' & _ & _ & Hf' & _).
      congruence.
    + eapply analyze_items_records; [exact Hrun | apply build_agency_title_map_NoDup | | |];
        [by apply dict_get_Some_elem | done | done].
  - destruct (dict_get k results) as [r|] eqn:Hr; [|done].
    destruct (analyze_agencies_emitted _ _ _ _ _ _ _ Hrun' Hr)
      as (w0' & data' & info' & Hload' & _ & Hinfo' & _).
    congruence.
Qed.

Lemma contributing_nonblank w data date k ts :
  Forall (fun c => Str.nonblank (snd c) = true) (contributing w data date k ts).
Proof.
  apply Forall_forall. intros [t s] Hin. by apply elem_of_contributing in Hin as (_ & _ & ?).
Qed.

(** A record is built from a list of contributing documents exactly
    when the list is not empty. *)
Lemma build_record_contributing info w data date k ts :
  build_record info (add_all accum_init (contributing w data date k ts)) = None
  ↔ contributing w data date k ts = [].
Proof.
  pose proof (contributing_nonblank w data date k ts) as Hnb.
  destruct (contributing w data date k ts) as [|[t s] cs].
  - by rewrite add_all_nil.
  - apply Forall_cons in Hnb as [Hs _]. cbn [snd] in Hs. split; [|done].
    unfold build_record. cbn [add_all accum_init combined_text].
    by rewrite append_nil_l, fmap_cons, prefixed_nonblank.
Qed.



Lemma contributing_without w data date k t ts :
  extracted w data date k t = None →
  contributing w data date k ts
  = contributing w data date k (List.filter (fun t' => negb (t' =? t)) ts).
Proof.
  intros Hnone. induction ts as [|t0 ts IH]; [done|].
  unfold contributing in *. cbn [List.flat_map List.filter].
  destruct (Z.eqb_spec t0 t) as [->|Hne]; cbn [negb List.flat_map].
  - by rewrite Hnone.
  - by rewrite IH.
Qed.


(* =================================================================== *)
(** ** More on the differ *)
(* =================================================================== *)

Lemma record_date_at date (r : dict string metrics_record) history a d :
  NoDup (dict_keys r) →
  history_at (record_date date r history) a d
  = match dict_get a r with
    | Some m => if decide (d = date) then Some (metrics_subset m) else history_at history a d
    | None => history_at history a d
    end.
Proof.
  intros Hnd. unfold history_at. rewrite record_date_get by done.
  destruct (dict_get a r) as [m|]; [|done].
  destruct (decide (d = date)) as [->|Hne].
  - by rewrite dict_get_set_eq.
  - rewrite dict_get_set_ne by done. by destruct (dict_get a history).
Qed.

Lemma record_date_mem date (r : dict string metrics_record) history a :
  NoDup (dict_keys r) →
  is_Some (dict_get a (record_date date r history))
  ↔ is_Some (dict_get a history) ∨ is_Some (dict_get a r).
Proof.
  intros Hnd. rewrite record_date_get by done.
  destruct (dict_get a r) as [m|].
  - split; [intros _; right; by eexists | intros _; by eexists].
  - split; [by left | by intros [?|[? ?]]].
Qed.

Lemma expected_history_at w agency_filter dates history history' a d :
  expected_history w agency_filter dates history = Ok history' →
  (d ∈ dates →
   ∃ r, analysis w d agency_filter = Ok r
        ∧ history_at history' a d
          = match dict_get a r with
            | Some m => Some (metrics_subset m)
            | None => history_at history a d
            end)
  ∧ (d ∉ dates → history_at history' a d = history_at history a d).
Proof.
  revert history. induction dates as [|date dates IH]; intros history;
    cbn [expected_history].
  - intros [= <-]. split; [intros Hin; by apply elem_of_nil in Hin | done].
  - destruct (analysis w date agency_filter) as [r0|e] eqn:Hr0; cbn [bind]; [|done].
    intros Hrest. destruct (IH _ Hrest) as [Hin Hout].
    pose proof (analysis_NoDup _ _ _ _ Hr0) as Hnd.
    split.
    + intros Hd. destruct (decide (d ∈ dates)) as [Hd'|Hd'].
      * destruct (Hin Hd') as (r & Hr & ->). exists r. split; [done|].
        destruct (dict_get a r) as [m|] eqn:Hm; [done|].
        rewrite record_date_at by done.
        destruct (dict_get a r0) as [m0|] eqn:Hm0; [|done].
        destruct (decide (d = date)) as [->|]; [congruence | done].
      * apply elem_of_cons in Hd as [->|Hd]; [|done].
        exists r0. split; [done|]. rewrite (Hout Hd'), record_date_at by done.
        destruct (dict_get a r0); [by rewrite decide_True | done].
    + intros Hd. apply not_elem_of_cons in Hd as [Hne Hd].
      rewrite (Hout Hd), record_date_at by done.
      destruct (dict_get a r0); [by rewrite decide_False | done].
Qed.

Lemma expected_history_mem w agency_filter dates history history' a :
  expected_history w agency_filter dates history = Ok history' →
  is_Some (dict_get a history')
  ↔ is_Some (dict_get a history)
    ∨ ∃ d r, d ∈ dates ∧ analysis w d agency_filter = Ok r ∧ is_Some (dict_get a r).
Proof.
  revert history. induction dates as [|date dates IH]; intros history;
    cbn [expected_history].
  - intros [= <-]. split; [by left|].
    intros [?|(d & ? & Hin & _)]; [done | by apply elem_of_nil in Hin].
  - destruct (analysis w date agency_filter) as [r0|e] eqn:Hr0; cbn [bind]; [|done].
    intros Hrest. rewrite (IH _ Hrest), record_date_mem
      by (by eapply analysis_NoDup).
    split.
    + intros [[?|?]|(d & r & Hin & Hr & Hs)].
      * by left.
      * right. exists date, r0. split; [apply list_elem_of_here | done].
      * right. exists d, r. split; [by apply list_elem_of_further | done].
    + intros [?|(d & r & Hin & Hr & Hs)]; [by left; left|].
      apply elem_of_cons in Hin as [->|Hin].
      * left. right. congruence.
      * right. by exists d, r.
Qed.

Lemma attach_delta_other start end_ records records' key :
  attach_delta start end_ records = Ok records' →
  key ≠ "delta" → dict_get key records' = dict_get key records.
Proof.
  unfold attach_delta. intros Hatt Hne.
  destruct (dict_get start records); [|congruence].
  destruct (dict_get end_ records); [|congruence].
  destruct (delta_of _ _); cbn [bind] in Hatt; [|done].
  injection Hatt as <-. by rewrite dict_get_set_ne.
Qed.

Lemma add_deltas_at start end_ history history' a key :
  add_deltas start end_ history = Ok history' →
  key ≠ "delta" → history_at history' a key = history_at history a key.
Proof.
  intros Hadd Hne. pose proof (add_deltas_get _ _ _ _ a Hadd) as Hget.
  unfold history_at. destruct (dict_get a history) as [records|].
  - destruct Hget as (records' & Hatt & ->). by eapply attach_delta_other.
  - by rewrite Hget.
Qed.

Lemma add_deltas_mem start end_ history history' a :
  add_deltas start end_ history = Ok history' →
  is_Some (dict_get a history') ↔ is_Some (dict_get a history).
Proof.
  intros Hadd. pose proof (add_deltas_get _ _ _ _ a Hadd) as Hget.
  destruct (dict_get a history) as [records|].
  - destruct Hget as (records' & _ & ->). split; by eexists.
  - by rewrite Hget.
Qed.

(** What a call leaves in the history before any delta is attached. *)
Lemma over_time_history w dates agency_filter w' history :
  analyze_agencies_over_time w dates agency_filter = Ok (w', history) →
  ∃ history0,
    expected_history w agency_filter dates [] = Ok history0
    ∧ (∀ a key, key ≠ "delta" → history_at history a key = history_at history0 a key)
    ∧ (∀ a, is_Some (dict_get a history) ↔ is_Some (dict_get a history0)).
Proof.
  unfold analyze_agencies_over_time.
  destruct (collect_history_expected w agency_filter dates w [] (same_view_refl w))
    as (w1 & _ & ->).
  destruct (expected_history w agency_filter dates []) as [h0|e]; cbn [bind]; [|done].
  assert (∀ h : dict string (dict string history_value),
             @Ok (data_folder * dict string (dict string history_value)) (w1, h0)
             = Ok (w', h) →
             ∃ history0, Ok h0 = Ok history0
               ∧ (∀ a key, key ≠ "delta" → history_at h a key = history_at history0 a key)
               ∧ (∀ a, is_Some (dict_get a h) ↔ is_Some (dict_get a history0))) as Hsame.
  { intros h [= _ <-]. by exists h0. }
  destruct dates as [|d1 [|d2 [|d3 dates]]]; try apply Hsame.
  destruct (add_deltas d1 d2 h0) as [h1|e] eqn:Hadd; cbn [bind]; [|done].
  intros [= _ <-]. exists h0. split; [done|]. split.
  - intros a key Hne. by eapply add_deltas_at.
  - intros a. by eapply add_deltas_mem.
Qed.

(** The history of a call, date by date.  Under each requested date an
    agency has exactly the word count, checksum and complexity of the
    record [analyze_agencies] gives it at that date, and nothing when it
    has no record there; under no other key does it have anything; and
    it is in the history exactly when it has a record at some requested
    date.  (The key "delta" is left out: it may hold the delta.) *)
Theorem history_entries w dates agency_filter w' history :
  analyze_agencies_over_time w dates agency_filter = Ok (w', history) →
  (∀ a d, d ≠ "delta" → d ∈ dates →
     ∃ w1 results,
       analyze_agencies w d agency_filter = Ok (w1, results)
       ∧ history_at history a d = metrics_subset <$> dict_get a results)
  ∧ (∀ a d, d ≠ "delta" → d ∉ dates → history_at history a d = None)
  ∧ (∀ a, is_Some (dict_get a history)
          ↔ ∃ d w1 results,
              d ∈ dates
              ∧ analyze_agencies w d agency_filter = Ok (w1, results)
              ∧ is_Some (dict_get a results)).
Proof.
  intros Hrun. apply over_time_history in Hrun as (h0 & Hh0 & Hat & Hmem).
  split; [|split].
  - intros a d Hne Hin. rewrite Hat by done.
    destruct (expected_history_at _ _ _ _ _ a d Hh0) as [Hd _].
    destruct (Hd Hin) as (r & Hr & ->).
    destruct (analysis_Ok _ _ _ _ Hr) as (w1 & _ & Hrun1).
    exists w1, r. split; [done|]. by destruct (dict_get a r).
  - intros a d Hne Hout. rewrite Hat by done.
    destruct (expected_history_at _ _ _ _ _ a d Hh0) as [_ Hd]. by rewrite Hd.
  - intros a. rewrite Hmem, (expected_history_mem _ _ _ _ _ a Hh0). split.
    + intros [[? ?]|(d & r & Hin & Hr & Hs)]; [done|].
      destruct (analysis_Ok _ _ _ _ Hr) as (w1 & _ & Hrun1). by exists d, w1, r.
    + intros (d & w1 & r & Hin & Hrun1 & Hs). right. exists d, r.
      split; [done|]. split; [|done]. by apply analyze_agencies_Ok in Hrun1 as [_ ?].
Qed.

(** [GET /api/historical] answers 400 without an agency, and otherwise
    never reports on another agency than the one asked for. *)
Theorem historical_only_the_agency w dates agency_arg :
  (Str.truthy agency_arg = false →
   historical w dates agency_arg = Raise (HTTPException 400 "Agency must be specified."))
  ∧ (∀ w' history a,
        historical w dates agency_arg = Ok (w', history) →
        is_Some (dict_get a history) → a = agency_arg).
Proof.
  unfold historical. split.
  - by intros ->.
  - intros w' history a. destruct (Str.truthy agency_arg) eqn:Ht; cbn [negb]; [|done].
    intros Hrun Hs. apply over_time_history in Hrun as (h0 & Hh0 & _ & Hmem).
    apply Hmem in Hs. apply (expected_history_mem _ _ _ _ _ a Hh0) in Hs
      as [[? ?]|(d & r & _ & Hr & [m Hm])]; [done|].
    destruct (analysis_Ok _ _ _ _ Hr) as (w1 & _ & Hrun1).
    destruct (analyze_agencies_emitted _ _ _ _ _ _ _ Hrun1 Hm)
      as (_ & _ & _ & _ & _ & _ & Hf & _).
    by apply filtered_out_false.
Qed.

Lemma dict_comprehension_map {A B} (f : A → B) (d : dict string A) :
  NoDup (dict_keys d) →
  dict_comprehension f d = (fun kv => (fst kv, f (snd kv))) <$> d.
Proof.
  intros Hnd. unfold dict_comprehension.
  transitivity (List.fold_left (fun acc kv => dict_set (fst kv) (snd kv) acc)
                  ((fun kv => (fst kv, f (snd kv))) <$> d) ([] : dict string B)).
  - generalize ([] : dict string B). clear Hnd.
    induction d as [|kv d IH]; intros acc; [done|]. simpl. apply IH.
  - rewrite fold_dict_set_NoDup; [done|].
    simpl. unfold dict_keys in *. change (List.map fst ?l) with (fst <$> l) in *.
    by rewrite <- list_fmap_compose.
Qed.


(** [GET /api/agencies] lists every agency of the feed, with or without
    titles, once per feed entry, under its display name when it has one
    and under its name otherwise, in ascending order. *)
Theorem get_agencies_lists_the_feed w w0 names :
  get_agencies w = Ok (w0, names) →
  ∃ data,
    load_json w = Ok (w0, data)
    ∧ names ≡ₚ display_or_name <$> data
    ∧ StronglySorted String.le names.
Proof.
  unfold get_agencies.
  destruct (load_json w) as [[wx data]|e]; cbn [bind]; [|done].
  intros [= <- <-]. exists data. split; [done|]. unfold sorted.
  split; [apply merge_sort_Permutation | apply StronglySorted_merge_sort; apply _].
Qed.

(* =================================================================== *)
(** ** More on the sections *)
(* =================================================================== *)

Lemma merge_sections_from (chapter_text sections : dict string string) k v :
  dict_get k (merge_sections chapter_text sections) = Some v →
  dict_get k sections = Some v
  ∨ ((k, v) ∈ chapter_text ∧ Str.nonblank v = true).
Proof.
  unfold merge_sections. revert sections.
  induction chapter_text as [|[h t] ct IH]; intros sections; cbn [fold_left fst snd].
  - by left.
  - intros Hg. destruct (IH _ Hg) as [Hold|[Hin Hn]].
    + destruct (Str.nonblank t) eqn:Ht; [|by left].
      destruct (decide (h = k)) as [->|Hne].
      * rewrite dict_get_set_eq in Hold. injection Hold as <-.
        right. split; [apply list_elem_of_here | done].
      * rewrite dict_get_set_ne in Hold by done. by left.
    + right. split; [by apply list_elem_of_further | done].
Qed.

Lemma parse_sections_grows (w w' : data_folder) (p : Z * string)
    (target : option (list (option string))) (d : dict string string) :
  grows w w' →
  parse_title_xml w p target true = Ok d →
  parse_title_xml w' p target true = Ok d.
Proof.
  intros Hk. unfold parse_title_xml, read_xml.
  destruct (title_xml w !! p) as [f|] eqn:Hp; [|done].
  by rewrite (grows_keeps _ _ _ _ Hk Hp).
Qed.

Lemma extract_title_from data agency_arg date w sections t w1 sections1 :
  extract_title data agency_arg date w sections t = Ok (w1, sections1) →
  grows w w1
  ∧ ∀ k v, dict_get k sections1 = Some v →
      dict_get k sections = Some v
      ∨ (Str.nonblank v = true
         ∧ ∃ chapter_text : dict string string,
             parse_title_xml w1 (xml_path t date)
               (chapter_filter (relevant_chapters data agency_arg t)) true
             = Ok chapter_text
             ∧ (k, v) ∈ chapter_text).
Proof.
  unfold extract_title.
  set (m := if exists_xml w (xml_path t date) then Ok w
            else let* (w', _) := fetch_full_title_xml w date t in Ok w').
  assert (∀ wx, m = Ok wx → grows w wx) as Hg.
  { unfold m. intros wx. destruct (exists_xml w (xml_path t date)) eqn:Hex.
    - intros [= <-]. apply grows_refl.
    - destruct (fetch_full_title_xml w date t) as [[w2 success]|e] eqn:Hfetch;
        cbn [bind]; [|done].
      intros [= <-]. by eapply fetch_grows. }
  destruct m as [wx|e]; cbn [bind]; [|done]. specialize (Hg wx eq_refl).
  destruct (exists_xml wx (xml_path t date)).
  - destruct (parse_title_xml wx _ _ true) as [ct|e] eqn:Hp; cbn [bind]; [|done].
    intros [= <- <-]. split; [done|]. intros k v Hk.
    apply merge_sections_from in Hk as [?|[Hin Hn]]; [by left|].
    right. split; [done|]. by exists ct.
  - intros [= <- <-]. split; [done | by left].
Qed.

Lemma extract_titles_from data agency_arg date ts w sections w' sections' :
  extract_titles data agency_arg date ts w sections = Ok (w', sections') →
  grows w w'
  ∧ ∀ k v, dict_get k sections' = Some v →
      dict_get k sections = Some v
      ∨ (Str.nonblank v = true
         ∧ ∃ t (chapter_text : dict string string),
             t ∈ ts
             ∧ parse_title_xml w' (xml_path t date)
                 (chapter_filter (relevant_chapters data agency_arg t)) true
               = Ok chapter_text
             ∧ (k, v) ∈ chapter_text).
Proof.
  revert w sections. induction ts as [|t ts IH]; intros w sections; cbn [extract_titles].
  - intros [= <- <-]. split; [apply grows_refl | by left].
  - destruct (extract_title data agency_arg date w sections t) as [[w1 s1]|e] eqn:Ht;
      cbn [bind]; [|done].
    intros Hrest. apply extract_title_from in Ht as [Hg1 Hone].
    apply IH in Hrest as [Hg2 Hmany]. split; [by eapply grows_trans|].
    intros k v Hk. destruct (Hmany k v Hk) as [Hold|(Hn & t' & ct & Hin & Hp & Hkv)].
    + destruct (Hone k v Hold) as [?|(Hn & ct & Hp & Hkv)]; [by left|].
      right. split; [done|]. exists t, ct. split; [apply list_elem_of_here|].
      split; [by eapply parse_sections_grows | done].
    + right. split; [done|]. exists t', ct. split; [by apply list_elem_of_further | done].
Qed.

(** Every section returned for an agency has a text that is not blank,
    and is an entry of what sectioned mode returns for one of the titles
    the index lists for that agency, parsed with the agency's filter. *)
Theorem sections_come_from_titles w agency_arg date w' sections k v :
  extract_relevant_text_for_agency w agency_arg date = Ok (w', sections) →
  dict_get k sections = Some v →
  Str.nonblank v = true
  ∧ ∃ w0 data info t (chapter_text : dict string string),
      load_json w = Ok (w0, data)
      ∧ dict_get agency_arg (build_agency_title_map data) = Some info
      ∧ t ∈ titles info
      ∧ parse_title_xml w' (xml_path t date)
          (chapter_filter (relevant_chapters data agency_arg t)) true = Ok chapter_text
      ∧ (k, v) ∈ chapter_text.
Proof.
  unfold extract_relevant_text_for_agency, dict_item, dict_mem.
  destruct (load_json w) as [[w0 data]|e] eqn:Hload; cbn [bind]; [|done].
  destruct (dict_get agency_arg (build_agency_title_map data)) as [info|] eqn:Hinfo;
    cbn [bind negb]; [|done].
  intros Hrun Hk. apply extract_titles_from in Hrun as [_ Hfrom].
  destruct (Hfrom k v Hk) as [?|(Hn & t & ct & Hin & Hp & Hkv)]; [done|].
  split; [done|]. by exists w0, data, info, t, ct.
Qed.

Lemma extract_title_missing data agency_arg date t w sections :
  title_xml w !! xml_path t date = None →
  extract_title data agency_arg date w sections t
  = let* seen := served_title date t in
    match seen with
    | None => Ok (w, sections)
    | Some content =>
        let w1 := {| agencies_json := agencies_json w;
                     title_xml := <[xml_path t date := content]> (title_xml w) |} in
        let* chapter_text :=
          parse_title_xml w1 (xml_path t date)
            (chapter_filter (relevant_chapters data agency_arg t)) true in
        Ok (w1, merge_sections chapter_text sections)
    end.
Proof.
  intros Hw. unfold extract_title, exists_xml.
  rewrite Hw, fetch_full_title_xml_served.
  destruct (served_title date t) as [[content|]|e]; cbn [bind title_xml]; [| |done].
  - by rewrite lookup_insert_eq.
  - by rewrite Hw.
Qed.

Lemma extract_titles_app data agency_arg date pre post w sections :
  extract_titles data agency_arg date (pre ++ post) w sections
  = let* (w1, sections1) := extract_titles data agency_arg date pre w sections in
    extract_titles data agency_arg date post w1 sections1.
Proof.
  revert w sections. induction pre as [|x pre IH]; intros w sections;
    cbn [app extract_titles]; [done|].
  destruct (extract_title data agency_arg date w sections x) as [[w1 s1]|e];
    cbn [bind]; [apply IH | done].
Qed.

Lemma extract_titles_missing data agency_arg date ts w sections :
  Forall (fun t => title_xml w !! xml_path t date = None ∧ served_title date t = Ok None)
         ts →
  extract_titles data agency_arg date ts w sections = Ok (w, sections).
Proof.
  induction 1 as [|t ts [Hw Hsrv] _ IH]; cbn [extract_titles]; [done|].
  rewrite extract_title_missing, Hsrv by done. cbn [bind]. apply IH.
Qed.

(** An agency of the index none of whose titles is in the folder.  When
    every request for them is answered with a status other than 200, no
    section is returned and the route answers 404.  When the requests
    are so answered up to one that gets no response, the exception of
    the transport leaves the route instead. *)
Theorem no_title_no_section w w0 data agency_arg date info :
  load_json w = Ok (w0, data) →
  dict_get agency_arg (build_agency_title_map data) = Some info →
  Forall (fun t => title_xml w !! xml_path t date = None) (titles info) →
  (Forall (fun t => served_title date t = Ok None) (titles info) →
   extract_relevant_text_for_agency w agency_arg date = Ok (w0, [])
   ∧ get_agency_sections w agency_arg date
     = Raise (HTTPException 404 "No sections found for this agency."))
  ∧ (∀ pre t post,
       titles info = pre ++ t :: post →
       Forall (fun t' => served_title date t' = Ok None) pre →
       ecfr_title date t = NoResponse →
       extract_relevant_text_for_agency w agency_arg date = Raise ConnectionError
       ∧ get_agency_sections w agency_arg date = Raise ConnectionError).
Proof.
  intros Hload Hinfo Hmiss.
  assert (extract_relevant_text_for_agency w agency_arg date
          = extract_titles data agency_arg date (titles info) w0 []) as Hx.
  { unfold extract_relevant_text_for_agency, dict_item, dict_mem.
    rewrite Hload. cbn [bind]. rewrite Hinfo. by cbn [bind negb]. }
  rewrite <- (load_json_grows _ _ _ Hload) in Hmiss.
  split.
  - intros Hall. rewrite Hx.
    assert (extract_titles data agency_arg date (titles info) w0 [] = Ok (w0, [])) as Hts.
    { apply extract_titles_missing. apply Forall_forall. intros t Hin.
      split; [by eapply Forall_forall in Hmiss | by eapply Forall_forall in Hall]. }
    split; [done|]. unfold get_agency_sections. by rewrite Hx, Hts.
  - intros pre t post Htitles Hpre Hnone.
    assert (extract_titles data agency_arg date (titles info) w0 [] = Raise ConnectionError)
      as Hts.
    { rewrite Htitles in *. apply Forall_app in Hmiss as [Hmpre Hmpost].
      apply Forall_cons in Hmpost as [Hmt _].
      rewrite extract_titles_app, extract_titles_missing.
      - cbn [bind extract_titles]. rewrite extract_title_missing by done.
        unfold served_title. by rewrite Hnone.
      - apply Forall_forall. intros t' Hin.
        split; [by eapply Forall_forall in Hmpre | by eapply Forall_forall in Hpre]. }
    split; [by rewrite Hx|]. unfold get_agency_sections. by rewrite Hx, Hts.
Qed.

(* =================================================================== *)
(** ** The download loop *)
(* =================================================================== *)

Lemma served_answered date t : served date t = true → answered date t = true.
Proof.
  unfold served, answered, served_title. by destruct (ecfr_title date t).
Qed.

Lemma download_loop_spec date selected w successes failures w' successes' failures' :
  download_loop date selected w successes failures = Ok (w', successes', failures') →
  successes' = successes ++ List.filter (served date) selected
  ∧ failures' = failures ++ List.filter (fun t => negb (served date t)) selected
  ∧ agencies_json w' = agencies_json w
  ∧ (∀ t, t ∈ selected → served date t = true →
          served_title date t = Ok (title_xml w' !! xml_path t date))
  ∧ (∀ p, (∀ t, t ∈ selected → served date t = true → p ≠ xml_path t date) →
          title_xml w' !! p = title_xml w !! p).
Proof.
  revert w successes failures.
  induction selected as [|t rest IH]; intros w successes failures; cbn [download_loop].
  - intros [= <- <- <-]. rewrite !app_nil_r.
    split; [done|]. split; [done|]. split; [done|]. split; [|done].
    intros t Hin. by apply elem_of_nil in Hin.
  - rewrite fetch_full_title_xml_served. unfold served. cbn [List.filter].
    destruct (served_title date t) as [[content|]|e] eqn:Hsrv; cbn [bind negb]; [| |done].
    + intros Hrest. apply IH in Hrest as (-> & -> & Hjson & Hin & Hout).
      rewrite <- !app_assoc. split; [done|]. split; [done|]. split; [done|]. split.
      * intros t' Ht' Hs'. destruct (decide (t' ∈ rest)) as [Hr|Hr];
          [by apply Hin|].
        apply elem_of_cons in Ht' as [->|?]; [|done].
        rewrite Hout.
        -- cbn [title_xml]. by rewrite lookup_insert_eq.
        -- intros t2 Ht2 _ [= ->]. done.
      * intros p Hp. rewrite Hout.
        -- cbn [title_xml]. rewrite lookup_insert_ne; [done|].
           intros <-. apply (Hp t); [apply list_elem_of_here | | done].
           unfold served. by rewrite Hsrv.
        -- intros t2 Ht2 Hs2. apply Hp; [by apply list_elem_of_further | done].
    + intros Hrest. apply IH in Hrest as (-> & -> & Hjson & Hin & Hout).
      rewrite <- !app_assoc. split; [done|]. split; [done|]. split; [done|]. split.
      * intros t' Ht' Hs'. apply elem_of_cons in Ht' as [->|?]; [|by apply Hin].
        unfold served in Hs'. by rewrite Hsrv in Hs'.
      * intros p Hp. apply Hout. intros t2 Ht2 Hs2.
        apply Hp; [by apply list_elem_of_further | done].
Qed.

(** The loop stops with the exception of the transport at the first
    title whose request gets no response, and only then. *)
Lemma download_loop_raises date selected w successes failures e :
  download_loop date selected w successes failures = Raise e
  ↔ e = ConnectionError ∧ ∃ t, t ∈ selected ∧ answered date t = false.
Proof.
  revert w successes failures.
  induction selected as [|t rest IH]; intros w successes failures; cbn [download_loop].
  - split; [done | intros (_ & t & Hin & _); by apply elem_of_nil in Hin].
  - unfold fetch_full_title_xml, answered in *.
    destruct (ecfr_title date t) as [status_code content|] eqn:Hsrv;
      cbn [requests_get bind].
    + assert (∀ P : Prop, (e = ConnectionError ∧ ∃ t', t' ∈ rest ∧
                match ecfr_title date t' with Response _ _ => true | NoResponse => false end
                = false)
              ↔ (e = ConnectionError ∧ ∃ t', t' ∈ t :: rest ∧
                match ecfr_title date t' with Response _ _ => true | NoResponse => false end
                = false)) as Hshift.
      { intros _. split; intros (-> & t' & Hin & Hno); (split; [done|]); exists t'.
        - split; [by apply list_elem_of_further | done].
        - apply elem_of_cons in Hin as [->|Hin]; [by rewrite Hsrv in Hno | done]. }
      destruct (status_code =? 200); cbn [bind]; rewrite IH; apply (Hshift True).
    + split.
      * intros [= <-]. split; [done|]. exists t. split; [apply list_elem_of_here|].
        by rewrite Hsrv.
      * by intros [-> _].
Qed.

(** The download button.  Without a selection nothing happens.
    Otherwise the loop asks the server for each title in turn.  When it
    returns, the selection is split, in order, into the titles answered
    with status 200 and the others; the folder then holds, for each
    title of the first kind, the file as served, whatever was there
    before, and is unchanged elsewhere.  The loop does not return when
    some request of the selection gets no response: the exception of
    the transport ends it, and neither list is reported. *)
Theorem download_splits_the_selection date selected w :
  (download_selected date selected w = Ok None ↔ selected = [])
  ∧ (∀ w' successes failures,
      download_selected date selected w = Ok (Some (w', successes, failures)) →
      successes = List.filter (served date) selected
      ∧ failures = List.filter (fun t => negb (served date t)) selected
      ∧ agencies_json w' = agencies_json w
      ∧ (∀ t, t ∈ successes →
              served_title date t = Ok (title_xml w' !! xml_path t date))
      ∧ (∀ p, (∀ t, t ∈ successes → p ≠ xml_path t date) →
              title_xml w' !! p = title_xml w !! p))
  ∧ (∀ e, download_selected date selected w = Raise e
          ↔ e = ConnectionError ∧ ∃ t, t ∈ selected ∧ answered date t = false).
Proof.
  split; [|split].
  - unfold download_selected. destruct selected; [done|].
    split; [|done]. by destruct (download_loop _ _ _ _ _).
  - intros w' successes failures. unfold download_selected.
    destruct selected as [|t0 rest] eqn:Hsel; [done|]. rewrite <- Hsel. clear Hsel.
    destruct (download_loop date selected w [] []) as [[[w1 s1] f1]|e] eqn:Hloop;
      cbn [bind]; [|done].
    intros [= <- <- <-].
    apply download_loop_spec in Hloop as (-> & -> & Hjson & Hin & Hout).
    cbn [app]. split; [done|]. split; [done|]. split; [done|]. split.
    + intros t Ht. apply list_elem_of_In, List.filter_In in Ht as [Ht Hs].
      apply Hin; [by apply list_elem_of_In | done].
    + intros p Hp. apply Hout. intros t Ht Hs. apply Hp.
      apply list_elem_of_In, List.filter_In. split; [by apply list_elem_of_In | done].
  - intros e. unfold download_selected.
    destruct selected as [|t0 rest] eqn:Hsel.
    { split; [done | intros (_ & t & Hin & _); by apply elem_of_nil in Hin]. }
    rewrite <- Hsel. clear Hsel. rewrite <- (download_loop_raises date selected w [] [] e).
    destruct (download_loop date selected w [] []) as [?|e']; cbn [bind];
      split; intros [=]; by subst.
Qed.

(* =================================================================== *)
(** ** The shape of a checksum *)
(* =================================================================== *)

Lemma round_length (st : list Z) (kw : Z * Z) :
  length st = 8%nat → length (SHA256.round st kw) = 8%nat.
Proof.
  intros Hlen. do 9 (destruct st as [|? st]; try done).
Qed.

Lemma fold_round_length (l : list (Z * Z)) (h : list Z) :
  length h = 8%nat → length (List.fold_left SHA256.round l h) = 8%nat.
Proof.
  revert h. induction l as [|kw l IH]; intros h Hh; [done|].
  simpl. by apply IH, round_length.
Qed.

Lemma zip_with_length {A B C} (f : A → B → C) (l : list A) (k : list B) :
  length l = length k → length (SHA256.zip_with f l k) = length l.
Proof.
  revert k. induction l as [|x l IH]; intros [|y k] Hlen; try done.
  simpl. f_equal. apply IH. by injection Hlen.
Qed.

Lemma compress_length (h block : list Z) :
  length h = 8%nat → length (SHA256.compress h block) = 8%nat.
Proof.
  intros Hh. unfold SHA256.compress. rewrite zip_with_length; [done|].
  by rewrite fold_round_length.
Qed.

Lemma blocks_length (fuel : nat) (ws h : list Z) :
  length h = 8%nat → length (SHA256.blocks fuel ws h) = 8%nat.
Proof.
  revert ws h. induction fuel as [|fuel IH]; intros ws h Hh; [done|].
  destruct ws as [|x ws]; [done|]. cbn [SHA256.blocks]. by apply IH, compress_length.
Qed.

Lemma digest_length (msg : list Z) : length (SHA256.digest msg) = 8%nat.
Proof. unfold SHA256.digest. apply blocks_length. by vm_compute. Qed.

Lemma string_length_append (a b : string) :
  String.length (String.append a b) = (String.length a + String.length b)%nat.
Proof.
  induction a as [|c a IH]; [done|]. rewrite append_cons. simpl. by rewrite IH.
Qed.

Lemma all_chars_append (test : ascii → bool) (a b : string) :
  all_chars test (String.append a b) = all_chars test a && all_chars test b.
Proof.
  induction a as [|c a IH]; [done|]. rewrite append_cons. simpl.
  by rewrite IH, andb_assoc.
Qed.

Lemma hex_digit_is_hex (d : Z) :
  0 <= d < 16 → is_hex_digit (SHA256.hex_digit d) = true.
Proof.
  intros Hd. assert (∃ n : nat, (n < 16)%nat ∧ d = Z.of_nat n) as (n & Hn & ->).
  { exists (Z.to_nat d). lia. }
  do 16 (destruct n as [|n]; [done|]). lia.
Qed.

Lemma hex_of_shape (n : nat) (x : Z) :
  String.length (SHA256.hex_of n x) = n
  ∧ all_chars is_hex_digit (SHA256.hex_of n x) = true.
Proof.
  induction n as [|n [IHl IHc]]; [done|]. cbn [SHA256.hex_of String.length all_chars].
  rewrite IHl, IHc, hex_digit_is_hex; [done|].
  apply Z.mod_pos_bound. lia.
Qed.

Lemma hex_words_shape (ws : list Z) :
  String.length (SHA256.hex_words ws) = (8 * length ws)%nat
  ∧ all_chars is_hex_digit (SHA256.hex_words ws) = true.
Proof.
  unfold SHA256.hex_words. induction ws as [|x ws [IHl IHc]]; [done|].
  cbn [fold_right length]. destruct (hex_of_shape 8 x) as [Hl Hc].
  rewrite string_length_append, all_chars_append, Hl, Hc, IHl, IHc. split; [lia | done].
Qed.

(** A checksum is always 64 characters long, each one of 0-9, a-f. *)
Theorem checksum_shape (text_ : string) :
  String.length (compute_checksum text_) = 64%nat
  ∧ all_chars is_hex_digit (compute_checksum text_) = true.
Proof.
  unfold compute_checksum, SHA256.hexdigest.
  destruct (hex_words_shape (SHA256.digest (SHA256.encode text_))) as [Hl Hc].
  by rewrite Hl, Hc, digest_length.
Qed.

End Analyzer.

Arguments agency_name {grade} m.
Arguments word_count {grade} m.
Arguments checksum {grade} m.
Arguments complexity {grade} m.
Arguments titles_count {grade} m.
Arguments titles_analyzed {grade} m.
Arguments Metrics {grade} word_count checksum complexity.
Arguments Delta {grade} word_count complexity_change.
Arguments word_count_delta {grade} history agency_key.

(* ===================================================================== *)
(** ** Test vectors and worked examples *)
(* ===================================================================== *)

Example sha256_abc :
  SHA256.hexdigest "abc"
  = "ba7816bf8f01cfea414140de5dae2223b00361a396177a9cb410ff61f20015ad".
Proof. vm_compute. reflexivity. Qed.

Example sha256_empty :
  SHA256.hexdigest ""
  = "e3b0c44298fc1c149afbf4c8996fb92427ae41e4649b934ca495991b7852b855".
Proof. vm_compute. reflexivity. Qed.

Example sha256_constants :
  List.length SHA256.K = 64%nat
  ∧ List.nth 0 SHA256.K 0 = 0x428a2f98
  ∧ List.nth 63 SHA256.K 0 = 0xc67178f2
  ∧ List.nth 0 SHA256.H0 0 = 0x6a09e667.
Proof. vm_compute. repeat split. Qed.

Example split_example : Str.split "  a b
 c " = ["a"; "b"; "c"].
Proof. reflexivity. Qed.

Example strip_example : Str.strip "  Chapter I  " = "Chapter I".
Proof. reflexivity. Qed.

Example upper_example : Str.upper "iv-b" = "IV-B".
Proof. reflexivity. Qed.

(** The runs below use integer grades and a server that answers every
    request with status 404. *)
Local Abbreviation run_analyze :=
  (analyze_agencies Z Samples.grade_of Samples.no_feed Samples.not_found).
Local Abbreviation run_agency :=
  (analyze_agency Z Samples.grade_of Samples.not_found).
Local Abbreviation run_titles :=
  (analyze_titles Samples.not_found).
Local Abbreviation run_items :=
  (analyze_items Z Samples.grade_of Samples.not_found).
Local Abbreviation run_over_time :=
  (analyze_agencies_over_time Z Z.sub Samples.grade_of Samples.no_feed Samples.not_found).

(** The record of agency "A" when only title 5 ("a b c") can be read. *)
Local Abbreviation record_abc :=
  ({| agency_name := "A";
      word_count := 3;
      checksum := "f8c814861b167e8bdafbcb719eadace046c6c1cf8699f4d346bf1178d6bf9823";
      complexity := Some 6;
      titles_count := 1;
      titles_analyzed := [5] |} : metrics_record Z).

Lemma run_3_5 :
  run_analyze Samples.folder_3_5 "2024-07-01" None
  = Ok (Samples.folder_3_5, [("A", record_abc)]).
Proof. vm_compute. reflexivity. Qed.

(** C1: with title 5 as the only contributing document, reading "a b c",
    the checksum reported is the digest of " a b c", which is not the
    digest of the texts joined by single spaces. *)
Theorem C1_checksum_has_leading_space :
  run_analyze Samples.folder_3_5 "2024-07-01" None
  = Ok (Samples.folder_3_5, [("A", record_abc)])
  ∧ parse_title_xml Samples.folder_3_5 (xml_path 5 "2024-07-01") None false = Ok "a b c"
  ∧ checksum record_abc = compute_checksum (String.append " " "a b c")
  ∧ checksum record_abc ≠ compute_checksum (Str.join " " ["a b c"]).
Proof.
  split; [exact run_3_5|]. split; [reflexivity|].
  split; [vm_compute; reflexivity|]. vm_compute. discriminate.
Qed.

(** C2: agency "A" has two references to title 7, one to chapter I and
    one without a chapter; the filter handed to the parser is chapter I,
    not none. *)
Theorem C2_missing_chapter_keeps_filter :
  cfr_references Samples.agency_mixed = [Samples.scoped 7 "I"; Samples.whole 7]
  ∧ ref_chapter (Samples.whole 7) = None
  ∧ relevant_chapters Samples.feed_mixed "A" 7 = [Some "I"]
  ∧ chapter_filter (relevant_chapters Samples.feed_mixed "A" 7) = Some [Some "I"].
Proof. repeat split. Qed.

(** C3 fails as stated: of two entries named "A", with titles 1 and 2,
    the index keeps title 2 only. *)
Lemma C3_counterexample :
  ¬ (∀ t : Z,
        (∃ a, a ∈ Samples.feed_same_name ∧ name a = "A" ∧ t ∈ titles_of a) →
        ∃ info, dict_get "A" (build_agency_title_map Samples.feed_same_name) = Some info
                ∧ t ∈ titles info).
Proof.
  intros Hall. destruct (Hall 1) as (info & Hget & Hin).
  - eexists. split; [apply list_elem_of_here|]. split; [reflexivity|].
    apply list_elem_of_here.
  - vm_compute in Hget. injection Hget as <-. simpl in Hin.
    apply list_elem_of_singleton in Hin. discriminate.
Qed.

(** C4 fails as stated: two Chapter Nodes under the same heading give one
    entry. *)
Lemma C4_counterexample :
  parse_title_xml Samples.folder_chapters (xml_path 1 "2024-07-01") None true
  = Ok [("[Reserved]", "[Reserved] two")]
  ∧ length (matching_chapters Samples.doc_same_heading None) = 2%nat
  ∧ length [("[Reserved]", "[Reserved] two")] ≠ 2%nat.
Proof. split; [reflexivity|]. split; [reflexivity | discriminate]. Qed.

Lemma C4_witness :
  parse_title_xml Samples.folder_chapters (xml_path 2 "2024-07-01")
    (Some [Some "i"; Some "II"]) true
  = Ok [("Chapter I-First", "Chapter I-First one"); ("Chapter II", "two")].
Proof.
  destruct (C4_sections_by_heading Samples.folder_chapters (xml_path 2 "2024-07-01")
              Samples.doc_two_chapters (Some [Some "i"; Some "II"])
              ["Chapter I-First"; "Chapter II"])
    as (d & Hparse & _ & _ & _ & Hd).
  - reflexivity.
  - repeat constructor.
  - rewrite Hparse, Hd; [reflexivity|].
    repeat constructor; simpl; intros Hin;
      repeat (apply elem_of_cons in Hin as [Hin|Hin]; [discriminate|]);
      by apply elem_of_nil in Hin.
Defined.

(** C10 fails as stated: agency "X" is displayed as "Y", yet the lookup
    under "X" finds the agency displayed as "X" and takes its chapter. *)
Lemma C10_counterexample :
  Samples.agency_x ∈ Samples.feed_crossed
  ∧ display_name Samples.agency_x = Some "Y"
  ∧ "Y" ≠ name Samples.agency_x
  ∧ relevant_chapters Samples.feed_crossed (name Samples.agency_x) 1 = [Some "II"]
  ∧ chapter_filter (relevant_chapters Samples.feed_crossed (name Samples.agency_x) 1)
    ≠ None.
Proof.
  split; [apply list_elem_of_here|]. split; [reflexivity|]. split; [discriminate|].
  split; [reflexivity | discriminate].
Qed.

(** An empty display name does not hide the name either. *)
Example display_name_empty :
  display_or_name {| name := "X"; display_name := Some ""; cfr_references := [] |} = "X".
Proof. reflexivity. Qed.

Lemma C10_witness :
  chapter_filter (relevant_chapters Samples.feed_renamed "X" 1) = None
  ∧ parse_root Samples.doc_abc
      (chapter_filter (relevant_chapters Samples.feed_renamed "X" 1)) false
    = Ok "a b c".
Proof.
  destruct (C10_display_name_loses_chapters Samples.feed_renamed Samples.agency_x "Y" 1
              Samples.doc_abc) as (_ & Hnone & Hwhole).
  - apply list_elem_of_here.
  - reflexivity.
  - reflexivity.
  - discriminate.
  - intros b Hb Hne. apply list_elem_of_singleton in Hb. contradiction.
  - split; [exact Hnone | exact Hwhole].
Defined.

Lemma C9_witness :
  extract_relevant_text_for_agency Samples.no_feed Samples.not_found
    Samples.folder_3_5 "Nobody" "2024-07-01" = Raise (KeyError "Nobody")
  ∧ get_agency_sections Samples.no_feed Samples.not_found
      Samples.folder_3_5 "Nobody" "2024-07-01" = Raise (KeyError "Nobody").
Proof.
  apply (C9_unknown_agency_raises Samples.no_feed Samples.not_found
           Samples.folder_3_5 Samples.folder_3_5 Samples.feed_3_5).
  - reflexivity.
  - reflexivity.
Defined.

(** C6: agency "A" refers to titles 3 and 5; title 5 is in the folder
    and reads "a b c"; title 3 is missing.  When the request for title 3
    gets no response, the exception of the transport leaves
    [fetch_full_title_xml] and ends the run: title 3 is not skipped and
    no record is returned.  When the request is answered with status
    404 the run does what the claim says. *)
Theorem C6_transport_failure_aborts :
  titles_of Samples.agency_3_5 = [3; 5]
  ∧ title_xml Samples.folder_3_5 !! xml_path 3 "2024-07-01" = None
  ∧ parse_title_xml Samples.folder_3_5 (xml_path 5 "2024-07-01") None false = Ok "a b c"
  ∧ Samples.unreachable "2024-07-01" 3 = NoResponse
  ∧ fetch_full_title_xml Samples.unreachable Samples.folder_3_5 "2024-07-01" 3
    = Raise ConnectionError
  ∧ analyze_agencies Z Samples.grade_of Samples.no_feed Samples.unreachable
      Samples.folder_3_5 "2024-07-01" None
    = Raise ConnectionError
  ∧ Samples.not_found "2024-07-01" 3 = Response 404 Malformed
  ∧ run_analyze Samples.folder_3_5 "2024-07-01" None
    = Ok (Samples.folder_3_5, [("A", record_abc)]).
Proof.
  split; [reflexivity|]. split; [reflexivity|]. split; [reflexivity|].
  split; [reflexivity|]. split; [reflexivity|]. split; [vm_compute; reflexivity|].
  split; [reflexivity | exact run_3_5].
Qed.


(** An agency none of whose titles can be read gets no record. *)
Lemma C7_witness :
  run_agency Samples.feed_3_5 "2024-07-01" None Samples.folder_bare []
    ("A", {| titles := [3; 5]; info_name := "A" |})
  = Ok (Samples.folder_bare, [])
  ∧ run_analyze Samples.folder_bare "2024-07-01" None = Ok (Samples.folder_bare, [])
  ∧ dict_get "A" ([] : dict string (metrics_record Z)) = None.
Proof.
  destruct (C7_blank_text_no_record Z Samples.grade_of Samples.no_feed Samples.not_found
              Samples.folder_bare Samples.folder_bare Samples.folder_bare
              Samples.folder_bare "2024-07-01" None Samples.feed_3_5 [] []
              "A" {| titles := [3; 5]; info_name := "A" |} [] accum_init)
    as [Hpass Habsent].
  - reflexivity.
  - reflexivity.
  - reflexivity.
  - reflexivity.
  - reflexivity.
  - split; [exact Hpass|].
    assert (run_analyze Samples.folder_bare "2024-07-01" None
            = Ok (Samples.folder_bare, [])) as Hrun by reflexivity.
    split; [exact Hrun|]. exact (Habsent _ _ Hrun).
Defined.


(* ===================================================================== *)
(** ** Running again, whatever the server has become *)
(* ===================================================================== *)


Arguments metrics_subset {grade} m.
Arguments history_at {grade} history agency_key key.

(* ===================================================================== *)
(** ** Worked examples of the properties above *)
(* ===================================================================== *)

Lemma flat_mode_text_witness :
  parse_title_xml Samples.folder_chapters (xml_path 2 "2024-07-01") (Some [Some "ii"]) false
  = Ok "two".
Proof.
  exact (flat_mode_text Samples.folder_chapters (xml_path 2 "2024-07-01")
           Samples.doc_two_chapters (Some [Some "ii"]) eq_refl).
Defined.

Lemma flat_mode_stripped_witness :
  Str.strip "a b c" = "a b c" ∧ (Str.nonblank "a b c" = true ↔ "a b c" ≠ "").
Proof.
  exact (flat_mode_stripped Samples.folder_3_5 (xml_path 5 "2024-07-01") None "a b c"
           eq_refl).
Defined.

Lemma filter_without_match_is_skipped_witness :
  parse_title_xml Samples.folder_chapters (xml_path 2 "2024-07-01") (Some [Some "IX"]) false
  = Ok ""
  ∧ analyze_title Samples.not_found Samples.feed_absent_chapter "2024-07-01" "N"
      Samples.folder_chapters accum_init 2
    = Ok (Samples.folder_chapters, accum_init).
Proof.
  exact (filter_without_match_is_skipped Samples.not_found Samples.feed_absent_chapter
           "2024-07-01" "N" Samples.folder_chapters accum_init 2
           Samples.doc_two_chapters (Some "IX") [] eq_refl eq_refl eq_refl).
Defined.

Lemma filter_ignores_case_witness :
  parse_title_xml Samples.folder_chapters (xml_path 2 "2024-07-01") (Some [Some "ii"]) true
  = parse_title_xml Samples.folder_chapters (xml_path 2 "2024-07-01") (Some [Some "II"]) true.
Proof.
  apply filter_ignores_case. repeat constructor.
Defined.

Lemma sections_raise_on_empty_head_witness :
  parse_title_xml Samples.folder_empty_head (xml_path 4 "2024-07-01") None true
  = Raise AttributeError.
Proof.
  apply (sections_raise_on_empty_head Samples.folder_empty_head (xml_path 4 "2024-07-01")
           Samples.doc_empty_head None eq_refl).
  eexists _, (Element "HEAD" [] None []).
  split; [apply list_elem_of_here|]. split; reflexivity.
Defined.

Lemma unknown_filter_gives_nothing_witness :
  run_analyze Samples.folder_3_5 "2024-07-01" (Some "Nobody") = Ok (Samples.folder_3_5, []).
Proof.
  exact (unknown_filter_gives_nothing Z Samples.grade_of Samples.no_feed Samples.not_found
           Samples.folder_3_5 Samples.folder_3_5 Samples.feed_3_5 "2024-07-01" "Nobody"
           eq_refl eq_refl eq_refl).
Defined.

Lemma record_provenance_witness :
  ∃ w0 data info,
    load_json Samples.no_feed Samples.folder_3_5 = Ok (w0, data)
    ∧ dict_get "A" (build_agency_title_map data) = Some info
    ∧ agency_name record_abc = "A"
    ∧ titles_analyzed record_abc `sublist_of` titles info
    ∧ (∀ f, None = Some f → Str.truthy f = true → "A" = f).
Proof.
  exact (record_provenance Z Samples.grade_of Samples.no_feed Samples.not_found
           Samples.folder_3_5 "2024-07-01" None Samples.folder_3_5
           [("A", record_abc)] "A" record_abc run_3_5 eq_refl).
Defined.

Lemma word_count_of_the_checksummed_text_witness :
  ∃ (w0 : data_folder) (data : agencies_data) (texts : list string),
    load_json Samples.no_feed Samples.folder_3_5 = Ok (w0, data)
    ∧ Forall2 (fun (t : Z) (s : string) =>
                 parse_title_xml Samples.folder_3_5 (xml_path t "2024-07-01")
                   (chapter_filter (relevant_chapters data "A" t)) false = Ok s)
              [5] texts
    ∧ 3 = compute_word_count (prefixed texts)
    ∧ checksum record_abc = compute_checksum (prefixed texts)
    ∧ Some 6 = compute_complexity Z Samples.grade_of (prefixed texts).
Proof.
  exact (word_count_of_the_checksummed_text Z Samples.grade_of Samples.no_feed Samples.not_found
           Samples.folder_3_5 "2024-07-01" None Samples.folder_3_5
           [("A", record_abc)] "A" record_abc run_3_5 eq_refl).
Defined.

Lemma record_is_not_empty_witness :
  1 <= titles_count record_abc ∧ titles_count record_abc <= word_count record_abc.
Proof.
  exact (record_is_not_empty Z Samples.grade_of Samples.no_feed Samples.not_found
           Samples.folder_3_5 "2024-07-01" None Samples.folder_3_5
           [("A", record_abc)] "A" record_abc run_3_5 eq_refl).
Defined.

(** The feed refers to title 5 twice: its three words count for six. *)
Lemma repeated_title_counted_again_witness :
  titles_of (List.hd Samples.agency_3_5 Samples.feed_twice) = [5; 5]
  ∧ ∃ r, run_agency Samples.feed_twice "2024-07-01" None Samples.folder_3_5 []
           ("A", {| titles := [5; 5]; info_name := "A" |})
         = Ok (Samples.folder_3_5, [("A", r)])
         ∧ titles_analyzed r = [5; 5]
         ∧ titles_count r = 2
         ∧ word_count r = 6.
Proof.
  split; [reflexivity|].
  apply (repeated_title_counted_again Z Samples.grade_of Samples.not_found
           Samples.feed_twice "2024-07-01" None Samples.folder_3_5 [] "A" "A" 5 "a b c" 2).
  - reflexivity.
  - reflexivity.
  - reflexivity.
  - lia.
Defined.

(** Title 5 cached, or yet to be fetched from a server that has it. *)
Lemma cache_is_transparent_witness :
  ∃ w2', analyze_agencies Z Samples.grade_of Samples.no_feed Samples.serves_5
           Samples.folder_bare "2024-07-01" None
         = Ok (w2', [("A", record_abc)]).
Proof.
  destruct (cache_is_transparent Z Samples.grade_of Samples.no_feed Samples.serves_5
              Samples.folder_3_5 Samples.folder_bare "2024-07-01" None) as [Hok _].
  - split; [reflexivity|]. intros date t.
    unfold view_xml, Samples.folder_3_5, Samples.folder_bare. cbn [title_xml].
    rewrite lookup_empty.
    destruct (decide (xml_path 5 "2024-07-01" = xml_path t date)) as [Heq|Hne].
    + rewrite <- Heq, lookup_singleton_eq. injection Heq as <- <-. reflexivity.
    + rewrite lookup_singleton_ne by exact Hne.
      reflexivity.
  - apply (Hok Samples.folder_3_5). vm_compute. reflexivity.
Defined.


Lemma history_entries_witness :
  ∃ w' history w1 results,
    run_over_time Samples.folder_two_dates ["2024-07-01"; "2025-01-01"] (Some "A")
    = Ok (w', history)
    ∧ run_analyze Samples.folder_two_dates "2025-01-01" (Some "A") = Ok (w1, results)
    ∧ history_at history "A" "2025-01-01" = metrics_subset <$> dict_get "A" results.
Proof.
  destruct (run_over_time Samples.folder_two_dates ["2024-07-01"; "2025-01-01"] (Some "A"))
    as [[w' history]|e] eqn:Hrun; [|vm_compute in Hrun; discriminate].
  destruct (history_entries Z Z.sub Samples.grade_of Samples.no_feed Samples.not_found
              _ _ _ _ _ Hrun) as (Hat & _ & _).
  destruct (Hat "A" "2025-01-01") as (w1 & results & Hr & Heq).
  - discriminate.
  - apply list_elem_of_further, list_elem_of_here.
  - exists w', history, w1, results. split; [reflexivity|]. split; [exact Hr | exact Heq].
Defined.


Lemma sections_come_from_titles_witness :
  Str.nonblank "Chapter I-First one" = true
  ∧ ∃ w0 data info t (chapter_text : dict string string),
      load_json Samples.no_feed Samples.folder_sections = Ok (w0, data)
      ∧ dict_get "S" (build_agency_title_map data) = Some info
      ∧ t ∈ titles info
      ∧ parse_title_xml Samples.folder_sections (xml_path t "2024-07-01")
          (chapter_filter (relevant_chapters data "S" t)) true = Ok chapter_text
      ∧ ("Chapter I-First", "Chapter I-First one") ∈ chapter_text.
Proof.
  exact (sections_come_from_titles Samples.no_feed Samples.not_found Samples.folder_sections
           "S" "2024-07-01" Samples.folder_sections
           [("Chapter I-First", "Chapter I-First one")]
           "Chapter I-First" "Chapter I-First one" eq_refl eq_refl).
Defined.

Lemma no_title_no_section_witness :
  (extract_relevant_text_for_agency Samples.no_feed Samples.not_found
     Samples.folder_bare "A" "2024-07-01" = Ok (Samples.folder_bare, [])
   ∧ get_agency_sections Samples.no_feed Samples.not_found
       Samples.folder_bare "A" "2024-07-01"
     = Raise (HTTPException 404 "No sections found for this agency."))
  ∧ (extract_relevant_text_for_agency Samples.no_feed Samples.unreachable
       Samples.folder_bare "A" "2024-07-01" = Raise ConnectionError
     ∧ get_agency_sections Samples.no_feed Samples.unreachable
         Samples.folder_bare "A" "2024-07-01"
       = Raise ConnectionError).
Proof.
  split.
  - apply (no_title_no_section Samples.no_feed Samples.not_found
             Samples.folder_bare Samples.folder_bare
             Samples.feed_3_5 "A" "2024-07-01" {| titles := [3; 5]; info_name := "A" |}).
    + reflexivity.
    + reflexivity.
    + repeat constructor.
    + repeat constructor.
  - destruct (no_title_no_section Samples.no_feed Samples.unreachable
                Samples.folder_bare Samples.folder_bare
                Samples.feed_3_5 "A" "2024-07-01" {| titles := [3; 5]; info_name := "A" |})
      as [_ Hnone].
    + reflexivity.
    + reflexivity.
    + repeat constructor.
    + apply (Hnone [] 3 [5]).
      * reflexivity.
      * constructor.
      * reflexivity.
Defined.



(** Two agencies, listed as "X" and "Y", though named "Z" and "X". *)
Lemma get_agencies_lists_the_feed_witness :
  get_agencies Samples.no_feed {| agencies_json := Some (Json Samples.feed_crossed); title_xml := ∅ |}
  = Ok ({| agencies_json := Some (Json Samples.feed_crossed); title_xml := ∅ |}, ["X"; "Y"])
  ∧ ["X"; "Y"] ≡ₚ display_or_name <$> Samples.feed_crossed
  ∧ StronglySorted String.le ["X"; "Y"].
Proof.
  assert (get_agencies Samples.no_feed {| agencies_json := Some (Json Samples.feed_crossed); title_xml := ∅ |}
          = Ok ({| agencies_json := Some (Json Samples.feed_crossed); title_xml := ∅ |},
                ["X"; "Y"])) as Hrun by (vm_compute; reflexivity).
  split; [exact Hrun|].
  destruct (get_agencies_lists_the_feed Samples.no_feed _ _ _ Hrun) as (data & Hload & Hperm & Hsorted).
  injection Hload as <-. split; [exact Hperm | exact Hsorted].
Defined.

(** A run over a file that is not well-formed XML. *)
Example malformed_file_aborts_the_run :
  run_analyze
    {| agencies_json := Some (Json Samples.feed_3_5);
       title_xml := {[ xml_path 3 "2024-07-01" := Malformed;
                       xml_path 5 "2024-07-01" := WellFormed Samples.doc_abc ]} |}
    "2024-07-01" None
  = Raise ParseError.
Proof. vm_compute. reflexivity. Qed.

(** A run without agencies.json, against a server that answers the
    request for the feed with status 203 and a body that is not JSON. *)
Example undecodable_feed_aborts_the_run :
  analyze_agencies Z Samples.grade_of (Response 203 NotJson) Samples.not_found
    {| agencies_json := None; title_xml := ∅ |} "2024-07-01" None
  = Raise JSONDecodeError.
Proof. reflexivity. Qed.

(** The download of titles 3 and 5 from a server that has title 5 only,
    and from one that cannot be reached. *)
Example download_examples :
  download_selected Samples.serves_5 "2024-07-01" [3; 5] Samples.folder_bare
  = Ok (Some (Samples.folder_3_5, [5], [3]))
  ∧ download_selected Samples.unreachable "2024-07-01" [3; 5] Samples.folder_bare
    = Raise ConnectionError.
Proof. split; [vm_compute; reflexivity | reflexivity]. Qed.
